(** * Mechanics roster optimisation: a shallow embedding and its properties

    The development follows the modules of the package [mechanics_roster]:

    - [config.py]          (module [Config]):      the settings and their
      validation;
    - [data_loader.py]     (module [DataLoader]):  the normalisation of the
      tabular inputs: id lists, cost table, optional avoidance list;
    - [optimizer.py]       (module [Optimizer]):   the construction of the
      0/1 program ([create_model]) and the read-out of a solved model
      ([extract_solution]);
    - [excel_generator.py] (module [ExcelGenerator]): the helpers and the
      blocks of [generate_output] that decide what a row of the roster sheet
      shows;
    - [app.py]             (module [App]):         the avoidance penalty
      reported next to the movement cost.

    Python dictionaries are finite maps ([gmap]), Python sets are finite
    sets ([gset]), exceptions are the [Raise] branch of [result], and the
    numeric cells of a data frame are rationals or NaN.  Floats are kept
    exact: the only arithmetic on them is the sum of the costs in
    [extract_solution] and of the penalties in [App], and no statement
    below depends on its rounding.  Library calls ([pd.read_excel],
    [sorted(series.unique().tolist())], [Solver.CreateSolver],
    [solution_value]) are inputs or parameters of the functions that make
    them; the workbook written by [generate_output] is not modelled. *)

From Stdlib Require Import QArith.
From stdpp Require Import gmap strings list fin_maps pretty sorting.

Open Scope Z_scope.

(** ** Exceptions and the error monad *)

Inductive Exception :=
  | KeyError
  | ValueError
  | TypeError
  | AttributeError
  | OtherError (msg : string).

Inductive result (A : Type) :=
  | Ok (a : A)
  | Raise (e : Exception).
Arguments Ok {A} a.
Arguments Raise {A} e.

#[global] Instance result_ret : MRet result := λ A a, Ok a.
#[global] Instance result_bind : MBind result :=
  λ A B f r, match r with Ok a => f a | Raise e => Raise e end.

Definition is_Ok {A} (r : result A) : Prop := ∃ a, r = Ok a.

(** A Python [for] loop whose body updates a state and may raise. *)
Fixpoint for_fold {A S : Type} (body : S → A → result S) (l : list A) (s : S)
  : result S :=
  match l with
  | [] => Ok s
  | a :: l' => s' ← body s a; for_fold body l' s'
  end.

(** A Python [for] loop whose body emits items (here: solver constraints,
    in creation order) and may raise. *)
Fixpoint for_collect {A B : Type} (body : A → result (list B)) (l : list A)
  : result (list B) :=
  match l with
  | [] => Ok []
  | a :: l' => r ← body a; rs ← for_collect body l'; Ok (r ++ rs)
  end.

(** A dictionary subscript [d[k]]: a missing key raises [KeyError]. *)
Definition subscript `{Countable K} {V} (d : gmap K V) (k : K) : result V :=
  match d !! k with
  | Some v => Ok v
  | None => Raise KeyError
  end.

(** ** Python floats and data-frame cells *)

(** A float is NaN or a number; numbers are kept exact. *)
Inductive float :=
  | Fnan
  | Fnum (q : Q).

(** A cell of a data frame read from a spreadsheet: a number (possibly NaN,
    the reading of an empty cell) or a text that is not a numeral. *)
Inductive cell :=
  | Num (f : float)
  | Text (s : string).

(** [int(c)]: truncation towards zero; NaN and text raise [ValueError]. *)
Definition py_int (c : cell) : result Z :=
  match c with
  | Num (Fnum q) => Ok (Z.quot (Qnum q) (Z.pos (Qden q)))
  | Num Fnan => Raise ValueError
  | Text _ => Raise ValueError
  end.

(** [float(c)]: NaN stays NaN, text raises [ValueError]. *)
Definition py_float (c : cell) : result float :=
  match c with
  | Num f => Ok f
  | Text _ => Raise ValueError
  end.

(** [c > 0]: false on NaN; comparing a text with an integer raises
    [TypeError]. *)
Definition gt_zero (c : cell) : result bool :=
  match c with
  | Num (Fnum q) => Ok (bool_decide (0 < Qnum q))
  | Num Fnan => Ok false
  | Text _ => Raise TypeError
  end.

(** [pd.notna(c)] *)
Definition notna (c : cell) : bool :=
  match c with
  | Num Fnan => false
  | _ => true
  end.

(** [a + b] on floats. *)
Definition fadd (a b : float) : float :=
  match a, b with
  | Fnum p, Fnum q => Fnum (Qred (p + q))
  | _, _ => Fnan
  end.

(** A data frame: its column index and its rows in order ([iterrows]).
    [row[c]] is a subscript of the row. *)
Record DataFrame := {
  columns : list string;
  rows : list (gmap string cell)
}.

(** Log records: [WarningExc s e] is the message [s] followed by [str(e)]. *)
Inductive LogRecord :=
  | Info (msg : string)
  | Warning (msg : string)
  | WarningExc (msg : string) (e : Exception).

(** ** Strings *)

Fixpoint startswith (p s : string) : bool :=
  match p, s with
  | EmptyString, _ => true
  | String a p', String b s' => bool_decide (a = b) && startswith p' s'
  | String _ _, EmptyString => false
  end.

(** [s.endswith(p)] *)
Definition endswith (s p : string) : bool :=
  startswith (String.rev p) (String.rev s).

(** [s.replace(p, "")] for a non-empty [p]: every occurrence, left to right,
    without overlap.  [skip] counts the characters of the occurrence being
    dropped that are still to come. *)
Fixpoint remove_occurrences (p : string) (skip : nat) (s : string) : string :=
  match s with
  | EmptyString => EmptyString
  | String c s' =>
      match skip with
      | S k => remove_occurrences p k s'
      | O =>
          if startswith p s
          then remove_occurrences p (String.length p - 1) s'
          else String c (remove_occurrences p 0 s')
      end
  end.

(** ** config.py *)

Module Config.

Record Config := {
  solver : string;
  log_level : string;
  data_dir : string
}.

Definition DEFAULT_SOLVER : string := "SCIP".
Definition DEFAULT_LOG_LEVEL : string := "INFO".
Definition DEFAULT_DATA_DIR : string := "data".

Definition valid_solvers : list string := ["SCIP"; "CBC"; "GLOP"].
Definition valid_log_levels : list string :=
  ["DEBUG"; "INFO"; "WARNING"; "ERROR"; "CRITICAL"].

(** [Config._validate]: the object after validation and the warnings. *)
Definition _validate (self : Config) : Config * list LogRecord :=
  let '(self, log1) :=
    if bool_decide (solver self ∉ valid_solvers)
    then ({| solver := DEFAULT_SOLVER;
             log_level := log_level self;
             data_dir := data_dir self |},
          [Warning ("Invalid solver " +:+ solver self +:+
                    ", defaulting to " +:+ DEFAULT_SOLVER)])
    else (self, []) in
  let '(self, log2) :=
    if bool_decide (log_level self ∉ valid_log_levels)
    then ({| solver := solver self;
             log_level := DEFAULT_LOG_LEVEL;
             data_dir := data_dir self |},
          [Warning ("Invalid log level " +:+ log_level self +:+
                    ", defaulting to " +:+ DEFAULT_LOG_LEVEL)])
    else (self, []) in
  (self, log1 ++ log2).

(** [Config.__init__]: [getenv] is the process environment. *)
Definition __init__ (getenv : string → option string)
  : Config * list LogRecord :=
  _validate {| solver := default DEFAULT_SOLVER (getenv "SOLVER");
               log_level := default DEFAULT_LOG_LEVEL (getenv "LOG_LEVEL");
               data_dir := default DEFAULT_DATA_DIR (getenv "DATA_DIR") |}.

End Config.

(** ** data_loader.py *)

(** The dictionary returned by [load_data] and read by [create_model]. *)
Record Data := {
  mechanic_skills_df : DataFrame;
  mechanics : list Z;
  base_schedule_df : DataFrame;
  bases : list Z;
  periods : list Z;
  shifts : list Z;
  cost_matrix_df : DataFrame;
  cost_dict : gmap (Z * Z) float;
  base_column_mapping : list (string * Z);
  avoidance_dict : gmap (Z * Z) float
}.

Module DataLoader.

Record DataLoader := {
  self_base_column_mapping : list (string * Z)
}.

Definition __init__ : DataLoader :=
  {| self_base_column_mapping := [("A", 1); ("B", 2); ("C", 3)] |}.

(** [df[c]]: the cells of a column, [KeyError] when there is none. *)
Definition column (df : DataFrame) (c : string) : result (list cell) :=
  if bool_decide (c ∈ columns df)
  then for_collect (λ row, v ← subscript row c; Ok [v]) (rows df)
  else Raise KeyError.

(** The body of the loop over the rows of the cost matrix. *)
Definition cost_row (self : DataLoader) (cost_matrix_df : DataFrame)
    (cost_dict : gmap (Z * Z) float) (row : gmap string cell)
  : result (gmap (Z * Z) float) :=
  mechanic_id ← subscript row "id" ≫= py_int;
  for_fold (λ cost_dict '(col, base_id),
      if bool_decide (col ∈ columns cost_matrix_df)
      then c ← subscript row col ≫= py_float;
           Ok (<[(mechanic_id, base_id) := c]> cost_dict)
      else Ok cost_dict)
    (self_base_column_mapping self) cost_dict.

(** The three conversions made on a row of the avoidance list before
    anything is stored. *)
Definition avoidance_row (row : gmap string cell) : result (Z * Z * float) :=
  m1 ← subscript row "mechanic_id" ≫= py_int;
  m2 ← subscript row "avoid_mechanic_id" ≫= py_int;
  penalty ← subscript row "penalty" ≫= py_float;
  Ok (m1, m2, penalty).

(** The loop over the rows of the avoidance list inside [try]:
    [avoidance_dict] is updated in place, so what was stored before an
    exception stays stored.  The result is the dictionary and the
    exception caught, if any. *)
Fixpoint avoidance_rows (l : list (gmap string cell))
    (avoidance_dict : gmap (Z * Z) float)
  : gmap (Z * Z) float * option Exception :=
  match l with
  | [] => (avoidance_dict, None)
  | row :: l' =>
      match avoidance_row row with
      | Ok (m1, m2, penalty) =>
          avoidance_rows l'
            (<[(m2, m1) := penalty]> (<[(m1, m2) := penalty]> avoidance_dict))
      | Raise e => (avoidance_dict, Some e)
      end
  end.

(** The block "Load avoidance list (optional)".  The argument is [None]
    for no file, and otherwise what [pd.read_excel] makes of the file. *)
Definition load_avoidance (avoidance_list_file : option (result DataFrame))
  : gmap (Z * Z) float * list LogRecord :=
  match avoidance_list_file with
  | None => (∅, [])
  | Some file =>
      match file with
      | Raise e =>
          (∅, [Info "Loading avoidance list";
               WarningExc "Could not load avoidance list: " e])
      | Ok avoidance_df =>
          match avoidance_rows (rows avoidance_df) ∅ with
          | (d, None) => (d, [Info "Loading avoidance list"])
          | (d, Some e) =>
              (d, [Info "Loading avoidance list";
                   WarningExc "Could not load avoidance list: " e])
          end
      end
  end.

Section load.

(** [sorted(series.unique().tolist())] is library code: it is a
    parameter of the model. *)
Variable sorted_unique : list cell → result (list Z).

(** [load_data].  Each file argument is what [pd.read_excel] makes of
    it.  The result is the dictionary and the records logged on the
    way; an exception that escapes loses the log. *)
Definition load_data (self : DataLoader)
    (mechanic_skills_file base_schedule_file cost_matrix_file
       : result DataFrame)
    (avoidance_list_file : option (result DataFrame))
  : result (Data * list LogRecord) :=
  mechanic_skills_df ← mechanic_skills_file;
  mechanics ← column mechanic_skills_df "mechanic_id" ≫= sorted_unique;
  base_schedule_df ← base_schedule_file;
  bases ← column base_schedule_df "base_id" ≫= sorted_unique;
  periods ← column base_schedule_df "period" ≫= sorted_unique;
  shifts ← column base_schedule_df "shift" ≫= sorted_unique;
  cost_matrix_df ← cost_matrix_file;
  cost_dict ← for_fold (cost_row self cost_matrix_df)
                (rows cost_matrix_df) ∅;
  let '(avoidance_dict, log_avoidance) :=
    load_avoidance avoidance_list_file in
  Ok ({| mechanic_skills_df := mechanic_skills_df;
         mechanics := mechanics;
         base_schedule_df := base_schedule_df;
         bases := bases;
         periods := periods;
         shifts := shifts;
         cost_matrix_df := cost_matrix_df;
         cost_dict := cost_dict;
         base_column_mapping := self_base_column_mapping self;
         avoidance_dict := avoidance_dict |},
      [Info "Loading mechanic skills dataset";
       Info "Loading base aircraft schedule";
       Info "Loading cost matrix"]
      ++ log_avoidance ++
      [Info ("Loaded data: " +:+ pretty (length mechanics) +:+
             " mechanics, " +:+ pretty (length bases) +:+
             " bases, " +:+ pretty (length periods) +:+
             " periods, " +:+ pretty (length shifts) +:+ " shifts")]).

End load.

(** An instance of the library parameter for columns of integers:
    ascending, without repetition. *)
Definition int_sorted_unique (l : list cell) : result (list Z) :=
  ids ← for_collect (λ c, z ← py_int c; Ok [z]) l;
  Ok (merge_sort Z.le (remove_dups ids)).

End DataLoader.

(** ** optimizer.py *)

(** *** The solver interface

    A solver variable is named by the key under which the code stores it:
    [X m b g s] is the variable held in [x[(m, b, g, s)]] and
    [Y m1 m2 b g s] the one held in [avoidance_vars[(m1, m2, b, g, s)]].
    Both dictionaries are complete before the first constraint that reads
    them is built, so a key denotes one variable throughout. *)
Inductive var :=
  | X (m b g s : Z)
  | Y (m1 m2 b g s : Z).

#[global] Instance var_eq_dec : EqDecision var.
Proof. solve_decision. Defined.

#[global] Instance var_countable : Countable var.
Proof.
  refine (inj_countable'
    (λ v, match v with
          | X m b g s => inl (m, b, g, s)
          | Y m1 m2 b g s => inr (m1, m2, b, g, s)
          end)
    (λ e, match e with
          | inl (m, b, g, s) => X m b g s
          | inr (m1, m2, b, g, s) => Y m1 m2 b g s
          end) _).
  by intros [].
Defined.

#[global] Instance Qlt_decision (a b : Q) : Decision (a < b)%Q.
Proof. unfold Qlt. apply _. Defined.

(** A bound of a constraint; [NegInf] and [PosInf] are
    [-solver.infinity()] and [solver.infinity()]. *)
Inductive bound :=
  | NegInf
  | Fin (z : Z)
  | PosInf.

(** What [solver.IntVar(lb, ub, name)] declares. *)
Record MPVariable := {
  var_key : var;
  var_lb : Z;
  var_ub : Z;
  var_name : string
}.

(** A linear constraint [c_lb ≤ Σ c_coeffs[v]·v ≤ c_ub]. *)
Record MPConstraint := {
  c_lb : bound;
  c_ub : bound;
  c_name : string;
  c_coeffs : gmap var Z
}.

(** The state of a [pywraplp.Solver]: variables and constraints in creation
    order, and the objective. *)
Record Solver := {
  backend : string;
  variables : list MPVariable;
  constraints : list MPConstraint;
  objective : gmap var float;
  minimization : bool
}.

(** [solver.Constraint(lb, ub, name)] *)
Definition Constraint (lb ub : bound) (name : string) : MPConstraint :=
  {| c_lb := lb; c_ub := ub; c_name := name; c_coeffs := ∅ |}.

(** [constraint.SetCoefficient(v, a)] *)
Definition SetCoefficient (c : MPConstraint) (v : var) (a : Z) : MPConstraint :=
  {| c_lb := c_lb c; c_ub := c_ub c; c_name := c_name c;
     c_coeffs := <[v := a]> (c_coeffs c) |}.

(** [solver.IntVar(lb, ub, name)], for the variable stored under [key]. *)
Definition IntVar (lb ub : Z) (name : string) (key : var) (solver : Solver)
  : Solver :=
  {| backend := backend solver;
     variables := variables solver ++
       [{| var_key := key; var_lb := lb; var_ub := ub; var_name := name |}];
     constraints := constraints solver;
     objective := objective solver;
     minimization := minimization solver |}.

(** The constraints created by a block of the builder enter the solver in
    creation order. *)
Definition add_constraints (solver : Solver) (cs : list MPConstraint) : Solver :=
  {| backend := backend solver;
     variables := variables solver;
     constraints := constraints solver ++ cs;
     objective := objective solver;
     minimization := minimization solver |}.

(** [objective.SetCoefficient(v, a)] *)
Definition SetObjectiveCoefficient (solver : Solver) (v : var) (a : float)
  : Solver :=
  {| backend := backend solver;
     variables := variables solver;
     constraints := constraints solver;
     objective := <[v := a]> (objective solver);
     minimization := minimization solver |}.

(** [objective.SetMinimization()] *)
Definition SetMinimization (solver : Solver) : Solver :=
  {| backend := backend solver;
     variables := variables solver;
     constraints := constraints solver;
     objective := objective solver;
     minimization := true |}.

(** *** Integer solutions of a model *)

(** The value of the linear form of a constraint. *)
Definition linear (val : var → Z) (coeffs : gmap var Z) : Z :=
  map_fold (λ v a acc, a * val v + acc) 0 coeffs.

Definition above (lb : bound) (z : Z) : Prop :=
  match lb with
  | NegInf => True
  | Fin l => l ≤ z
  | PosInf => False
  end.

Definition below (ub : bound) (z : Z) : Prop :=
  match ub with
  | NegInf => False
  | Fin u => z ≤ u
  | PosInf => True
  end.

Definition holds (val : var → Z) (c : MPConstraint) : Prop :=
  above (c_lb c) (linear val (c_coeffs c)) ∧
  below (c_ub c) (linear val (c_coeffs c)).

#[global] Instance above_dec lb z : Decision (above lb z).
Proof. destruct lb; simpl; apply _. Defined.

#[global] Instance below_dec ub z : Decision (below ub z).
Proof. destruct ub; simpl; apply _. Defined.

#[global] Instance holds_dec val c : Decision (holds val c).
Proof. unfold holds. apply _. Defined.

(** An integer-feasible solution: every declared variable is within its
    bounds and every constraint holds. *)
Definition feasible (solver : Solver) (val : var → Z) : Prop :=
  (∀ d, d ∈ variables solver → var_lb d ≤ val (var_key d) ≤ var_ub d) ∧
  (∀ c, c ∈ constraints solver → holds val c).


(** *** The model builder and the extractor *)

Module Optimizer.

(** One entry of the list returned by [extract_solution]. *)
Record Assignment := {
  mechanic_id : Z;
  base_id : Z;
  group : Z;
  shift : Z;
  shift_name : string;
  cost : float
}.

(** What [create_model] returns (and stores in the object). *)
Record Model := {
  m_solver : Solver;
  m_x : gmap (Z * Z * Z * Z) var;
  m_mechanic_skills : gmap Z (gmap string Z);
  m_mechanic_inspector_skills : gmap Z (gmap string Z);
  m_inspector_req_columns : list string;
  m_avoidance_vars : gmap (Z * Z * Z * Z * Z) var
}.

Record RosterOptimizer := {
  solver_name : string;
  solver : option Solver;
  x : option (gmap (Z * Z * Z * Z) var);
  mechanic_skills : option (gmap Z (gmap string Z));
  mechanic_inspector_skills : option (gmap Z (gmap string Z));
  inspector_req_columns : option (list string);
  avoidance_vars : option (gmap (Z * Z * Z * Z * Z) var)
}.

Definition __init__ (solver_name : string) : RosterOptimizer :=
  {| solver_name := solver_name;
     solver := None;
     x := None;
     mechanic_skills := None;
     mechanic_inspector_skills := None;
     inspector_req_columns := None;
     avoidance_vars := None |}.

Definition aircraft_types : list string := ["aw139"; "h175"; "sk92"].
Definition skill_types : list string := ["_af"; "_r"; "_av"].

(** [int(row["base_id"])], [int(row["period"])], [int(row["shift"])] *)
Definition row_slot (row : gmap string cell) : result (Z * Z * Z) :=
  base_id ← subscript row "base_id" ≫= py_int;
  period ← subscript row "period" ≫= py_int;
  shift ← subscript row "shift" ≫= py_int;
  Ok (base_id, period, shift).

(** [skills[m].get(name, 0) == 1] *)
Definition has_skill (skills : gmap Z (gmap string Z)) (m : Z) (name : string)
  : result bool :=
  d ← subscript skills m;
  Ok (bool_decide (default 0 (d !! name) = 1)).

(** Decision variables [x[m, b, g, s]]. *)
Definition create_x (mechanics bases periods shifts : list Z)
    (st : Solver * gmap (Z * Z * Z * Z) var)
  : Solver * gmap (Z * Z * Z * Z) var :=
  foldl (λ st m,
    foldl (λ st b,
      foldl (λ st g,
        foldl (λ '(solver, x) s,
          let var_name := "x_m" +:+ pretty m +:+ "_b" +:+ pretty b +:+
                          "_g" +:+ pretty g +:+ "_s" +:+ pretty s in
          (IntVar 0 1 var_name (X m b g s) solver,
           <[(m, b, g, s) := X m b g s]> x))
        st shifts) st periods) st bases) st mechanics.

(** Constraint 1: each mechanic has at most one assignment. *)
Definition single_assignment (x : gmap (Z * Z * Z * Z) var)
    (bases periods shifts : list Z) (m : Z) : result (list MPConstraint) :=
  constraint ←
    for_fold (λ constraint b,
      for_fold (λ constraint g,
        for_fold (λ constraint s,
          v ← subscript x (m, b, g, s);
          Ok (SetCoefficient constraint v 1))
        shifts constraint) periods constraint) bases
      (Constraint (Fin 0) (Fin 1)
         ("mechanic_" +:+ pretty m +:+ "_single_assignment"));
  Ok [constraint].

(** The dictionaries [mechanic_skills] and [mechanic_inspector_skills]. *)
Definition read_skills (mechanic_skills_df : DataFrame)
  : result (gmap Z (gmap string Z) * gmap Z (gmap string Z)) :=
  for_fold (λ '((mechanic_skills, mechanic_inspector_skills)
                 : gmap Z (gmap string Z) * gmap Z (gmap string Z)) row,
    m ← subscript row "mechanic_id" ≫= py_int;
    for_fold (λ st aircraft,
      for_fold (λ '(mechanic_skills, mechanic_inspector_skills) skill,
        let col_name := aircraft +:+ skill in
        mechanic_skills ←
          (if bool_decide (col_name ∈ columns mechanic_skills_df)
           then v ← subscript row col_name ≫= py_int;
                Ok (alter (insert col_name v) m mechanic_skills)
           else Ok mechanic_skills);
        let inspector_col_name := aircraft +:+ skill +:+ "_inspec" in
        mechanic_inspector_skills ←
          (if bool_decide (inspector_col_name ∈ columns mechanic_skills_df)
           then v ← subscript row inspector_col_name ≫= py_int;
                Ok (alter (insert inspector_col_name v) m
                      mechanic_inspector_skills)
           else Ok mechanic_inspector_skills);
        Ok (mechanic_skills, mechanic_inspector_skills))
      skill_types st) aircraft_types
      (<[m := ∅]> mechanic_skills, <[m := ∅]> mechanic_inspector_skills))
    (rows mechanic_skills_df)
    ((∅, ∅) : gmap Z (gmap string Z) * gmap Z (gmap string Z)).

(** The coverage constraint built by the loop over the mechanics: a
    coefficient 1 for each mechanic whose entry [name] in [skills] is 1. *)
Definition coverage (x : gmap (Z * Z * Z * Z) var)
    (skills : gmap Z (gmap string Z)) (mechanics : list Z)
    (base_id period shift : Z) (name : string) (constraint : MPConstraint)
  : result MPConstraint :=
  for_fold (λ constraint m,
    skilled ← has_skill skills m name;
    if skilled : bool
    then v ← subscript x (m, base_id, period, shift);
         Ok (SetCoefficient constraint v 1)
    else Ok constraint)
  mechanics constraint.

Definition slot_suffix (base_id period shift : Z) : string :=
  "_base" +:+ pretty base_id +:+ "_period" +:+ pretty period +:+
  "_shift" +:+ pretty shift.

(** Constraint 2: skill coverage, the body of the loop over the rows of
    the schedule. *)
Definition skill_coverage (x : gmap (Z * Z * Z * Z) var)
    (mechanic_skills : gmap Z (gmap string Z)) (mechanics : list Z)
    (base_schedule_df : DataFrame) (row : gmap string cell)
  : result (list MPConstraint) :=
  '(base_id, period, shift) ← row_slot row;
  for_collect (λ aircraft,
    demanded ←
      (if bool_decide (aircraft ∈ columns base_schedule_df)
       then subscript row aircraft ≫= gt_zero
       else Ok false);
    if demanded : bool
    then
      for_collect (λ skill,
        let skill_name := aircraft +:+ skill in
        constraint ←
          coverage x mechanic_skills mechanics base_id period shift skill_name
            (Constraint (Fin 1) PosInf
               ("skill_" +:+ skill_name +:+ slot_suffix base_id period shift));
        Ok [constraint])
      skill_types
    else Ok [])
  aircraft_types.

(** [pd.notna(inspector_required) and inspector_required > 0] for a column
    of [inspector_req_columns]. *)
Definition inspector_required (base_schedule_df : DataFrame)
    (row : gmap string cell) (inspector_col : string) : result bool :=
  if bool_decide (inspector_col ∈ columns base_schedule_df)
  then required ← subscript row inspector_col;
       if notna required then gt_zero required else Ok false
  else Ok false.

(** Constraint 3: inspector coverage, the body of the loop over the rows. *)
Definition inspector_coverage (x : gmap (Z * Z * Z * Z) var)
    (mechanic_inspector_skills : gmap Z (gmap string Z)) (mechanics : list Z)
    (base_schedule_df : DataFrame) (inspector_req_columns : list string)
    (row : gmap string cell) : result (list MPConstraint) :=
  '(base_id, period, shift) ← row_slot row;
  for_collect (λ inspector_col,
    active ← inspector_required base_schedule_df row inspector_col;
    if active : bool
    then
      constraint ←
        coverage x mechanic_inspector_skills mechanics base_id period shift
          inspector_col
          (Constraint (Fin 1) PosInf
             ("inspector_" +:+ inspector_col +:+
              slot_suffix base_id period shift));
      Ok [constraint]
    else Ok [])
  inspector_req_columns.

(** The list [other_mechanics_with_skill]. *)
Definition other_mechanics_with_skill
    (mechanic_skills : gmap Z (gmap string Z)) (mechanics : list Z)
    (m_inspector : Z) (regular_skill_name : string) : result (list Z) :=
  for_collect (λ m,
    if bool_decide (m ≠ m_inspector)
    then skilled ← has_skill mechanic_skills m regular_skill_name;
         Ok (if skilled : bool then [m] else [])
    else Ok [])
  mechanics.

(** Constraint 4: no self-inspection, the body of the loop over
    [m_inspector]. *)
Definition no_self_inspection_for (x : gmap (Z * Z * Z * Z) var)
    (mechanic_skills mechanic_inspector_skills : gmap Z (gmap string Z))
    (mechanics : list Z) (base_id period shift : Z) (inspector_col : string)
    (m_inspector : Z) : result (list MPConstraint) :=
  let regular_skill_name := remove_occurrences "_inspec" 0 inspector_col in
  inspects ← has_skill mechanic_inspector_skills m_inspector inspector_col;
  if inspects : bool
  then
    others ← other_mechanics_with_skill mechanic_skills mechanics
               m_inspector regular_skill_name;
    match others with
    | [] => Ok []
    | _ :: _ =>
        let constraint :=
          Constraint NegInf (Fin 0)
            ("no_self_inspect_" +:+ inspector_col +:+
             slot_suffix base_id period shift +:+
             "_inspector" +:+ pretty m_inspector) in
        v ← subscript x (m_inspector, base_id, period, shift);
        let constraint := SetCoefficient constraint v 1 in
        constraint ←
          for_fold (λ constraint m_other,
            v ← subscript x (m_other, base_id, period, shift);
            Ok (SetCoefficient constraint v (-1)))
          others constraint;
        Ok [constraint]
    end
  else Ok [].

(** Constraint 4, the body of the loop over the rows. *)
Definition no_self_inspection (x : gmap (Z * Z * Z * Z) var)
    (mechanic_skills mechanic_inspector_skills : gmap Z (gmap string Z))
    (mechanics : list Z) (base_schedule_df : DataFrame)
    (inspector_req_columns : list string) (row : gmap string cell)
  : result (list MPConstraint) :=
  '(base_id, period, shift) ← row_slot row;
  for_collect (λ inspector_col,
    active ← inspector_required base_schedule_df row inspector_col;
    if active : bool
    then
      for_collect
        (no_self_inspection_for x mechanic_skills mechanic_inspector_skills
           mechanics base_id period shift inspector_col)
        mechanics
    else Ok [])
  inspector_req_columns.

(** The set [unique_pairs]: the keys [(m1, m2)] of [avoidance_dict] with
    [m1 < m2]. *)
Definition unique_pairs (avoidance_dict : gmap (Z * Z) float) : gset (Z * Z) :=
  filter (λ p, p.1 < p.2) (dom avoidance_dict).

(** Avoidance penalty variables [y]; the loop runs over the elements of
    the set [unique_pairs], in the order the set yields them. *)
Definition create_y (pairs : list (Z * Z)) (bases periods shifts : list Z)
    (st : Solver * gmap (Z * Z * Z * Z * Z) var)
  : Solver * gmap (Z * Z * Z * Z * Z) var :=
  foldl (λ st '(m1, m2),
    foldl (λ st b,
      foldl (λ st g,
        foldl (λ '(solver, avoidance_vars) s,
          let var_name := "y_avoid_m" +:+ pretty m1 +:+ "_m" +:+ pretty m2 +:+
                          "_b" +:+ pretty b +:+ "_g" +:+ pretty g +:+
                          "_s" +:+ pretty s in
          (IntVar 0 1 var_name (Y m1 m2 b g s) solver,
           <[(m1, m2, b, g, s) := Y m1 m2 b g s]> avoidance_vars))
        st shifts) st periods) st bases) st pairs.

Definition pair_slot_suffix (m1 m2 b g s : Z) : string :=
  "_m" +:+ pretty m1 +:+ "_m" +:+ pretty m2 +:+ "_b" +:+ pretty b +:+
  "_g" +:+ pretty g +:+ "_s" +:+ pretty s.

(** Linearization constraints, the body of the loop over [unique_pairs]. *)
Definition linearization (x : gmap (Z * Z * Z * Z) var)
    (avoidance_vars : gmap (Z * Z * Z * Z * Z) var)
    (bases periods shifts : list Z) (pair : Z * Z)
  : result (list MPConstraint) :=
  let '(m1, m2) := pair in
  for_collect (λ b,
    for_collect (λ g,
      for_collect (λ s,
        y_var ← subscript avoidance_vars (m1, m2, b, g, s);
        let c1 := Constraint NegInf (Fin 0)
                    ("avoid_y_le_x1" +:+ pair_slot_suffix m1 m2 b g s) in
        let c1 := SetCoefficient c1 y_var 1 in
        x1 ← subscript x (m1, b, g, s);
        let c1 := SetCoefficient c1 x1 (-1) in
        let c2 := Constraint NegInf (Fin 0)
                    ("avoid_y_le_x2" +:+ pair_slot_suffix m1 m2 b g s) in
        let c2 := SetCoefficient c2 y_var 1 in
        x2 ← subscript x (m2, b, g, s);
        let c2 := SetCoefficient c2 x2 (-1) in
        let c3 := Constraint (Fin (-1)) PosInf
                    ("avoid_y_ge_sum" +:+ pair_slot_suffix m1 m2 b g s) in
        let c3 := SetCoefficient c3 y_var (-1) in
        x1 ← subscript x (m1, b, g, s);
        let c3 := SetCoefficient c3 x1 1 in
        x2 ← subscript x (m2, b, g, s);
        let c3 := SetCoefficient c3 x2 1 in
        Ok [c1; c2; c3])
      shifts) periods) bases.

(** Objective: movement costs. *)
Definition movement_costs (x : gmap (Z * Z * Z * Z) var)
    (cost_dict : gmap (Z * Z) float) (mechanics bases periods shifts : list Z)
    (solver : Solver) : result Solver :=
  for_fold (λ solver m,
    for_fold (λ solver b,
      let cost := default (Fnum 0) (cost_dict !! (m, b)) in
      for_fold (λ solver g,
        for_fold (λ solver s,
          v ← subscript x (m, b, g, s);
          Ok (SetObjectiveCoefficient solver v cost))
        shifts solver) periods solver) bases solver) mechanics solver.

(** Objective: avoidance penalties, the body of the loop over
    [unique_pairs]. *)
Definition avoidance_penalties (avoidance_dict : gmap (Z * Z) float)
    (avoidance_vars : gmap (Z * Z * Z * Z * Z) var)
    (bases periods shifts : list Z) (solver : Solver) (pair : Z * Z)
  : result Solver :=
  let '(m1, m2) := pair in
  penalty ← subscript avoidance_dict (m1, m2);
  for_fold (λ solver b,
    for_fold (λ solver g,
      for_fold (λ solver s,
        if bool_decide (is_Some (avoidance_vars !! (m1, m2, b, g, s)))
        then v ← subscript avoidance_vars (m1, m2, b, g, s);
             Ok (SetObjectiveCoefficient solver v penalty)
        else Ok solver)
      shifts solver) periods solver) bases solver.

Section builder.

(** Whether [pywraplp.Solver.CreateSolver(name)] finds the backend. *)
Variable available : string → bool.

(** A solver as [CreateSolver] returns it. *)
Definition new_solver (name : string) : Solver :=
  {| backend := name; variables := []; constraints := [];
     objective := ∅; minimization := false |}.

(** [RosterOptimizer.create_model]: the object as the call leaves it and
    the tuple returned.  When neither the requested backend nor CBC is
    available the source goes on with [solver = None] and raises at its
    first use; the model raises [AttributeError] at once.  The log is not
    modelled. *)
Definition create_model (self : RosterOptimizer) (data : Data)
  : result (RosterOptimizer * Model) :=
  let mechanic_skills_df := mechanic_skills_df data in
  let base_schedule_df := base_schedule_df data in
  let mechanics := mechanics data in
  let bases := bases data in
  let periods := periods data in
  let shifts := shifts data in
  let cost_dict := cost_dict data in
  let avoidance_dict := avoidance_dict data in
  (* Create solver *)
  '(solver, solver_name) ←
    (if available (solver_name self)
     then Ok (new_solver (solver_name self), solver_name self)
     else if available "CBC"
          then Ok (new_solver "CBC", "CBC")
          else Raise AttributeError);
  (* Create decision variables: x[m, b, g, s] *)
  let '(solver, x) := create_x mechanics bases periods shifts (solver, ∅) in
  (* Constraint 1: Each mechanic <= 1 assignment *)
  cs ← for_collect (single_assignment x bases periods shifts) mechanics;
  let solver := add_constraints solver cs in
  (* Constraint 2: Skill coverage *)
  '(mechanic_skills, mechanic_inspector_skills) ←
    read_skills mechanic_skills_df;
  cs ← for_collect
         (skill_coverage x mechanic_skills mechanics base_schedule_df)
         (rows base_schedule_df);
  let solver := add_constraints solver cs in
  (* Constraint 3: Inspector coverage *)
  let inspector_req_columns :=
    filter (λ col, endswith col "_inspec" = true) (columns base_schedule_df) in
  cs ←
    (if bool_decide (inspector_req_columns ≠ [])
     then for_collect
            (inspector_coverage x mechanic_inspector_skills mechanics
               base_schedule_df inspector_req_columns)
            (rows base_schedule_df)
     else Ok []);
  let solver := add_constraints solver cs in
  (* Constraint 4: No self-inspection *)
  cs ←
    (if bool_decide (inspector_req_columns ≠ [])
     then for_collect
            (no_self_inspection x mechanic_skills mechanic_inspector_skills
               mechanics base_schedule_df inspector_req_columns)
            (rows base_schedule_df)
     else Ok []);
  let solver := add_constraints solver cs in
  (* Avoidance penalty variables *)
  '(solver, avoidance_vars) ←
    (if bool_decide (avoidance_dict ≠ ∅)
     then
       let unique_pairs := unique_pairs avoidance_dict in
       let '(solver, avoidance_vars) :=
         create_y (elements unique_pairs) bases periods shifts (solver, ∅) in
       (* Linearization constraints *)
       cs ← for_collect (linearization x avoidance_vars bases periods shifts)
              (elements unique_pairs);
       Ok (add_constraints solver cs, avoidance_vars)
     else Ok (solver, ∅));
  (* Objective function: movement costs *)
  solver ← movement_costs x cost_dict mechanics bases periods shifts solver;
  (* Avoidance penalties *)
  solver ←
    (if bool_decide (avoidance_dict ≠ ∅) && bool_decide (avoidance_vars ≠ ∅)
     then
       let unique_pairs := unique_pairs avoidance_dict in
       for_fold
         (avoidance_penalties avoidance_dict avoidance_vars
            bases periods shifts)
         (elements unique_pairs) solver
     else Ok solver);
  let solver := SetMinimization solver in
  Ok ({| solver_name := solver_name;
         solver := Some solver;
         x := Some x;
         mechanic_skills := Some mechanic_skills;
         mechanic_inspector_skills := Some mechanic_inspector_skills;
         inspector_req_columns := Some inspector_req_columns;
         avoidance_vars := Some avoidance_vars |},
      {| m_solver := solver;
         m_x := x;
         m_mechanic_skills := mechanic_skills;
         m_mechanic_inspector_skills := mechanic_inspector_skills;
         m_inspector_req_columns := inspector_req_columns;
         m_avoidance_vars := avoidance_vars |}).

End builder.

Section extractor.

(** [v.solution_value()] on the solved model. *)
Variable solution_value : var → Q.

(** [RosterOptimizer.extract_solution] *)
Definition extract_solution (self : RosterOptimizer)
    (mechanics bases periods shifts : list Z) (cost_dict : gmap (Z * Z) float)
  : result (list Assignment * float) :=
  match x self with
  | None => Raise ValueError
  | Some x =>
      for_fold (λ st m,
        for_fold (λ st b,
          for_fold (λ st g,
            for_fold (λ '(assignments, total_cost) s,
              v ← subscript x (m, b, g, s);
              if bool_decide (1 # 2 < solution_value v)%Q
              then
                let cost := default (Fnum 0) (cost_dict !! (m, b)) in
                Ok (assignments ++
                      [{| mechanic_id := m;
                          base_id := b;
                          group := g;
                          shift := s;
                          shift_name :=
                            if bool_decide (s = 1) then "Day" else "Night";
                          cost := cost |}],
                    fadd total_cost cost)
              else Ok (assignments, total_cost))
            shifts st) periods st) bases st) mechanics ([], Fnum 0)
  end.

End extractor.

End Optimizer.

(** ** excel_generator.py *)

Module ExcelGenerator.

(** The dictionary [base_letter_map], in the order of its items. *)
Record ExcelGenerator := {
  base_letter_map : list (Z * string)
}.

Definition __init__ : ExcelGenerator :=
  {| base_letter_map := [(1, "A"); (2, "B"); (3, "C")] |}.

(** [self.base_letter_map.get(base_id, base_id)] is a letter, or the id
    itself when the map has no letter for it. *)
Inductive base_key :=
  | Letter (s : string)
  | Id (z : Z).

#[global] Instance base_key_eq_dec : EqDecision base_key.
Proof. solve_decision. Defined.

Definition base_letter (self : ExcelGenerator) (base_id : Z) : base_key :=
  match (list_to_map (base_letter_map self) : gmap Z string) !! base_id with
  | Some s => Letter s
  | None => Id base_id
  end.

(** The entries kept for an assignment in [assignments_by_base_shift]. *)
Record AssignmentInfo := {
  info_mechanic_id : Z;
  info_group : Z;
  info_shift : Z
}.

(** The nested helper [get_position]. *)
Definition get_position (mechanic_id : Z) (has_inspector_skill_for_shift : bool)
    (mechanic_skills_dict : gmap string Z) : string :=
  if has_inspector_skill_for_shift
  then "Inspector"
  else
    let '(has_airframe, has_engine, has_avionics) :=
      foldl (λ '(has_airframe, has_engine, has_avionics) aircraft,
          let has_airframe : bool :=
            if bool_decide
                 (default 0 (mechanic_skills_dict !! (aircraft +:+ "_af")) = 1)
            then true else has_airframe in
          let has_engine : bool :=
            if bool_decide
                 (default 0 (mechanic_skills_dict !! (aircraft +:+ "_r")) = 1)
            then true else has_engine in
          let has_avionics : bool :=
            if bool_decide
                 (default 0 (mechanic_skills_dict !! (aircraft +:+ "_av")) = 1)
            then true else has_avionics in
          (has_airframe, has_engine, has_avionics))
        (false, false, false) ["aw139"; "h175"; "sk92"] in
    if has_avionics && negb (has_airframe && has_engine)
    then "Avionic"
    else if has_airframe || has_engine || has_avionics
         then "Mechanic"
         else "Mechanic".

(** The nested helper [has_skill_type]: the loop returns at the first
    aircraft with the skill. *)
Definition has_skill_type (mechanic_id : Z) (skill_type : string)
    (mechanic_skills_dict : gmap string Z) : bool :=
  (fix loop (l : list string) : bool :=
     match l with
     | [] => false
     | aircraft :: l' =>
         if bool_decide
              (default 0 (mechanic_skills_dict !! (aircraft +:+ skill_type)) = 1)
         then true
         else loop l'
     end) ["aw139"; "h175"; "sk92"].

(** The thirty day cells of a row of the roster. *)
Definition day_cells (group : Z) : list string :=
  (λ day, if bool_decide ((day ≤ 15 ∧ group = 1) ∨ (day > 15 ∧ group = 2))
          then "☑" else "☐") <$> seqZ 1 30.

(** [[k for k, v in self.base_letter_map.items() if v == base_letter][0]]:
    the first base id with that letter; an empty list has no first
    element. *)
Definition base_of_letter (self : ExcelGenerator) (base_letter : base_key)
  : result Z :=
  match filter (λ kv, Letter kv.2 = base_letter) (base_letter_map self) with
  | [] => Raise (OtherError "IndexError")
  | kv :: _ => Ok kv.1
  end.

(** [skills.get(m, {}).get(name, 0) == 1] *)
Definition listed_skill (skills : gmap Z (gmap string Z)) (m : Z)
    (name : string) : bool :=
  bool_decide (default 0 (default ∅ (skills !! m) !! name) = 1).

(** The list [other_mechanics] of the block below. *)
Definition other_mechanics (mechanic_skills : gmap Z (gmap string Z))
    (base_assignments : list AssignmentInfo) (mechanic_id : Z)
    (regular_skill_name : string) : list Z :=
  info_mechanic_id <$>
    filter (λ a, info_mechanic_id a ≠ mechanic_id ∧
                 listed_skill mechanic_skills (info_mechanic_id a)
                   regular_skill_name = true)
      base_assignments.

(** The block of [generate_output] that decides whether the mechanic of a
    row acts as inspector.  A [break] is a loop that does nothing more
    once the flag is set. *)
Definition is_inspector (self : ExcelGenerator) (base_letter : base_key)
    (shift_num : Z) (mechanic_id : Z) (base_assignments : list AssignmentInfo)
    (mechanic_skills mechanic_inspector_skills : gmap Z (gmap string Z))
    (inspector_req_columns : list string) (base_schedule_df : DataFrame)
  : result bool :=
  if bool_decide (inspector_req_columns ≠ [])
  then
    for_fold (λ (is_inspector : bool) row,
      if is_inspector
      then Ok true
      else
        base_id ← subscript row "base_id" ≫= py_int;
        k ← base_of_letter self base_letter;
        here ←
          (if bool_decide (base_id = k)
           then shift ← subscript row "shift" ≫= py_int;
                Ok (bool_decide (shift = shift_num))
           else Ok false);
        if here : bool
        then
          for_fold (λ (is_inspector : bool) inspector_col,
            if is_inspector
            then Ok true
            else
              active ← Optimizer.inspector_required base_schedule_df row
                         inspector_col;
              if active : bool
              then
                if listed_skill mechanic_inspector_skills mechanic_id
                     inspector_col
                then
                  let regular_skill_name :=
                    remove_occurrences "_inspec" 0 inspector_col in
                  Ok (bool_decide
                        (other_mechanics mechanic_skills base_assignments
                           mechanic_id regular_skill_name ≠ []))
                else Ok false
              else Ok false)
          inspector_req_columns false
        else Ok false)
    (rows base_schedule_df) false
  else Ok false.

#[global] Instance base_key_countable : Countable base_key.
Proof.
  refine (inj_countable'
    (λ k, match k with Letter s => inl s | Id z => inr z end)
    (λ e, match e with inl s => Letter s | inr z => Id z end) _).
  by intros [].
Defined.

(** The dictionary appended to a group for an assignment. *)
Definition entry (assignment : Optimizer.Assignment) : AssignmentInfo :=
  {| info_mechanic_id := Optimizer.mechanic_id assignment;
     info_group := Optimizer.group assignment;
     info_shift := Optimizer.shift assignment |}.

(** The loop "Organize assignments": the dictionary
    [assignments_by_base_shift]. *)
Definition organize (self : ExcelGenerator)
    (assignments : list Optimizer.Assignment)
  : gmap (base_key * Z) (list AssignmentInfo) :=
  foldl (λ assignments_by_base_shift assignment,
      let base_id := Optimizer.base_id assignment in
      let shift := Optimizer.shift assignment in
      let key := (base_letter self base_id, shift) in
      let assignments_by_base_shift :=
        if bool_decide (is_Some (assignments_by_base_shift !! key))
        then assignments_by_base_shift
        else <[key := []]> assignments_by_base_shift in
      alter (λ l, l ++ [entry assignment]) key assignments_by_base_shift)
    ∅ assignments.

End ExcelGenerator.

(** ** app.py *)

Module App.

Section accounting.

(** [v.solution_value()] on the solved model. *)
Variable solution_value : var → Q.

(** The block "Avoidance penalties" of [main]: the penalty reported next
    to the movement cost. *)
Definition total_avoidance_penalty (data : Data)
    (avoidance_vars : gmap (Z * Z * Z * Z * Z) var) : result float :=
  if bool_decide (avoidance_dict data ≠ ∅) && bool_decide (avoidance_vars ≠ ∅)
  then
    let unique_pairs : gset (Z * Z) :=
      filter (λ p, p.1 < p.2) (dom (avoidance_dict data)) in
    for_fold (λ total_avoidance_penalty '(m1, m2),
      penalty ← subscript (avoidance_dict data) (m1, m2);
      for_fold (λ total_avoidance_penalty b,
        for_fold (λ total_avoidance_penalty g,
          for_fold (λ total_avoidance_penalty s,
            let key := (m1, m2, b, g, s) in
            charged ←
              (if bool_decide (is_Some (avoidance_vars !! key))
               then v ← subscript avoidance_vars key;
                    Ok (bool_decide (1 # 2 < solution_value v)%Q)
               else Ok false);
            if charged : bool
            then Ok (fadd total_avoidance_penalty penalty)
            else Ok total_avoidance_penalty)
          (shifts data) total_avoidance_penalty)
        (periods data) total_avoidance_penalty)
      (bases data) total_avoidance_penalty)
    (elements unique_pairs) (Fnum 0)
  else Ok (Fnum 0).

End accounting.

End App.

(** ** Vocabulary of the statements *)

(** The pairs visited by two nested loops, in order. *)
Definition pairs {A C} (la : list A) (lc : list C) : list (A * C) :=
  a ← la; c ← lc; [(a, c)].

(** The keys [(m, b, g, s)] visited by four nested loops, in order. *)
Definition keys4 (mechanics bases periods shifts : list Z)
  : list (Z * Z * Z * Z) :=
  pairs (pairs (pairs mechanics bases) periods) shifts.

(** The record appended by [extract_solution] for a key. *)
Definition assignment_at (cost_dict : gmap (Z * Z) float) (k : Z * Z * Z * Z)
  : Optimizer.Assignment :=
  let '(m, b, g, s) := k in
  {| Optimizer.mechanic_id := m;
     Optimizer.base_id := b;
     Optimizer.group := g;
     Optimizer.shift := s;
     Optimizer.shift_name := if bool_decide (s = 1) then "Day" else "Night";
     Optimizer.cost := default (Fnum 0) (cost_dict !! (m, b)) |}.

(** Whether the variable stored under a key has a value above 0.5. *)
Definition chosen (solution_value : var → Q) (x : gmap (Z * Z * Z * Z) var)
    (k : Z * Z * Z * Z) : bool :=
  match x !! k with
  | Some v => bool_decide (1 # 2 < solution_value v)%Q
  | None => false
  end.

(** Invariant 2 of the data model: a mechanic has at most one assignment. *)
Definition single_assignment_invariant (l : list Optimizer.Assignment) : Prop :=
  ∀ m, (length (filter (λ a, Optimizer.mechanic_id a = m) l) ≤ 1)%nat.

(** What the loader stores for a parsed row of the avoidance list. *)
Definition store_pair (d : gmap (Z * Z) float) (t : Z * Z * float)
  : gmap (Z * Z) float :=
  <[(t.1.2, t.1.1) := t.2]> (<[(t.1.1, t.1.2) := t.2]> d).

(** [rows] are parsed without exception into the triples [parsed]. *)
Definition parsed_as (rows : list (gmap string cell))
    (parsed : list (Z * Z * float)) : Prop :=
  Forall2 (λ row t, DataLoader.avoidance_row row = Ok t) rows parsed.

(** A map on pairs is symmetric. *)
Definition symmetric (d : gmap (Z * Z) float) : Prop :=
  ∀ m1 m2, d !! (m1, m2) = d !! (m2, m1).

(** Two results of [load_data] that differ at most in the avoidance map. *)
Definition same_but_avoidance (d1 d2 : Data) : Prop :=
  mechanic_skills_df d1 = mechanic_skills_df d2 ∧
  mechanics d1 = mechanics d2 ∧
  base_schedule_df d1 = base_schedule_df d2 ∧
  bases d1 = bases d2 ∧
  periods d1 = periods d2 ∧
  shifts d1 = shifts d2 ∧
  cost_matrix_df d1 = cost_matrix_df d2 ∧
  cost_dict d1 = cost_dict d2 ∧
  base_column_mapping d1 = base_column_mapping d2.

(** The avoidance input [file] fails with [e] after the rows parsed into
    [parsed] were stored: the file cannot be read (nothing was stored), or
    the first row that cannot be parsed comes after the rows of [parsed]. *)
Definition fails_after (file : result DataFrame)
    (parsed : list (Z * Z * float)) (e : Exception) : Prop :=
  match file with
  | Raise e' => e' = e ∧ parsed = []
  | Ok df =>
      ∃ pre bad post,
        rows df = pre ++ bad :: post ∧
        parsed_as pre parsed ∧
        DataLoader.avoidance_row bad = Raise e
  end.

(** The variable stored under a key of [x], and its declaration. *)
Definition X4 (k : Z * Z * Z * Z) : var :=
  let '(m, b, g, s) := k in X m b g s.

Definition x_decl (k : Z * Z * Z * Z) : MPVariable :=
  let '(m, b, g, s) := k in
  {| var_key := X m b g s; var_lb := 0; var_ub := 1;
     var_name := "x_m" +:+ pretty m +:+ "_b" +:+ pretty b +:+
                 "_g" +:+ pretty g +:+ "_s" +:+ pretty s |}.

(** The variable stored under a key of [avoidance_vars], and its
    declaration. *)
Definition Y5 (k : Z * Z * Z * Z * Z) : var :=
  let '(m1, m2, b, g, s) := k in Y m1 m2 b g s.

Definition y_decl (k : Z * Z * Z * Z * Z) : MPVariable :=
  let '(m1, m2, b, g, s) := k in
  {| var_key := Y m1 m2 b g s; var_lb := 0; var_ub := 1;
     var_name := "y_avoid_m" +:+ pretty m1 +:+ "_m" +:+ pretty m2 +:+
                 "_b" +:+ pretty b +:+ "_g" +:+ pretty g +:+
                 "_s" +:+ pretty s |}.

(** The keys [(m1, m2, b, g, s)] visited by the loops over the avoidance
    pairs and the slots, in order. *)
Definition keys5 (prs : list (Z * Z)) (bases periods shifts : list Z)
  : list (Z * Z * Z * Z * Z) :=
  pairs (pairs (pairs prs bases) periods) shifts.

(** The dictionaries [x] and [avoidance_vars] after their loops. *)
Definition x_dict (ks : list (Z * Z * Z * Z)) : gmap (Z * Z * Z * Z) var :=
  foldl (λ x k, <[k := X4 k]> x) ∅ ks.

Definition y_dict (ks : list (Z * Z * Z * Z * Z))
  : gmap (Z * Z * Z * Z * Z) var :=
  foldl (λ y k, <[k := Y5 k]> y) ∅ ks.

(** Mechanic [m] has entry 1 under [name] in a skill dictionary. *)
Definition holds_skill (skills : gmap Z (gmap string Z)) (m : Z)
    (name : string) : Prop :=
  ∃ d, skills !! m = Some d ∧ d !! name = Some 1.

(** The three linearization constraints of an avoidance pair at a slot:
    [y - x1 ≤ 0], [y - x2 ≤ 0] and [-1 ≤ x1 + x2 - y]. *)
Definition avoid_y_le_x1 (m1 m2 b g s : Z) : MPConstraint :=
  {| c_lb := NegInf; c_ub := Fin 0;
     c_name := "avoid_y_le_x1" +:+ Optimizer.pair_slot_suffix m1 m2 b g s;
     c_coeffs := <[X m1 b g s := -1]> {[Y m1 m2 b g s := 1]} |}.

Definition avoid_y_le_x2 (m1 m2 b g s : Z) : MPConstraint :=
  {| c_lb := NegInf; c_ub := Fin 0;
     c_name := "avoid_y_le_x2" +:+ Optimizer.pair_slot_suffix m1 m2 b g s;
     c_coeffs := <[X m2 b g s := -1]> {[Y m1 m2 b g s := 1]} |}.

Definition avoid_y_ge_sum (m1 m2 b g s : Z) : MPConstraint :=
  {| c_lb := Fin (-1); c_ub := PosInf;
     c_name := "avoid_y_ge_sum" +:+ Optimizer.pair_slot_suffix m1 m2 b g s;
     c_coeffs :=
       <[X m2 b g s := 1]> (<[X m1 b g s := 1]> {[Y m1 m2 b g s := -1]}) |}.

(** The cell of [row] under [col] is a positive number. *)
Definition positive_cell (row : gmap string cell) (col : string) : Prop :=
  ∃ q, row !! col = Some (Num (Fnum q)) ∧ (0 < q)%Q.

(** The coefficients of a coverage constraint at slot [(b, g, s)]:
    coefficient 1 on [x[m, b, g, s]] for the mechanics of [mechanics] with
    entry 1 under [name], and no other entry. *)
Definition covers (skills : gmap Z (gmap string Z)) (mechanics : list Z)
    (name : string) (b g s : Z) (c : MPConstraint) : Prop :=
  ∀ v a, c_coeffs c !! v = Some a ↔
    a = 1 ∧ ∃ m, m ∈ mechanics ∧ holds_skill skills m name ∧ v = X m b g s.

(** Mechanic [m] is another mechanic than [m_inspector], in the pool, with
    entry 1 under [name]. *)
Definition other_with_skill (skills : gmap Z (gmap string Z))
    (mechanics : list Z) (m_inspector : Z) (name : string) (m : Z) : Prop :=
  m ∈ mechanics ∧ m ≠ m_inspector ∧ holds_skill skills m name.

(** The coefficients of a no-self-inspection constraint: 1 on the
    inspector and -1 on every other mechanic with the regular skill. *)
Definition guards (skills : gmap Z (gmap string Z)) (mechanics : list Z)
    (name : string) (m_inspector b g s : Z) (c : MPConstraint) : Prop :=
  ∀ v a, c_coeffs c !! v = Some a ↔
    (a = 1 ∧ v = X m_inspector b g s) ∨
    (a = -1 ∧ ∃ m, other_with_skill skills mechanics m_inspector name m ∧
                   v = X m b g s).

(** The regular skill of an inspector column. *)
Definition regular_skill (inspector_col : string) : string :=
  remove_occurrences "_inspec" 0 inspector_col.


(** The columns of the skill table read by [create_model]. *)
Definition skill_columns : list string :=
  (λ p, p.1 +:+ p.2) <$> pairs Optimizer.aircraft_types Optimizer.skill_types.

Definition inspector_skill_columns : list string :=
  (λ p, p.1 +:+ p.2 +:+ "_inspec") <$>
    pairs Optimizer.aircraft_types Optimizer.skill_types.

(** The body of the loop over the columns of the skill table, for the
    pair of an aircraft and a discipline. *)
Definition skills_step (df : DataFrame) (row : gmap string cell) (m : Z)
    (st : gmap Z (gmap string Z) * gmap Z (gmap string Z))
    (p : string * string)
  : result (gmap Z (gmap string Z) * gmap Z (gmap string Z)) :=
  let '(mechanic_skills, mechanic_inspector_skills) := st in
  mechanic_skills ←
    (if bool_decide (p.1 +:+ p.2 ∈ columns df)
     then v ← subscript row (p.1 +:+ p.2) ≫= py_int;
          Ok (alter (insert (p.1 +:+ p.2) v) m mechanic_skills)
     else Ok mechanic_skills);
  mechanic_inspector_skills ←
    (if bool_decide (p.1 +:+ p.2 +:+ "_inspec" ∈ columns df)
     then v ← subscript row (p.1 +:+ p.2 +:+ "_inspec") ≫= py_int;
          Ok (alter (insert (p.1 +:+ p.2 +:+ "_inspec") v) m
                mechanic_inspector_skills)
     else Ok mechanic_inspector_skills);
  Ok (mechanic_skills, mechanic_inspector_skills).

(** What a row of the skill table does to the two dictionaries. *)
Definition read_skills_row (df : DataFrame)
    (st : gmap Z (gmap string Z) * gmap Z (gmap string Z))
    (row : gmap string cell)
  : result (gmap Z (gmap string Z) * gmap Z (gmap string Z)) :=
  let '(mechanic_skills, mechanic_inspector_skills) := st in
  m ← subscript row "mechanic_id" ≫= py_int;
  for_fold (λ st aircraft,
    for_fold (λ '(mechanic_skills, mechanic_inspector_skills) skill,
      let col_name := aircraft +:+ skill in
      mechanic_skills ←
        (if bool_decide (col_name ∈ columns df)
         then v ← subscript row col_name ≫= py_int;
              Ok (alter (insert col_name v) m mechanic_skills)
         else Ok mechanic_skills);
      let inspector_col_name := aircraft +:+ skill +:+ "_inspec" in
      mechanic_inspector_skills ←
        (if bool_decide (inspector_col_name ∈ columns df)
         then v ← subscript row inspector_col_name ≫= py_int;
              Ok (alter (insert inspector_col_name v) m
                    mechanic_inspector_skills)
         else Ok mechanic_inspector_skills);
      Ok (mechanic_skills, mechanic_inspector_skills))
    Optimizer.skill_types st) Optimizer.aircraft_types
    (<[m := ∅]> mechanic_skills, <[m := ∅]> mechanic_inspector_skills).

(** The penalty stored for the pair of a key of [avoidance_vars]. *)
Definition penalty_at (avoidance_dict : gmap (Z * Z) float)
    (k : Z * Z * Z * Z * Z) : float :=
  default (Fnum 0) (avoidance_dict !! k.1.1.1).

(** Whether the penalty variable stored under a key has a value above
    0.5. *)
Definition charged (solution_value : var → Q)
    (avoidance_vars : gmap (Z * Z * Z * Z * Z) var) (k : Z * Z * Z * Z * Z)
  : bool :=
  match avoidance_vars !! k with
  | Some v => bool_decide (1 # 2 < solution_value v)%Q
  | None => false
  end.

(** Input on which [create_model] raises nothing: a backend is available;
    the cells of the skill table that are converted hold numbers and every
    mechanic of the pool has a row; the rows of the schedule name a base, a
    period and a shift of the lists, and their aircraft and inspector cells
    are numbers or empty; the avoidance pairs are mechanics of the pool. *)
Definition well_formed (available : string → bool)
    (self : Optimizer.RosterOptimizer) (data : Data) : Prop :=
  (available (Optimizer.solver_name self) = true ∨ available "CBC" = true) ∧
  (∀ row, row ∈ rows (mechanic_skills_df data) →
     (∃ m, subscript row "mechanic_id" ≫= py_int = Ok m) ∧
     (∀ name, name ∈ skill_columns ++ inspector_skill_columns →
        name ∈ columns (mechanic_skills_df data) →
        ∃ z, subscript row name ≫= py_int = Ok z)) ∧
  (∀ m, m ∈ mechanics data →
     ∃ row, row ∈ rows (mechanic_skills_df data) ∧
            subscript row "mechanic_id" ≫= py_int = Ok m) ∧
  (∀ row, row ∈ rows (base_schedule_df data) →
     (∃ b g s, Optimizer.row_slot row = Ok (b, g, s) ∧
               b ∈ bases data ∧ g ∈ periods data ∧ s ∈ shifts data) ∧
     (∀ col, col ∈ columns (base_schedule_df data) →
        col ∈ Optimizer.aircraft_types ∨ endswith col "_inspec" = true →
        ∃ f, row !! col = Some (Num f))) ∧
  (∀ m1 m2, is_Some (avoidance_dict data !! (m1, m2)) → m1 < m2 →
     m1 ∈ mechanics data ∧ m2 ∈ mechanics data).

(** The key under which an assignment is grouped. *)
Definition group_key (self : ExcelGenerator.ExcelGenerator)
    (a : Optimizer.Assignment) : ExcelGenerator.base_key * Z :=
  (ExcelGenerator.base_letter self (Optimizer.base_id a), Optimizer.shift a).

(** [sorted(series.unique().tolist())] on a column of integers: the list
    holds the integers of the cells, and no other. *)
Definition distinct_ints (sorted_unique : list cell → result (list Z)) : Prop :=
  ∀ l r, sorted_unique l = Ok r →
    ∀ z, z ∈ r ↔ ∃ c, c ∈ l ∧ py_int c = Ok z.

(** ** Sample inputs *)

Module Sample.

Definition int_cell (z : Z) : cell := Num (Fnum (inject_Z z)).
Definition nan : cell := Num Fnan.

Definition frame (cols : list string) (rs : list (list cell)) : DataFrame :=
  {| columns := cols; rows := (λ r, list_to_map (zip cols r)) <$> rs |}.

(** Three mechanics; mechanic 1 is also an airframe inspector. *)
Definition skills : DataFrame :=
  frame ["mechanic_id"; "aw139_af"; "aw139_r"; "aw139_av"; "aw139_af_inspec"]
    [int_cell <$> [1; 1; 1; 1; 1];
     int_cell <$> [2; 1; 1; 1; 0];
     int_cell <$> [3; 1; 0; 0; 0]].

(** One base, one period, two shifts; the day shift has two aircraft and
    an inspection, the night shift has no aircraft. *)
Definition schedule_columns : list string :=
  ["base_id"; "period"; "shift"; "aw139"; "aw139_af_inspec"].

Definition day_row : gmap string cell :=
  list_to_map (zip schedule_columns
    [int_cell 1; int_cell 1; int_cell 1; int_cell 2; int_cell 1]).

Definition night_row : gmap string cell :=
  list_to_map (zip schedule_columns
    [int_cell 1; int_cell 1; int_cell 2; int_cell 0; nan]).

Definition schedule : DataFrame :=
  {| columns := schedule_columns; rows := [day_row; night_row] |}.

Definition costs : DataFrame :=
  frame ["id"; "A"; "B"; "C"]
    [int_cell <$> [1; 5; 15; 20];
     int_cell <$> [2; 5; 25; 30]].

(** A well-formed avoidance list. *)
Definition avoidance : DataFrame :=
  frame ["mechanic_id"; "avoid_mechanic_id"; "penalty"]
    [int_cell <$> [1; 2; 50]].

(** An avoidance list whose second row has an empty mechanic cell. *)
Definition broken_avoidance : DataFrame :=
  frame ["mechanic_id"; "avoid_mechanic_id"; "penalty"]
    [int_cell <$> [1; 2; 50];
     [nan; int_cell 3; int_cell 70]].

Definition load (avoidance_list_file : option (result DataFrame))
  : result (Data * list LogRecord) :=
  DataLoader.load_data DataLoader.int_sorted_unique DataLoader.__init__
    (Ok skills) (Ok schedule) (Ok costs) avoidance_list_file.

(** The dictionary [load] returns, or an empty one. *)
Definition data (avoidance_list_file : option (result DataFrame)) : Data :=
  match load avoidance_list_file with
  | Ok (d, _) => d
  | Raise _ =>
      {| mechanic_skills_df := frame [] []; mechanics := [];
         base_schedule_df := frame [] []; bases := []; periods := [];
         shifts := []; cost_matrix_df := frame [] []; cost_dict := ∅;
         base_column_mapping := []; avoidance_dict := ∅ |}
  end.

Definition optimizer : Optimizer.RosterOptimizer := Optimizer.__init__ "SCIP".

(** [create_model] on the loaded sample, every backend being available. *)
Definition build (avoidance_list_file : option (result DataFrame))
  : result (Optimizer.RosterOptimizer * Optimizer.Model) :=
  Optimizer.create_model (λ _, true) optimizer (data avoidance_list_file).

(** The object and the model [build] returns, or empty ones. *)
Definition built (avoidance_list_file : option (result DataFrame))
  : Optimizer.RosterOptimizer * Optimizer.Model :=
  match build avoidance_list_file with
  | Ok r => r
  | Raise _ =>
      (optimizer,
       {| Optimizer.m_solver := Optimizer.new_solver "";
          Optimizer.m_x := ∅;
          Optimizer.m_mechanic_skills := ∅;
          Optimizer.m_mechanic_inspector_skills := ∅;
          Optimizer.m_inspector_req_columns := [];
          Optimizer.m_avoidance_vars := ∅ |})
  end.

(** Mechanics 1 and 2 both work the day shift at base 1; no avoidance
    variable is raised. *)
Definition together (v : var) : Z :=
  if bool_decide (v = X 1 1 1 1 ∨ v = X 2 1 1 1) then 1 else 0.

(** An avoidance list that names mechanic 9, who is not in the pool. *)
Definition stranger_avoidance : DataFrame :=
  frame ["mechanic_id"; "avoid_mechanic_id"; "penalty"]
    [int_cell <$> [1; 9; 50]].

(** The log of [load], or an empty one. *)
Definition log (avoidance_list_file : option (result DataFrame))
  : list LogRecord :=
  match load avoidance_list_file with
  | Ok (_, l) => l
  | Raise _ => []
  end.

(** The values the solver reports for [together]. *)
Definition value (v : var) : Q := inject_Z (together v).

(** [extract_solution] on the model of the sample. *)
Definition extract (solution_value : var → Q)
    (avoidance_list_file : option (result DataFrame))
  : result (list Optimizer.Assignment * float) :=
  Optimizer.extract_solution solution_value (built avoidance_list_file).1
    (mechanics (data avoidance_list_file)) (bases (data avoidance_list_file))
    (periods (data avoidance_list_file)) (shifts (data avoidance_list_file))
    (cost_dict (data avoidance_list_file)).

(** What [extract] returns, or an empty list. *)
Definition extracted (solution_value : var → Q)
    (avoidance_list_file : option (result DataFrame))
  : list Optimizer.Assignment * float :=
  match extract solution_value avoidance_list_file with
  | Ok r => r
  | Raise _ => ([], Fnum 0)
  end.

(** A pool of one mechanic, who holds every skill of the sample and the
    inspector skill. *)
Definition lone_skills : DataFrame :=
  frame ["mechanic_id"; "aw139_af"; "aw139_r"; "aw139_av"; "aw139_af_inspec"]
    [int_cell <$> [1; 1; 1; 1; 1]].

Definition lone_build
  : result (Optimizer.RosterOptimizer * Optimizer.Model) :=
  '(d, _) ← DataLoader.load_data DataLoader.int_sorted_unique
               DataLoader.__init__ (Ok lone_skills) (Ok schedule) (Ok costs)
               None;
  Optimizer.create_model (λ _, true) optimizer d.

(** The constraints of the model of the lone mechanic. *)
Definition lone_constraints : list MPConstraint :=
  match lone_build with
  | Ok (_, model) => constraints (Optimizer.m_solver model)
  | Raise _ => []
  end.

Definition lone_variables : list MPVariable :=
  match lone_build with
  | Ok (_, model) => variables (Optimizer.m_solver model)
  | Raise _ => []
  end.

(** The lone mechanic works the day shift. *)
Definition alone (v : var) : Z :=
  if bool_decide (v = X 1 1 1 1) then 1 else 0.

(** An installation with the CBC backend only. *)
Definition cbc_only (name : string) : bool := bool_decide (name = "CBC").

Definition fallback_build
  : result (Optimizer.RosterOptimizer * Optimizer.Model) :=
  Optimizer.create_model cbc_only optimizer (data None).

Definition fallback_built : Optimizer.RosterOptimizer * Optimizer.Model :=
  match fallback_build with
  | Ok r => r
  | Raise _ =>
      (optimizer,
       {| Optimizer.m_solver := Optimizer.new_solver "";
          Optimizer.m_x := ∅;
          Optimizer.m_mechanic_skills := ∅;
          Optimizer.m_mechanic_inspector_skills := ∅;
          Optimizer.m_inspector_req_columns := [];
          Optimizer.m_avoidance_vars := ∅ |})
  end.

(** A schedule at base 4, for which the cost table has no column. *)
Definition far_schedule : DataFrame :=
  frame schedule_columns
    [[int_cell 4; int_cell 1; int_cell 1; int_cell 1; nan]].

Definition far_load : result (Data * list LogRecord) :=
  DataLoader.load_data DataLoader.int_sorted_unique DataLoader.__init__
    (Ok skills) (Ok far_schedule) (Ok costs) None.

Definition far_data : Data :=
  match far_load with
  | Ok (d, _) => d
  | Raise _ => data None
  end.

Definition far_log : list LogRecord :=
  match far_load with
  | Ok (_, l) => l
  | Raise _ => []
  end.

Definition far_build : result (Optimizer.RosterOptimizer * Optimizer.Model) :=
  Optimizer.create_model (λ _, true) optimizer far_data.

Definition far_built : Optimizer.RosterOptimizer * Optimizer.Model :=
  match far_build with
  | Ok r => r
  | Raise _ => built None
  end.

(** Mechanics 1 and 2 at the day shift of base 1. *)
Definition day_crew : list ExcelGenerator.AssignmentInfo :=
  [{| ExcelGenerator.info_mechanic_id := 1;
      ExcelGenerator.info_group := 1;
      ExcelGenerator.info_shift := 1 |};
   {| ExcelGenerator.info_mechanic_id := 2;
      ExcelGenerator.info_group := 1;
      ExcelGenerator.info_shift := 1 |}].

(** Mechanics 1 and 2 both work the day shift at base 1, and the penalty
    variable of the pair is raised there. *)
Definition charged_together (v : var) : Z :=
  if bool_decide (v = X 1 1 1 1 ∨ v = X 2 1 1 1 ∨ v = Y 1 2 1 1 1)
  then 1 else 0.

End Sample.

(** * Properties *)

(** Closed decidable statements are settled by evaluation. *)
Ltac by_evaluation := apply (bool_decide_unpack _); vm_compute; exact I.

(** ** Loops *)

Lemma bind_Ok {A B} (r : result A) (f : A → result B) (b : B) :
  r ≫= f = Ok b ↔ ∃ a, r = Ok a ∧ f a = Ok b.
Proof.
  destruct r as [a|e]; simpl.
  - split; [eauto | by intros (? & [= <-] & ?)].
  - split; [done | by intros (? & ? & ?)].
Qed.

Lemma subscript_Ok `{Countable K} {V} (d : gmap K V) (k : K) (v : V) :
  subscript d k = Ok v ↔ d !! k = Some v.
Proof. unfold subscript. destruct (d !! k); naive_solver. Qed.

(** Two nested pure loops are one loop over the pairs. *)
Lemma foldl_nested {A C S} (f : S → A → C → S) (la : list A) (lc : list C) s :
  foldl (λ s a, foldl (λ s c, f s a c) s lc) s la =
  foldl (λ s p, f s p.1 p.2) s (pairs la lc).
Proof.
  unfold pairs. revert s. induction la as [|a la IH]; intros s; [done|].
  simpl. rewrite foldl_app, <- IH. f_equal.
  clear IH. revert s. induction lc as [|c lc IH]; intros s; [done|].
  simpl. apply IH.
Qed.

Lemma foldl_nested_pair {A1 A2 C S} (f : S → A1 → A2 → C → S)
    (la : list (A1 * A2)) (lc : list C) s :
  foldl (λ s '(a1, a2), foldl (λ s c, f s a1 a2 c) s lc) s la =
  foldl (λ s p, f s p.1.1 p.1.2 p.2) s (pairs la lc).
Proof.
  rewrite <- (foldl_nested (λ s a c, f s a.1 a.2 c)).
  revert s. induction la as [|[a1 a2] la IH]; intros s; [done|]. apply IH.
Qed.

Lemma for_fold_app {A S} (body : S → A → result S) (l1 l2 : list A) s :
  for_fold body (l1 ++ l2) s = for_fold body l1 s ≫= for_fold body l2.
Proof.
  revert s. induction l1 as [|a l1 IH]; intros s; [done|].
  simpl. destruct (body s a); simpl; [apply IH | done].
Qed.

(** Two nested loops that may raise are one loop over the pairs. *)
Lemma for_fold_nested {A C S} (f : S → A → C → result S)
    (la : list A) (lc : list C) s :
  for_fold (λ s a, for_fold (λ s c, f s a c) lc s) la s =
  for_fold (λ s p, f s p.1 p.2) (pairs la lc) s.
Proof.
  unfold pairs. revert s. induction la as [|a la IH]; intros s; [done|].
  simpl. rewrite for_fold_app.
  assert (for_fold (λ s c, f s a c) lc s =
          for_fold (λ s p, f s p.1 p.2) (c ← lc; [(a, c)]) s) as ->.
  { clear IH. revert s. induction lc as [|c lc IH]; intros s; [done|].
    simpl. destruct (f s a c); simpl; [apply IH | done]. }
  destruct (for_fold _ (c ← lc; [(a, c)]) s); simpl; [apply IH | done].
Qed.

(** A loop invariant for a loop that may raise. *)
Lemma for_fold_invariant {A S} (body : S → A → result S) (P : S → Prop)
    (l : list A) s s' :
  P s →
  (∀ s1 a s2, a ∈ l → P s1 → body s1 a = Ok s2 → P s2) →
  for_fold body l s = Ok s' → P s'.
Proof.
  revert s. induction l as [|a l IH]; intros s Hs Hstep; simpl.
  - by intros [= <-].
  - intros (s1 & H1 & H2)%bind_Ok. apply (IH s1); [|intros; eapply Hstep|]; eauto.
    + eapply Hstep; eauto. left.
    + by right.
Qed.

(** What a collecting loop has emitted when it ends normally. *)
Lemma for_collect_elem {A B} (body : A → result (list B)) (l : list A) r y :
  for_collect body l = Ok r →
  y ∈ r ↔ ∃ a ra, a ∈ l ∧ body a = Ok ra ∧ y ∈ ra.
Proof.
  revert r. induction l as [|a l IH]; intros r; simpl.
  - intros [= <-]. split; [by intros ?%elem_of_nil|].
    by intros (? & ? & ?%elem_of_nil & _).
  - intros (ra & Ha & (rs & Hrs & [= <-])%bind_Ok)%bind_Ok.
    rewrite elem_of_app, (IH _ Hrs). split.
    + intros [Hy | (a' & ra' & ? & ? & ?)].
      * exists a, ra. split_and!; [left | done | done].
      * exists a', ra'. split_and!; [by right | done | done].
    + intros (a' & ra' & [-> | ?]%elem_of_cons & Hb & Hy).
      * left. congruence.
      * right. eauto.
Qed.

Lemma for_collect_each {A B} (body : A → result (list B)) (l : list A) r a :
  for_collect body l = Ok r → a ∈ l → ∃ ra, body a = Ok ra.
Proof.
  revert r. induction l as [|a' l IH]; intros r; simpl.
  - by intros _ ?%elem_of_nil.
  - intros (ra & Ha & (rs & Hrs & _)%bind_Ok)%bind_Ok [-> | ?]%elem_of_cons; eauto.
Qed.

Lemma for_collect_total {A B} (body : A → result (list B)) (l : list A) :
  (∀ a, a ∈ l → ∃ ra, body a = Ok ra) → ∃ r, for_collect body l = Ok r.
Proof.
  induction l as [|a l IH]; intros Hl; simpl; [eauto|].
  destruct (Hl a) as [ra ->]; [left|]. simpl.
  destruct IH as [rs ->]; [intros; apply Hl; by right|]. simpl. eauto.
Qed.

(** ** config.py *)

(** C9. Validation replaces a solver outside SCIP, CBC, GLOP by SCIP and a
    log level outside DEBUG, INFO, WARNING, ERROR, CRITICAL by INFO, keeps
    every other value, and always returns. *)
Theorem validate_defaults (self : Config.Config) :
  Config.solver (Config._validate self).1 =
    (if bool_decide (Config.solver self ∈ ["SCIP"; "CBC"; "GLOP"])
     then Config.solver self else "SCIP") ∧
  Config.log_level (Config._validate self).1 =
    (if bool_decide
          (Config.log_level self ∈ ["DEBUG"; "INFO"; "WARNING"; "ERROR"; "CRITICAL"])
     then Config.log_level self else "INFO") ∧
  Config.data_dir (Config._validate self).1 = Config.data_dir self.
Proof.
  unfold Config._validate, Config.valid_solvers, Config.valid_log_levels.
  destruct self as [sv lv dd]; simpl.
  repeat case_bool_decide; simpl; try done; tauto.
Qed.

Lemma init_defaults (getenv : string → option string) :
  getenv "SOLVER" = None → getenv "LOG_LEVEL" = None →
  Config.solver (Config.__init__ getenv).1 = "SCIP" ∧
  Config.log_level (Config.__init__ getenv).1 = "INFO".
Proof. intros Hs Hl. unfold Config.__init__. rewrite Hs, Hl. done. Qed.

(** ** The keys of the nested loops *)

Lemma elem_of_pairs {A C} (la : list A) (lc : list C) a c :
  (a, c) ∈ pairs la lc ↔ a ∈ la ∧ c ∈ lc.
Proof.
  unfold pairs. rewrite list_elem_of_bind. split.
  - intros (a' & (c' & [= -> ->]%list_elem_of_singleton & ?)%list_elem_of_bind & ?).
    done.
  - intros [? ?]. exists a. split; [|done].
    apply list_elem_of_bind. exists c. split; [left | done].
Qed.

Lemma NoDup_pairs {A C} (la : list A) (lc : list C) :
  NoDup la → NoDup lc → NoDup (pairs la lc).
Proof.
  intros Ha Hc. unfold pairs. apply NoDup_bind; [| |done].
  - intros a1 a2 [a c] _ _.
    intros (c1 & [= -> ->]%list_elem_of_singleton & _)%list_elem_of_bind.
    by intros (c2 & [= -> _]%list_elem_of_singleton & _)%list_elem_of_bind.
  - intros a _. apply NoDup_bind; [| |done].
    + intros c1 c2 [a' c'] _ _.
      intros [= -> ->]%list_elem_of_singleton.
      by intros [= ->]%list_elem_of_singleton.
    + intros c _. apply NoDup_singleton.
Qed.

Lemma elem_of_keys4 ms bs gs ss m b g s :
  (m, b, g, s) ∈ keys4 ms bs gs ss ↔ m ∈ ms ∧ b ∈ bs ∧ g ∈ gs ∧ s ∈ ss.
Proof. unfold keys4. rewrite !elem_of_pairs. tauto. Qed.

Lemma NoDup_keys4 ms bs gs ss :
  NoDup ms → NoDup bs → NoDup gs → NoDup ss → NoDup (keys4 ms bs gs ss).
Proof. intros. unfold keys4. by repeat apply NoDup_pairs. Qed.

(** ** extract_solution *)

(** The body of the innermost loop of [extract_solution]. *)
Lemma extract_solution_flat sv self ms bs gs ss cd xd :
  Optimizer.x self = Some xd →
  Optimizer.extract_solution sv self ms bs gs ss cd =
  for_fold (λ st k,
      v ← subscript xd k;
      Ok (if bool_decide (1 # 2 < sv v)%Q
          then (st.1 ++ [assignment_at cd k],
                fadd st.2 (Optimizer.cost (assignment_at cd k)))
          else st))
    (keys4 ms bs gs ss) ([], Fnum 0).
Proof.
  intros Hx. unfold Optimizer.extract_solution, keys4. rewrite Hx.
  rewrite for_fold_nested, for_fold_nested, for_fold_nested.
  generalize (pairs (pairs (pairs ms bs) gs) ss).
  generalize (([], Fnum 0) : list Optimizer.Assignment * float).
  intros st l. revert st. induction l as [|[[[m b] g] s] l IH]; intros st; [done|].
  simpl. destruct st as [assignments total]. simpl.
  destruct (subscript xd (m, b, g, s)) as [v|e]; simpl; [|done].
  case_bool_decide; simpl; apply IH.
Qed.

Lemma extract_loop_result sv cd xd (l : list (Z * Z * Z * Z)) st :
  Forall (λ k, is_Some (xd !! k)) l →
  for_fold (λ st k,
      v ← subscript xd k;
      Ok (if bool_decide (1 # 2 < sv v)%Q
          then (st.1 ++ [assignment_at cd k],
                fadd st.2 (Optimizer.cost (assignment_at cd k)))
          else st)) l st =
  Ok (st.1 ++ (assignment_at cd <$> filter (λ k, chosen sv xd k = true) l),
      foldl (λ t a, fadd t (Optimizer.cost a)) st.2
        (assignment_at cd <$> filter (λ k, chosen sv xd k = true) l)).
Proof.
  intros Hl. revert st. induction Hl as [|k l [v Hv] Hl IH]; intros [as0 t0].
  - simpl. by rewrite app_nil_r.
  - simpl. rewrite (proj2 (subscript_Ok xd k v) Hv). simpl.
    rewrite IH, filter_cons.
    assert (chosen sv xd k = bool_decide (1 # 2 < sv v)%Q) as Hk
      by (unfold chosen; by rewrite Hv).
    rewrite Hk. case_bool_decide as Hc.
    + rewrite decide_True by done. simpl. by rewrite <- app_assoc.
    + rewrite decide_False by done. done.
Qed.

Lemma shift_name_at cd k :
  (Optimizer.shift_name (assignment_at cd k) = "Day" ↔
     Optimizer.shift (assignment_at cd k) = 1) ∧
  (Optimizer.shift_name (assignment_at cd k) = "Day" ∨
     Optimizer.shift_name (assignment_at cd k) = "Night").
Proof.
  destruct k as [[[m b] g] s]. simpl. case_bool_decide; split; auto.
  - tauto.
  - split; [done | by intros].
Qed.

(** C10. In every list returned by [extract_solution] the shift name is
    "Day" exactly for shift 1 and "Night" for every other shift, whatever
    the shift ids are. *)
Theorem shift_name_day_iff_1 sv self ms bs gs ss cd assignments total :
  Optimizer.extract_solution sv self ms bs gs ss cd = Ok (assignments, total) →
  Forall (λ a,
      (Optimizer.shift_name a = "Day" ↔ Optimizer.shift a = 1) ∧
      (Optimizer.shift_name a = "Day" ∨ Optimizer.shift_name a = "Night"))
    assignments.
Proof.
  destruct (Optimizer.x self) as [xd|] eqn:Hx.
  - rewrite (extract_solution_flat _ _ _ _ _ _ _ xd Hx). intros Hrun.
    apply (for_fold_invariant _
             (λ st, Forall (λ a,
                (Optimizer.shift_name a = "Day" ↔ Optimizer.shift a = 1) ∧
                (Optimizer.shift_name a = "Day" ∨
                 Optimizer.shift_name a = "Night")) st.1)) in Hrun;
      [done | constructor |].
    intros st k st' _ Hst (v & _ & [= <-])%bind_Ok.
    case_bool_decide; [|done]. simpl.
    apply Forall_app. split; [done|]. constructor; [|constructor].
    apply shift_name_at.
  - unfold Optimizer.extract_solution. by rewrite Hx.
Qed.

Lemma extract_solution_result sv self ms bs gs ss cd xd :
  Optimizer.x self = Some xd →
  Forall (λ k, is_Some (xd !! k)) (keys4 ms bs gs ss) →
  Optimizer.extract_solution sv self ms bs gs ss cd =
  Ok (assignment_at cd <$>
        filter (λ k, chosen sv xd k = true) (keys4 ms bs gs ss),
      foldl (λ t a, fadd t (Optimizer.cost a)) (Fnum 0)
        (assignment_at cd <$>
           filter (λ k, chosen sv xd k = true) (keys4 ms bs gs ss))).
Proof.
  intros Hx Hkeys. rewrite (extract_solution_flat _ _ _ _ _ _ _ xd Hx).
  by rewrite extract_loop_result.
Qed.

(** C2, as the code has it.  [extract_solution] makes no check of the
    values it reads: when a model was created and holds a variable for
    every key visited, it returns, in loop order, one record for each key
    whose value is above 0.5, with the sum of their costs. *)
Theorem extract_solution_unchecked sv self ms bs gs ss cd xd :
  Optimizer.x self = Some xd →
  Forall (λ k, is_Some (xd !! k)) (keys4 ms bs gs ss) →
  Optimizer.extract_solution sv self ms bs gs ss cd =
  Ok (assignment_at cd <$>
        filter (λ k, chosen sv xd k = true) (keys4 ms bs gs ss),
      foldl (λ t a, fadd t (Optimizer.cost a)) (Fnum 0)
        (assignment_at cd <$>
           filter (λ k, chosen sv xd k = true) (keys4 ms bs gs ss))).
Proof. apply extract_solution_result. Qed.

(** The exceptions of [extract_solution]: [ValueError] before a model is
    created, [KeyError] for a key without variable, and no other. *)
Lemma extract_solution_raises sv self ms bs gs ss cd e :
  Optimizer.extract_solution sv self ms bs gs ss cd = Raise e →
  (e = ValueError ∧ Optimizer.x self = None) ∨
  (e = KeyError ∧ ∃ xd k, Optimizer.x self = Some xd ∧
                         k ∈ keys4 ms bs gs ss ∧ xd !! k = None).
Proof.
  destruct (Optimizer.x self) as [xd|] eqn:Hx.
  - rewrite (extract_solution_flat _ _ _ _ _ _ _ xd Hx).
    generalize (([], Fnum 0) : list Optimizer.Assignment * float).
    induction (keys4 ms bs gs ss) as [|k l IH]; intros st; simpl; [done|].
    destruct (xd !! k) as [v|] eqn:Hk.
    + rewrite (proj2 (subscript_Ok xd k v) Hk). simpl.
      intros [[? ?] | (-> & xd' & k' & [= <-] & ? & ?)]%IH; [done|].
      right. split; [done|]. exists xd, k'. split_and!; [done | by right | done].
    + assert (subscript xd k = Raise KeyError) as ->
        by (unfold subscript; by rewrite Hk).
      simpl. intros [= <-]. right. split; [done|]. exists xd, k.
      split_and!; [done | left | done].
  - unfold Optimizer.extract_solution. rewrite Hx. intros [= <-]. by left.
Qed.

(** ** load_data: the avoidance list *)

Lemma avoidance_rows_all l parsed d :
  parsed_as l parsed →
  DataLoader.avoidance_rows l d = (foldl store_pair d parsed, None).
Proof.
  intros Hl. revert d. induction Hl as [|row [[m1 m2] p] l parsed Hrow _ IH];
    intros d; simpl; [done|].
  rewrite Hrow. apply IH.
Qed.

Lemma avoidance_rows_failure pre bad post parsed e d :
  parsed_as pre parsed →
  DataLoader.avoidance_row bad = Raise e →
  DataLoader.avoidance_rows (pre ++ bad :: post) d =
  (foldl store_pair d parsed, Some e).
Proof.
  intros Hl Hbad. revert d.
  induction Hl as [|row [[m1 m2] p] l parsed Hrow _ IH]; intros d; simpl.
  - by rewrite Hbad.
  - rewrite Hrow. apply IH.
Qed.

Lemma store_pair_symmetric d t : symmetric d → symmetric (store_pair d t).
Proof.
  intros Hd a b. destruct t as [[m1 m2] p]. unfold store_pair. simpl.
  rewrite !lookup_insert. repeat case_decide; simplify_eq; done.
Qed.

Lemma stored_symmetric parsed d :
  symmetric d → symmetric (foldl store_pair d parsed).
Proof.
  revert d. induction parsed as [|t parsed IH]; intros d Hd; [done|].
  simpl. by apply IH, store_pair_symmetric.
Qed.

Lemma store_pair_keeps d t k : is_Some (d !! k) → is_Some (store_pair d t !! k).
Proof.
  intros Hk. unfold store_pair. rewrite !lookup_insert.
  repeat case_decide; eauto.
Qed.

Lemma stored_keeps parsed d k :
  is_Some (d !! k) → is_Some (foldl store_pair d parsed !! k).
Proof.
  revert d. induction parsed as [|t parsed IH]; intros d Hd; [done|].
  simpl. by apply IH, store_pair_keeps.
Qed.

Lemma stored_both parsed d m1 m2 p :
  (m1, m2, p) ∈ parsed →
  is_Some (foldl store_pair d parsed !! (m1, m2)) ∧
  is_Some (foldl store_pair d parsed !! (m2, m1)).
Proof.
  revert d. induction parsed as [|t parsed IH]; intros d Hin.
  - by apply elem_of_nil in Hin.
  - apply elem_of_cons in Hin as [<- | Hin]; [|by apply IH].
    simpl. split; apply stored_keeps; unfold store_pair; simpl;
      rewrite !lookup_insert; repeat case_decide; simplify_eq; by eexists.
Qed.

(** The avoidance map is symmetric whatever the input, also after a
    failure. *)
Lemma load_avoidance_symmetric file : symmetric (DataLoader.load_avoidance file).1.
Proof.
  destruct file as [[df|e]|]; simpl; try done.
  assert (symmetric (DataLoader.avoidance_rows (rows df) ∅).1) as Hs.
  { generalize (rows df). intros l.
    assert (symmetric (∅ : gmap (Z * Z) float)) as H0 by done.
    revert H0. generalize (∅ : gmap (Z * Z) float).
    induction l as [|row l IH]; intros d Hd; simpl; [done|].
    destruct (DataLoader.avoidance_row row) as [[[m1 m2] p]|e]; simpl; [|done].
    apply IH. by apply (store_pair_symmetric d (m1, m2, p)). }
  destruct (DataLoader.avoidance_rows (rows df) ∅) as [d [e|]]; done.
Qed.

(** The other entries of the result do not depend on the avoidance input,
    and the avoidance block raises nothing. *)
Lemma load_data_independent su self f1 f2 f3 av data0 log0 :
  DataLoader.load_data su self f1 f2 f3 None = Ok (data0, log0) →
  ∃ data log,
    DataLoader.load_data su self f1 f2 f3 av = Ok (data, log) ∧
    same_but_avoidance data data0 ∧
    avoidance_dict data = (DataLoader.load_avoidance av).1 ∧
    (∀ r, r ∈ (DataLoader.load_avoidance av).2 → r ∈ log).
Proof.
  unfold DataLoader.load_data.
  destruct f1 as [df1|]; simpl; [|done].
  destruct (DataLoader.column df1 "mechanic_id" ≫= su) as [ms|]; simpl; [|done].
  destruct f2 as [df2|]; simpl; [|done].
  destruct (DataLoader.column df2 "base_id" ≫= su) as [bs|]; simpl; [|done].
  destruct (DataLoader.column df2 "period" ≫= su) as [gs|]; simpl; [|done].
  destruct (DataLoader.column df2 "shift" ≫= su) as [ss|]; simpl; [|done].
  destruct f3 as [df3|]; simpl; [|done].
  destruct (for_fold _ (rows df3) ∅) as [cd|]; simpl; [|done].
  intros [= <- <-].
  destruct (DataLoader.load_avoidance av) as [d lg] eqn:Hav.
  eexists _, _. split; [done|]. split; [by repeat split|]. split; [done|].
  intros r Hr. simpl. do 3 right. apply elem_of_app. by left.
Qed.

(** C3, as the code has it.  When the avoidance input fails to parse, the
    load still returns: the failure is logged as a warning, every other
    entry of the result is what it is without avoidance input, and the
    avoidance map holds, in both orders, the pairs of the rows read before
    the failure. *)
Theorem avoidance_failure_recovered su self f1 f2 f3 data0 log0 file parsed e :
  DataLoader.load_data su self f1 f2 f3 None = Ok (data0, log0) →
  fails_after file parsed e →
  ∃ data log,
    DataLoader.load_data su self f1 f2 f3 (Some file) = Ok (data, log) ∧
    same_but_avoidance data data0 ∧
    avoidance_dict data = foldl store_pair ∅ parsed ∧
    symmetric (avoidance_dict data) ∧
    WarningExc "Could not load avoidance list: " e ∈ log.
Proof.
  intros Hload Hfail.
  destruct (load_data_independent su self f1 f2 f3 (Some file) data0 log0 Hload)
    as (data & log & Hrun & Hsame & Hav & Hlog).
  exists data, log. split; [done|]. split; [done|].
  assert (DataLoader.load_avoidance (Some file) =
          (foldl store_pair ∅ parsed,
           [Info "Loading avoidance list";
            WarningExc "Could not load avoidance list: " e])) as Heq.
  { destruct file as [df|e']; simpl in *.
    - destruct Hfail as (pre & bad & post & -> & Hpre & Hbad).
      by rewrite (avoidance_rows_failure pre bad post parsed e).
    - by destruct Hfail as [-> ->]. }
  split; [by rewrite Hav, Heq|]. split.
  - rewrite Hav. apply load_avoidance_symmetric.
  - apply Hlog. rewrite Heq. simpl. right. left.
Qed.

Lemma avoidance_failure_recovered_witness :
  Sample.load None = Ok (Sample.data None, Sample.log None) ∧
  fails_after (Ok Sample.broken_avoidance) [(1, 2, Fnum (inject_Z 50))]
    ValueError ∧
  ∃ data log,
    Sample.load (Some (Ok Sample.broken_avoidance)) = Ok (data, log) ∧
    same_but_avoidance data (Sample.data None) ∧
    avoidance_dict data = foldl store_pair ∅ [(1, 2, Fnum (inject_Z 50))] ∧
    symmetric (avoidance_dict data) ∧
    WarningExc "Could not load avoidance list: " ValueError ∈ log.
Proof.
  assert (Sample.load None = Ok (Sample.data None, Sample.log None)) as Hload
    by (vm_compute; reflexivity).
  assert (fails_after (Ok Sample.broken_avoidance)
            [(1, 2, Fnum (inject_Z 50))] ValueError) as Hfail.
  { eexists [_], _, []. split; [reflexivity|]. split; [|reflexivity].
    repeat constructor. }
  split; [exact Hload|]. split; [exact Hfail|].
  exact (avoidance_failure_recovered DataLoader.int_sorted_unique
           DataLoader.__init__ (Ok Sample.skills) (Ok Sample.schedule)
           (Ok Sample.costs) _ _ _ _ _ Hload Hfail).
Defined.

(** C3, as stated, fails: after a failure on the second row the pair of
    the first row is still in the map. *)
Lemma avoidance_failure_keeps_rows :
  ∃ log,
    Sample.load (Some (Ok Sample.broken_avoidance)) =
      Ok (Sample.data (Some (Ok Sample.broken_avoidance)), log) ∧
    WarningExc "Could not load avoidance list: " ValueError ∈ log ∧
    avoidance_dict (Sample.data (Some (Ok Sample.broken_avoidance))) !! (1, 2)
      = Some (Fnum (inject_Z 50)) ∧
    avoidance_dict (Sample.data (Some (Ok Sample.broken_avoidance))) !! (2, 1)
      = Some (Fnum (inject_Z 50)) ∧
    avoidance_dict (Sample.data (Some (Ok Sample.broken_avoidance))) ≠ ∅.
Proof.
  eexists. split; [vm_compute; reflexivity|].
  split; [do 4 right; left|]. split; [by vm_compute|]. split; [by vm_compute|].
  intros H. apply (f_equal (λ d, d !! (1, 2))) in H. by vm_compute in H.
Qed.

(** ** create_model: the decision variables *)

Lemma create_x_spec ms bs gs ss sv x0 :
  Optimizer.create_x ms bs gs ss (sv, x0) =
  ({| backend := backend sv;
      variables := variables sv ++ (x_decl <$> keys4 ms bs gs ss);
      constraints := constraints sv;
      objective := objective sv;
      minimization := minimization sv |},
   foldl (λ x k, <[k := X4 k]> x) x0 (keys4 ms bs gs ss)).
Proof.
  unfold Optimizer.create_x, keys4.
  rewrite foldl_nested, foldl_nested, foldl_nested.
  generalize (pairs (pairs (pairs ms bs) gs) ss). intros l.
  revert sv x0. induction l as [|[[[m b] g] s] l IH]; intros sv x0.
  - simpl. rewrite app_nil_r. by destruct sv.
  - simpl. rewrite IH. simpl. by rewrite <- app_assoc.
Qed.

Lemma create_y_spec prs bs gs ss sv y0 :
  Optimizer.create_y prs bs gs ss (sv, y0) =
  ({| backend := backend sv;
      variables := variables sv ++ (y_decl <$> keys5 prs bs gs ss);
      constraints := constraints sv;
      objective := objective sv;
      minimization := minimization sv |},
   foldl (λ y k, <[k := Y5 k]> y) y0 (keys5 prs bs gs ss)).
Proof.
  unfold Optimizer.create_y, keys5.
  rewrite foldl_nested_pair, foldl_nested, foldl_nested.
  generalize (pairs (pairs (pairs prs bs) gs) ss). intros l.
  revert sv y0. induction l as [|[[[[m1 m2] b] g] s] l IH]; intros sv y0.
  - simpl. rewrite app_nil_r. by destruct sv.
  - simpl. rewrite IH. simpl. by rewrite <- app_assoc.
Qed.

Lemma lookup_foldl_insert `{Countable K} {V} (f : K → V) (l : list K)
    (d : gmap K V) (k : K) :
  foldl (λ d k, <[k := f k]> d) d l !! k =
  if decide (k ∈ l) then Some (f k) else d !! k.
Proof.
  revert d. induction l as [|k' l IH]; intros d.
  - destruct (decide (k ∈ [])) as [Hin|_]; [by apply elem_of_nil in Hin | done].
  - cbn [foldl]. rewrite IH.
    destruct (decide (k ∈ l)) as [Hin|Hnin];
      destruct (decide (k ∈ k' :: l)) as [Hin'|Hnin']; try done.
    + exfalso. apply Hnin'. by right.
    + apply elem_of_cons in Hin' as [->|?]; [|done]. by rewrite lookup_insert_eq.
    + rewrite lookup_insert_ne; [done|]. intros ->. apply Hnin'. left.
Qed.

Lemma lookup_x_dict ks k v :
  x_dict ks !! k = Some v ↔ k ∈ ks ∧ v = X4 k.
Proof.
  unfold x_dict. rewrite lookup_foldl_insert, lookup_empty.
  destruct (decide (k ∈ ks)); split; try done.
  - by intros [= <-].
  - by intros [_ ->].
  - by intros [? _].
Qed.

Lemma lookup_y_dict ks k v :
  y_dict ks !! k = Some v ↔ k ∈ ks ∧ v = Y5 k.
Proof.
  unfold y_dict. rewrite lookup_foldl_insert, lookup_empty.
  destruct (decide (k ∈ ks)); split; try done.
  - by intros [= <-].
  - by intros [_ ->].
  - by intros [? _].
Qed.

Lemma subscript_x_dict ks k v :
  subscript (x_dict ks) k = Ok v ↔ k ∈ ks ∧ v = X4 k.
Proof. by rewrite subscript_Ok, lookup_x_dict. Qed.

Lemma subscript_y_dict ks k v :
  subscript (y_dict ks) k = Ok v ↔ k ∈ ks ∧ v = Y5 k.
Proof. by rewrite subscript_Ok, lookup_y_dict. Qed.

(** ** create_model: loops that set coefficients *)

Lemma for_fold_ext {A S} (f g : S → A → result S) (l : list A) s :
  (∀ s a, a ∈ l → f s a = g s a) → for_fold f l s = for_fold g l s.
Proof.
  revert s. induction l as [|a l IH]; intros s Hfg; [done|].
  simpl. rewrite Hfg by left. destruct (g s a); simpl; [|done].
  apply IH. intros. apply Hfg. by right.
Qed.

Lemma set_coefficients_keeps {A} (pick : A → result (option var)) (a : Z)
    (l : list A) (c c' : MPConstraint) (v : var) :
  for_fold (λ c i, r ← pick i;
                   Ok (match r with
                       | Some v => SetCoefficient c v a
                       | None => c
                       end)) l c = Ok c' →
  c_coeffs c !! v = Some a → c_coeffs c' !! v = Some a.
Proof.
  revert c. induction l as [|i l IH]; intros c; simpl.
  - by intros [= <-].
  - intros (c1 & (r & _ & [= <-])%bind_Ok & Hrest)%bind_Ok Hv.
    apply (IH _ Hrest). destruct r as [v'|]; [|done]. simpl.
    rewrite lookup_insert. by case_decide.
Qed.

(** A loop that gives the coefficient [a] to the variables selected by
    [pick] leaves the bounds and the name alone; the variables picked have
    coefficient [a] and the others keep theirs. *)
Lemma set_coefficients_spec {A} (pick : A → result (option var)) (a : Z)
    (l : list A) (c c' : MPConstraint) :
  for_fold (λ c i, r ← pick i;
                   Ok (match r with
                       | Some v => SetCoefficient c v a
                       | None => c
                       end)) l c = Ok c' →
  c_lb c' = c_lb c ∧ c_ub c' = c_ub c ∧ c_name c' = c_name c ∧
  (∀ i, i ∈ l → ∃ r, pick i = Ok r) ∧
  (∀ i v, i ∈ l → pick i = Ok (Some v) → c_coeffs c' !! v = Some a) ∧
  (∀ v w, c_coeffs c' !! v = Some w →
     (w = a ∧ ∃ i, i ∈ l ∧ pick i = Ok (Some v)) ∨ c_coeffs c !! v = Some w).
Proof.
  revert c. induction l as [|i l IH]; intros c; simpl.
  - intros [= <-]. split_and!; try done.
    + by intros ? ?%elem_of_nil.
    + by intros ? ? ?%elem_of_nil.
    + by right.
  - intros (c1 & (r & Hr & [= <-])%bind_Ok & Hrest)%bind_Ok.
    destruct (IH _ Hrest) as (Hlb & Hub & Hname & Hall & Hset & Hget).
    split_and!.
    + rewrite Hlb. by destruct r.
    + rewrite Hub. by destruct r.
    + rewrite Hname. by destruct r.
    + intros j [->|?]%elem_of_cons; eauto.
    + intros j v [->|?]%elem_of_cons Hj; [|by eapply Hset].
      apply (set_coefficients_keeps _ _ _ _ _ _ Hrest).
      rewrite Hr in Hj. injection Hj as ->. simpl. apply lookup_insert_eq.
    + intros v w Hv. destruct (Hget v w Hv) as [[-> (j & ? & ?)] | Hold].
      * left. split; [done|]. exists j. split; [by right | done].
      * destruct r as [v'|]; [|by right]. simpl in Hold.
        rewrite lookup_insert in Hold. case_decide; [|by right].
        simplify_eq. left. split; [done|]. exists i. split; [left | done].
Qed.

(** ** Constraint 1: single assignment *)

Lemma single_assignment_spec ks bs gs ss m r :
  Optimizer.single_assignment (x_dict ks) bs gs ss m = Ok r →
  ∃ c, r = [c] ∧
    c_lb c = Fin 0 ∧ c_ub c = Fin 1 ∧
    c_name c = "mechanic_" +:+ pretty m +:+ "_single_assignment" ∧
    (∀ b g s, b ∈ bs → g ∈ gs → s ∈ ss → (m, b, g, s) ∈ ks) ∧
    (∀ v a, c_coeffs c !! v = Some a ↔
       a = 1 ∧ ∃ b g s, b ∈ bs ∧ g ∈ gs ∧ s ∈ ss ∧ v = X m b g s).
Proof.
  unfold Optimizer.single_assignment.
  intros (c & Hc & [= <-])%bind_Ok. exists c. split; [done|].
  rewrite for_fold_nested, for_fold_nested in Hc.
  rewrite (for_fold_ext _
    (λ c p, r ← (v ← subscript (x_dict ks) (m, p.1.1, p.1.2, p.2); Ok (Some v));
            Ok (match r with
                | Some v => SetCoefficient c v 1
                | None => c
                end))) in Hc.
  2: { intros c0 p _. by destruct (subscript _ _). }
  apply set_coefficients_spec in Hc as (Hlb & Hub & Hname & Hall & Hset & Hget).
  split_and!; try done.
  - intros b g s Hb Hg Hs.
    destruct (Hall (b, g, s)) as [r Hr]; [by rewrite !elem_of_pairs|].
    apply bind_Ok in Hr as (v & Hv%subscript_x_dict & _). apply Hv.
  - intros v a. split.
    + intros [[-> ([[b g] s] & Hin & Hp)] | Hv]%Hget; [|done].
      rewrite !elem_of_pairs in Hin.
      apply bind_Ok in Hp as (v' & [_ ->]%subscript_x_dict & [= <-]).
      split; [done|]. exists b, g, s. tauto.
    + intros [-> (b & g & s & Hb & Hg & Hs & ->)].
      apply (Hset (b, g, s)); [by rewrite !elem_of_pairs|].
      destruct (Hall (b, g, s)) as [r Hr]; [by rewrite !elem_of_pairs|].
      rewrite Hr. f_equal.
      by apply bind_Ok in Hr as (v' & [_ ->]%subscript_x_dict & [= <-]).
Qed.

(** ** The objective loops leave variables and constraints alone *)

Lemma movement_costs_frame xd cd ms bs gs ss sv sv' :
  Optimizer.movement_costs xd cd ms bs gs ss sv = Ok sv' →
  variables sv' = variables sv ∧ constraints sv' = constraints sv.
Proof.
  unfold Optimizer.movement_costs.
  apply (for_fold_invariant _
    (λ s, variables s = variables sv ∧ constraints s = constraints sv));
    [done|].
  intros s1 m s2 _ H1.
  apply (for_fold_invariant _
    (λ s, variables s = variables sv ∧ constraints s = constraints sv));
    [done|].
  clear s1 s2 H1. intros s1 b s2 _ H1.
  apply (for_fold_invariant _
    (λ s, variables s = variables sv ∧ constraints s = constraints sv));
    [done|].
  clear s1 s2 H1. intros s1 g s2 _ H1.
  apply (for_fold_invariant _
    (λ s, variables s = variables sv ∧ constraints s = constraints sv));
    [done|].
  clear s1 s2 H1. intros s1 s s2 _ H1 (v & _ & [= <-])%bind_Ok. done.
Qed.

Lemma avoidance_penalties_frame ad yd bs gs ss sv pair sv' :
  Optimizer.avoidance_penalties ad yd bs gs ss sv pair = Ok sv' →
  variables sv' = variables sv ∧ constraints sv' = constraints sv.
Proof.
  unfold Optimizer.avoidance_penalties. destruct pair as [m1 m2].
  intros (penalty & _ & Hrun)%bind_Ok. revert Hrun.
  apply (for_fold_invariant _
    (λ s, variables s = variables sv ∧ constraints s = constraints sv));
    [done|].
  intros s1 b s2 _ H1.
  apply (for_fold_invariant _
    (λ s, variables s = variables sv ∧ constraints s = constraints sv));
    [done|].
  clear s1 s2 H1. intros s1 g s2 _ H1.
  apply (for_fold_invariant _
    (λ s, variables s = variables sv ∧ constraints s = constraints sv));
    [done|].
  clear s1 s2 H1. intros s1 s s2 _ H1.
  case_bool_decide; [|by intros [= <-]].
  by intros (v & _ & [= <-])%bind_Ok.
Qed.

Lemma unique_pairs_empty : elements (Optimizer.unique_pairs ∅) = [].
Proof.
  unfold Optimizer.unique_pairs. rewrite dom_empty_L.
  apply elements_empty_iff. set_solver.
Qed.

Lemma elem_of_unique_pairs (ad : gmap (Z * Z) float) m1 m2 :
  (m1, m2) ∈ elements (Optimizer.unique_pairs ad) ↔
  is_Some (ad !! (m1, m2)) ∧ m1 < m2.
Proof.
  unfold Optimizer.unique_pairs.
  rewrite elem_of_elements, elem_of_filter, elem_of_dom. simpl. tauto.
Qed.

(** ** create_model, phase by phase *)

(** What a normal return of [create_model] says about each phase. *)
Lemma create_model_inv available self data self' model :
  Optimizer.create_model available self data = Ok (self', model) →
  let xd := x_dict (keys4 (mechanics data) (bases data) (periods data)
                      (shifts data)) in
  let prs := elements (Optimizer.unique_pairs (avoidance_dict data)) in
  let yd := y_dict (keys5 prs (bases data) (periods data) (shifts data)) in
  let irc := filter (λ col, endswith col "_inspec" = true)
               (columns (base_schedule_df data)) in
  ∃ c1 c2 c3 c4 c5 sv1 sv2 sv3,
    Optimizer.x self' = Some xd ∧
    Optimizer.m_x model = xd ∧
    Optimizer.m_avoidance_vars model = yd ∧
    Optimizer.m_inspector_req_columns model = irc ∧
    Optimizer.read_skills (mechanic_skills_df data) =
      Ok (Optimizer.m_mechanic_skills model,
          Optimizer.m_mechanic_inspector_skills model) ∧
    for_collect (Optimizer.single_assignment xd (bases data) (periods data)
                   (shifts data)) (mechanics data) = Ok c1 ∧
    for_collect (Optimizer.skill_coverage xd (Optimizer.m_mechanic_skills model)
                   (mechanics data) (base_schedule_df data))
      (rows (base_schedule_df data)) = Ok c2 ∧
    (if bool_decide (irc ≠ [])
     then for_collect
            (Optimizer.inspector_coverage xd
               (Optimizer.m_mechanic_inspector_skills model) (mechanics data)
               (base_schedule_df data) irc)
            (rows (base_schedule_df data))
     else Ok []) = Ok c3 ∧
    (if bool_decide (irc ≠ [])
     then for_collect
            (Optimizer.no_self_inspection xd
               (Optimizer.m_mechanic_skills model)
               (Optimizer.m_mechanic_inspector_skills model) (mechanics data)
               (base_schedule_df data) irc)
            (rows (base_schedule_df data))
     else Ok []) = Ok c4 ∧
    for_collect (Optimizer.linearization xd yd (bases data) (periods data)
                   (shifts data)) prs = Ok c5 ∧
    constraints (Optimizer.m_solver model) = c1 ++ c2 ++ c3 ++ c4 ++ c5 ∧
    variables (Optimizer.m_solver model) =
      (x_decl <$> keys4 (mechanics data) (bases data) (periods data)
                    (shifts data)) ++
      (y_decl <$> keys5 prs (bases data) (periods data) (shifts data)) ∧
    objective sv1 = ∅ ∧
    Optimizer.movement_costs xd (cost_dict data) (mechanics data) (bases data)
      (periods data) (shifts data) sv1 = Ok sv2 ∧
    (if bool_decide (avoidance_dict data ≠ ∅) && bool_decide (yd ≠ ∅)
     then for_fold
            (Optimizer.avoidance_penalties (avoidance_dict data) yd
               (bases data) (periods data) (shifts data)) prs sv2
     else Ok sv2) = Ok sv3 ∧
    objective (Optimizer.m_solver model) = objective sv3.
Proof.
  intros H xd prs yd irc. unfold Optimizer.create_model in H.
  apply bind_Ok in H as ([sv0 name] & Hsv0 & H).
  assert (variables sv0 = [] ∧ constraints sv0 = [] ∧ objective sv0 = ∅)
    as (Hv0 & Hc0 & Ho0).
  { repeat case_match; by simplify_eq. }
  clear Hsv0. rewrite create_x_spec in H. fold xd in H.
  apply bind_Ok in H as (c1 & Hc1 & H).
  apply bind_Ok in H as ([skills iskills] & Hskills & H).
  apply bind_Ok in H as (c2 & Hc2 & H).
  fold irc in H.
  apply bind_Ok in H as (c3 & Hc3 & H).
  apply bind_Ok in H as (c4 & Hc4 & H).
  apply bind_Ok in H as ([sv1 yd'] & Hy & H).
  apply bind_Ok in H as (sv2 & Hsv2 & H).
  apply bind_Ok in H as (sv3 & Hsv3 & H).
  injection H as <- <-. simpl.
  change (foldl (λ x k, <[k := X4 k]> x) ∅
            (keys4 (mechanics data) (bases data) (periods data) (shifts data)))
    with xd in *.
  assert (∃ c5,
    yd' = yd ∧
    for_collect (Optimizer.linearization xd yd (bases data) (periods data)
                   (shifts data)) prs = Ok c5 ∧
    variables sv1 =
      (x_decl <$> keys4 (mechanics data) (bases data) (periods data)
                    (shifts data)) ++
      (y_decl <$> keys5 prs (bases data) (periods data) (shifts data)) ∧
    constraints sv1 = c1 ++ c2 ++ c3 ++ c4 ++ c5 ∧
    objective sv1 = ∅) as (c5 & -> & Hc5 & Hvars & Hcons & Hobj).
  { case_bool_decide as Hne.
    - rewrite create_y_spec in Hy. fold prs in Hy.
      change (foldl (λ y k, <[k := Y5 k]> y) ∅
                (keys5 prs (bases data) (periods data) (shifts data)))
        with yd in Hy.
      apply bind_Ok in Hy as (c5 & Hc5 & [= <- <-]). exists c5. simpl.
      rewrite Hv0, Hc0, Ho0. simpl. by rewrite <- !app_assoc.
    - injection Hy as <- <-. exists []. simpl.
      subst yd prs. rewrite Hne, unique_pairs_empty, Hv0, Hc0, Ho0. simpl.
      by rewrite !app_nil_r, <- !app_assoc. }
  apply movement_costs_frame in Hsv2 as Hframe2. destruct Hframe2 as [Hv2 Hc2'].
  assert (variables sv3 = variables sv2 ∧ constraints sv3 = constraints sv2)
    as [Hv3 Hc3'].
  { destruct (bool_decide (avoidance_dict data ≠ ∅) && bool_decide (yd ≠ ∅));
      [|by injection Hsv3 as <-].
    revert Hsv3.
    apply (for_fold_invariant _
      (λ s, variables s = variables sv2 ∧ constraints s = constraints sv2));
      [done|].
    intros s1 pair s2 _ [E1 E2] [E3 E4]%avoidance_penalties_frame.
    by rewrite E3, E4. }
  exists c1, c2, c3, c4, c5, sv1, sv2, sv3.
  split_and!; try done.
  - by rewrite Hc3', Hc2'.
  - by rewrite Hv3, Hv2.
Qed.

(** ** The objective *)

Lemma X4_inj k k' : X4 k = X4 k' → k = k'.
Proof. destruct k as [[[??]?]?], k' as [[[??]?]?]. simpl. congruence. Qed.

Lemma Y5_inj k k' : Y5 k = Y5 k' → k = k'.
Proof.
  destruct k as [[[[??]?]?]?], k' as [[[[??]?]?]?]. simpl. congruence.
Qed.

Lemma X4_not_Y5 k k' : X4 k ≠ Y5 k'.
Proof. by destruct k as [[[??]?]?], k' as [[[[??]?]?]?]. Qed.

(** A loop that sets the objective coefficient of the variable stored under
    each key of [l] to a value that depends on the key only. *)
Lemma objective_loop ks (w : Z * Z * Z * Z → float) l sv sv' :
  for_fold (λ sv k, v ← subscript (x_dict ks) k;
                    Ok (SetObjectiveCoefficient sv v (w k))) l sv = Ok sv' →
  (∀ k, k ∈ l → k ∈ ks ∧ objective sv' !! X4 k = Some (w k)) ∧
  (∀ v, (∀ k, k ∈ l → X4 k ≠ v) → objective sv' !! v = objective sv !! v).
Proof.
  revert sv. induction l as [|k l IH]; intros sv; simpl.
  - intros [= <-]. split; [by intros ? ?%elem_of_nil | done].
  - intros (sv1 & (v & [Hk ->]%subscript_x_dict & [= <-])%bind_Ok & Hrest)%bind_Ok.
    destruct (IH _ Hrest) as [Hin Hout]. split.
    + intros k' [->|Hk']%elem_of_cons; [|by apply Hin]. split; [done|].
      destruct (decide (k ∈ l)) as [Hkl|Hkl]; [by apply Hin|].
      rewrite Hout; [apply lookup_insert_eq|].
      intros k' Hk' ->%X4_inj. done.
    + intros v Hv. rewrite Hout.
      * simpl. apply lookup_insert_ne. apply Hv. left.
      * intros k' Hk'. apply Hv. by right.
Qed.

Lemma movement_costs_objective ks cd ms bs gs ss sv sv' m b g s :
  Optimizer.movement_costs (x_dict ks) cd ms bs gs ss sv = Ok sv' →
  m ∈ ms → b ∈ bs → g ∈ gs → s ∈ ss →
  (m, b, g, s) ∈ ks ∧
  objective sv' !! X m b g s = Some (default (Fnum 0) (cd !! (m, b))).
Proof.
  unfold Optimizer.movement_costs. cbv zeta.
  rewrite for_fold_nested, for_fold_nested, for_fold_nested.
  intros Hrun Hm Hb Hg Hs.
  rewrite (for_fold_ext _
    (λ sv k, v ← subscript (x_dict ks) k;
             Ok (SetObjectiveCoefficient sv v
                   (default (Fnum 0) (cd !! (k.1.1.1, k.1.1.2)))))) in Hrun.
  2: { intros s0 [[[??]?]?] _. reflexivity. }
  apply objective_loop in Hrun as [Hin _].
  apply (Hin (m, b, g, s)). by rewrite !elem_of_pairs.
Qed.

Lemma avoidance_penalties_keep_x ad ks bs gs ss sv pair sv' k :
  Optimizer.avoidance_penalties ad (y_dict ks) bs gs ss sv pair = Ok sv' →
  objective sv' !! X4 k = objective sv !! X4 k.
Proof.
  unfold Optimizer.avoidance_penalties. destruct pair as [m1 m2].
  intros (penalty & _ & Hrun)%bind_Ok. revert Hrun.
  apply (for_fold_invariant _
    (λ s, objective s !! X4 k = objective sv !! X4 k)); [done|].
  intros s1 b s2 _ H1.
  apply (for_fold_invariant _
    (λ s, objective s !! X4 k = objective sv !! X4 k)); [done|].
  clear s1 s2 H1. intros s1 g s2 _ H1.
  apply (for_fold_invariant _
    (λ s, objective s !! X4 k = objective sv !! X4 k)); [done|].
  clear s1 s2 H1. intros s1 s s2 _ H1.
  case_bool_decide; [|by intros [= <-]].
  intros (v & [_ ->]%subscript_y_dict & [= <-])%bind_Ok. simpl.
  rewrite lookup_insert_ne; [done|]. intros Heq.
  by apply (X4_not_Y5 k (m1, m2, b, g, s)).
Qed.

(** C7. The objective coefficient of [x[m, b, g, s]] is the entry of the
    cost table for [(m, b)], or 0 when there is none; it is the same for
    all periods and shifts. *)
Theorem objective_cost_coefficient available self data self' model m b g s :
  Optimizer.create_model available self data = Ok (self', model) →
  m ∈ mechanics data → b ∈ bases data → g ∈ periods data → s ∈ shifts data →
  Optimizer.m_x model !! (m, b, g, s) = Some (X m b g s) ∧
  objective (Optimizer.m_solver model) !! X m b g s =
    Some (default (Fnum 0) (cost_dict data !! (m, b))) ∧
  (∀ g' s', g' ∈ periods data → s' ∈ shifts data →
     objective (Optimizer.m_solver model) !! X m b g' s' =
     objective (Optimizer.m_solver model) !! X m b g s).
Proof.
  intros Hrun Hm Hb Hg Hs.
  apply create_model_inv in Hrun
    as (c1 & c2 & c3 & c4 & c5 & sv1 & sv2 & sv3 & _ & Hx & _ & _ & _ & _ & _
        & _ & _ & _ & _ & _ & _ & Hmove & Hpen & Hobj).
  assert (∀ k, objective sv3 !! X4 k = objective sv2 !! X4 k) as Hkeep.
  { intros k.
    destruct (bool_decide (avoidance_dict data ≠ ∅) && bool_decide (_ ≠ ∅));
      [|by injection Hpen as <-].
    revert Hpen.
    apply (for_fold_invariant _
      (λ s, objective s !! X4 k = objective sv2 !! X4 k)); [done|].
    intros s1 pair s2 _ E1 E2%(avoidance_penalties_keep_x _ _ _ _ _ _ _ _ k).
    by rewrite E2. }
  assert (∀ g' s', g' ∈ periods data → s' ∈ shifts data →
            objective (Optimizer.m_solver model) !! X m b g' s' =
            Some (default (Fnum 0) (cost_dict data !! (m, b)))) as Hall.
  { intros g' s' Hg' Hs'. rewrite Hobj.
    etrans; [apply (Hkeep (m, b, g', s'))|].
    by destruct (movement_costs_objective _ _ _ _ _ _ _ _ m b g' s' Hmove). }
  split_and!.
  - rewrite Hx. apply lookup_x_dict. by rewrite elem_of_keys4.
  - by apply Hall.
  - intros g' s' Hg' Hs'. rewrite !Hall; done.
Qed.

(** ** Avoidance: linearization *)

Lemma linear_empty val : linear val ∅ = 0.
Proof. unfold linear. apply map_fold_empty. Qed.

Lemma linear_insert val (coeffs : gmap var Z) v a :
  coeffs !! v = None →
  linear val (<[v := a]> coeffs) = a * val v + linear val coeffs.
Proof.
  intros Hv. unfold linear.
  apply (map_fold_insert_L (λ v a acc, a * val v + acc)); [|done].
  intros. lia.
Qed.

Lemma linearization_spec ks yks bs gs ss m1 m2 r b g s :
  Optimizer.linearization (x_dict ks) (y_dict yks) bs gs ss (m1, m2) = Ok r →
  b ∈ bs → g ∈ gs → s ∈ ss →
  (m1, b, g, s) ∈ ks ∧ (m2, b, g, s) ∈ ks ∧ (m1, m2, b, g, s) ∈ yks ∧
  avoid_y_le_x1 m1 m2 b g s ∈ r ∧
  avoid_y_le_x2 m1 m2 b g s ∈ r ∧
  avoid_y_ge_sum m1 m2 b g s ∈ r.
Proof.
  unfold Optimizer.linearization. intros Hr Hb Hg Hs.
  destruct (for_collect_each _ _ _ b Hr Hb) as [rb Hrb].
  destruct (for_collect_each _ _ _ g Hrb Hg) as [rg Hrg].
  destruct (for_collect_each _ _ _ s Hrg Hs) as [rs Hrs].
  assert (∀ c, c ∈ rs → c ∈ r) as Hsub.
  { intros c Hc. apply (for_collect_elem _ _ _ c Hr). exists b, rb.
    split_and!; [done..|]. apply (for_collect_elem _ _ _ c Hrb). exists g, rg.
    split_and!; [done..|]. apply (for_collect_elem _ _ _ c Hrg). by exists s, rs. }
  apply bind_Ok in Hrs as (y & [Hy ->]%subscript_y_dict & Hrs).
  apply bind_Ok in Hrs as (x1 & [Hx1 ->]%subscript_x_dict & Hrs).
  apply bind_Ok in Hrs as (x2 & [Hx2 ->]%subscript_x_dict & Hrs).
  apply bind_Ok in Hrs as (x1' & [_ ->]%subscript_x_dict & Hrs).
  apply bind_Ok in Hrs as (x2' & [_ ->]%subscript_x_dict & [= <-]).
  split_and!; try done; apply Hsub.
  - left.
  - right. left.
  - right. right. left.
Qed.

(** The first two constraints bound [y] by each [x]. *)
Lemma avoid_y_le_x_sound val m1 m2 b g s :
  holds val (avoid_y_le_x1 m1 m2 b g s) →
  holds val (avoid_y_le_x2 m1 m2 b g s) →
  val (Y m1 m2 b g s) ≤ val (X m1 b g s) ∧
  val (Y m1 m2 b g s) ≤ val (X m2 b g s).
Proof.
  intros [_ Hc1] [_ Hc2]. simpl in Hc1, Hc2.
  rewrite linear_insert, <- insert_empty, linear_insert, linear_empty in Hc1
    by (by rewrite ?lookup_insert_ne, ?lookup_empty).
  rewrite linear_insert, <- insert_empty, linear_insert, linear_empty in Hc2
    by (by rewrite ?lookup_insert_ne, ?lookup_empty).
  lia.
Qed.

(** The third constraint, as it is built (lower bound -1 on
    [x1 + x2 - y]), says [y ≤ x1 + x2 + 1]. *)
Lemma avoid_y_ge_sum_meaning val m1 m2 b g s :
  m1 ≠ m2 →
  holds val (avoid_y_ge_sum m1 m2 b g s) ↔
  val (Y m1 m2 b g s) ≤ val (X m1 b g s) + val (X m2 b g s) + 1.
Proof.
  intros Hne. unfold holds. simpl.
  rewrite linear_insert.
  2: { rewrite lookup_insert_ne by congruence. by rewrite lookup_singleton_ne. }
  rewrite linear_insert, <- insert_empty, linear_insert, linear_empty
    by (by rewrite ?lookup_insert_ne, ?lookup_empty).
  lia.
Qed.

(** It holds for all values within the bounds of the variables. *)
Lemma avoid_y_ge_sum_vacuous val m1 m2 b g s :
  m1 ≠ m2 →
  0 ≤ val (X m1 b g s) → 0 ≤ val (X m2 b g s) → val (Y m1 m2 b g s) ≤ 1 →
  holds val (avoid_y_ge_sum m1 m2 b g s).
Proof. intros Hne H1 H2 Hy. apply avoid_y_ge_sum_meaning; [done | lia]. Qed.

Lemma feasible_Forall solver val :
  feasible solver val ↔
  Forall (λ d, var_lb d ≤ val (var_key d) ≤ var_ub d) (variables solver) ∧
  Forall (holds val) (constraints solver).
Proof. unfold feasible. by rewrite !Forall_forall. Qed.

(** The three constraints of every pair with [m1 < m2] at every slot are in
    the model, as the builder makes them. *)
Lemma linearization_in_model available self data self' model m1 m2 b g s :
  Optimizer.create_model available self data = Ok (self', model) →
  is_Some (avoidance_dict data !! (m1, m2)) → m1 < m2 →
  b ∈ bases data → g ∈ periods data → s ∈ shifts data →
  avoid_y_le_x1 m1 m2 b g s ∈ constraints (Optimizer.m_solver model) ∧
  avoid_y_le_x2 m1 m2 b g s ∈ constraints (Optimizer.m_solver model) ∧
  avoid_y_ge_sum m1 m2 b g s ∈ constraints (Optimizer.m_solver model).
Proof.
  intros Hrun Hpair Hlt Hb Hg Hs.
  apply create_model_inv in Hrun
    as (c1 & c2 & c3 & c4 & c5 & sv1 & sv2 & sv3 & _ & _ & _ & _ & _ & _ & _
        & _ & _ & Hc5 & Hcons & _).
  assert ((m1, m2) ∈ elements (Optimizer.unique_pairs (avoidance_dict data)))
    as Hin by by apply elem_of_unique_pairs.
  destruct (for_collect_each _ _ _ _ Hc5 Hin) as [r Hr].
  destruct (linearization_spec _ _ _ _ _ _ _ _ b g s Hr Hb Hg Hs)
    as (_ & _ & _ & H1 & H2 & H3).
  assert (∀ c, c ∈ r → c ∈ constraints (Optimizer.m_solver model)) as Hsub.
  { intros c Hc. rewrite Hcons, !elem_of_app. do 4 right.
    apply (for_collect_elem _ _ _ c Hc5). by exists (m1, m2), r. }
  auto.
Qed.

Lemma build_built file :
  (if Sample.build file is Ok _ then true else false) = true →
  Sample.build file = Ok ((Sample.built file).1, (Sample.built file).2).
Proof.
  unfold Sample.built. by destruct (Sample.build file) as [[??]|].
Qed.

(** C1 fails on the code.  On the sample with the avoidance pair (1, 2) the
    model is built and holds the three constraints, and the assignment
    with mechanics 1 and 2 together at slot (1, 1, 1) and [y = 0] is
    feasible, although the product of the two [x] is 1. *)
Theorem linearization_leaves_y_free :
  Sample.build (Some (Ok Sample.avoidance)) =
    Ok ((Sample.built (Some (Ok Sample.avoidance))).1,
        (Sample.built (Some (Ok Sample.avoidance))).2) ∧
  avoid_y_ge_sum 1 2 1 1 1 ∈
    constraints (Optimizer.m_solver (Sample.built (Some (Ok Sample.avoidance))).2) ∧
  feasible (Optimizer.m_solver (Sample.built (Some (Ok Sample.avoidance))).2)
    Sample.together ∧
  Sample.together (Y 1 2 1 1 1) = 0 ∧
  Sample.together (X 1 1 1 1) * Sample.together (X 2 1 1 1) = 1.
Proof.
  assert (Sample.build (Some (Ok Sample.avoidance)) =
          Ok ((Sample.built (Some (Ok Sample.avoidance))).1,
              (Sample.built (Some (Ok Sample.avoidance))).2)) as Hbuild
    by (apply build_built; vm_compute; reflexivity).
  split; [exact Hbuild|]. split.
  { apply (linearization_in_model (λ _, true) Sample.optimizer
             (Sample.data (Some (Ok Sample.avoidance))) _ _ 1 2 1 1 1 Hbuild).
    - eexists. vm_compute. reflexivity.
    - reflexivity.
    - by_evaluation.
    - by_evaluation.
    - by_evaluation. }
  clear Hbuild. split; [|split; vm_compute; reflexivity].
  apply feasible_Forall. split; by_evaluation.
Qed.

(** ** Constraints 2 and 3: coverage *)

Lemma has_skill_Ok skills m name b :
  Optimizer.has_skill skills m name = Ok b →
  is_Some (skills !! m) ∧ (b = true ↔ holds_skill skills m name).
Proof.
  unfold Optimizer.has_skill, holds_skill.
  intros (d & Hd%subscript_Ok & [= <-])%bind_Ok. split; [by eexists|].
  rewrite bool_decide_eq_true. split.
  - intros Hv. exists d. split; [done|].
    destruct (d !! name) as [z|]; simpl in Hv; [by subst | done].
  - intros (d' & Hd' & Hn). simplify_eq. by rewrite Hn.
Qed.

Lemma positive_cell_Ok (row : gmap string cell) col b :
  subscript row col ≫= gt_zero = Ok b →
  b = true ↔ positive_cell row col.
Proof.
  unfold positive_cell.
  intros (c & Hc%subscript_Ok & Hgt)%bind_Ok. rewrite Hc.
  destruct c as [[|q]|t]; simpl in Hgt; simplify_eq.
  - split; [done | by intros (? & ? & ?)].
  - rewrite bool_decide_eq_true. unfold Qlt. simpl. split.
    + intros Hq. exists q. split; [done | lia].
    + intros (q' & [= <-] & Hq). lia.
Qed.

Lemma coverage_spec ks skills ms b g s name c c' :
  Optimizer.coverage (x_dict ks) skills ms b g s name c = Ok c' →
  c_coeffs c = ∅ →
  c_lb c' = c_lb c ∧ c_ub c' = c_ub c ∧ c_name c' = c_name c ∧
  covers skills ms name b g s c'.
Proof.
  unfold Optimizer.coverage. intros Hrun Hempty.
  rewrite (for_fold_ext _
    (λ c m, r ← (skilled ← Optimizer.has_skill skills m name;
                 if skilled : bool
                 then v ← subscript (x_dict ks) (m, b, g, s); Ok (Some v)
                 else Ok None);
            Ok (match r with
                | Some v => SetCoefficient c v 1
                | None => c
                end))) in Hrun.
  2: { intros c0 m _. destruct (Optimizer.has_skill skills m name) as [[|]|];
         simpl; [|done..]. by destruct (subscript _ _). }
  apply set_coefficients_spec in Hrun as (Hlb & Hub & Hname & Hall & Hset & Hget).
  split_and!; try done. intros v a. split.
  - intros [[-> (m & Hm & Hp)] | Hv]%Hget; [|by rewrite Hempty in Hv].
    split; [done|]. exists m.
    apply bind_Ok in Hp as (skilled & Hsk & Hp).
    apply has_skill_Ok in Hsk as [_ Hsk]. destruct skilled; [|done].
    apply bind_Ok in Hp as (v' & [_ ->]%subscript_x_dict & [= <-]).
    split_and!; [done | by apply Hsk | done].
  - intros [-> (m & Hm & Hsk & ->)]. apply (Hset m); [done|].
    destruct (Hall m Hm) as [r Hr]. rewrite Hr. f_equal.
    apply bind_Ok in Hr as (skilled & Hsk' & Hr).
    apply has_skill_Ok in Hsk' as [_ Hsk'].
    destruct skilled; [|by apply Hsk' in Hsk].
    by apply bind_Ok in Hr as (v' & [_ ->]%subscript_x_dict & [= <-]).
Qed.

Lemma demanded_Ok (df : DataFrame) (row : gmap string cell) aircraft b :
  (if bool_decide (aircraft ∈ columns df)
   then subscript row aircraft ≫= gt_zero
   else Ok false) = Ok b →
  b = true ↔ aircraft ∈ columns df ∧ positive_cell row aircraft.
Proof.
  case_bool_decide as Hcol.
  - intros Hb%positive_cell_Ok. tauto.
  - intros [= <-]. split; [done | tauto].
Qed.

Lemma inspector_required_Ok df row col b :
  Optimizer.inspector_required df row col = Ok b →
  b = true ↔ col ∈ columns df ∧ positive_cell row col.
Proof.
  unfold Optimizer.inspector_required. case_bool_decide as Hcol.
  - intros (c & Hc%subscript_Ok & Hb)%bind_Ok.
    assert (b = true ↔ positive_cell row col); [|tauto].
    destruct (notna c) eqn:Hna.
    + apply positive_cell_Ok. rewrite (proj2 (subscript_Ok row col c) Hc).
      done.
    + injection Hb as <-. destruct c as [[|q]|t]; try done.
      split; [done|]. intros (q & Hq & _). congruence.
  - intros [= <-]. split; [done | tauto].
Qed.

Lemma row_slot_bind {B} (row : gmap string cell)
    (k : Z * Z * Z → result B) r :
  Optimizer.row_slot row ≫= k = Ok r →
  ∃ b g s, Optimizer.row_slot row = Ok (b, g, s) ∧ k (b, g, s) = Ok r.
Proof. intros ([[b g] s] & ? & ?)%bind_Ok. eauto. Qed.

(** What the rows of the schedule contribute to constraint 2. *)
Lemma skill_coverage_elem ks skills ms df row r :
  Optimizer.skill_coverage (x_dict ks) skills ms df row = Ok r →
  ∃ b g s, Optimizer.row_slot row = Ok (b, g, s) ∧
    (∀ c, c ∈ r →
       ∃ aircraft skill,
         aircraft ∈ Optimizer.aircraft_types ∧ skill ∈ Optimizer.skill_types ∧
         aircraft ∈ columns df ∧ positive_cell row aircraft ∧
         c_name c = "skill_" +:+ (aircraft +:+ skill) +:+
                    Optimizer.slot_suffix b g s ∧
         c_lb c = Fin 1 ∧ c_ub c = PosInf ∧
         covers skills ms (aircraft +:+ skill) b g s c) ∧
    (∀ aircraft skill,
       aircraft ∈ Optimizer.aircraft_types → skill ∈ Optimizer.skill_types →
       aircraft ∈ columns df → positive_cell row aircraft →
       ∃ c, c ∈ r ∧
         c_name c = "skill_" +:+ (aircraft +:+ skill) +:+
                    Optimizer.slot_suffix b g s ∧
         c_lb c = Fin 1 ∧ c_ub c = PosInf ∧
         covers skills ms (aircraft +:+ skill) b g s c).
Proof.
  unfold Optimizer.skill_coverage.
  intros (b & g & s & Hslot & Hr)%row_slot_bind. exists b, g, s.
  split; [done|]. split.
  - intros c Hc.
    apply (for_collect_elem _ _ _ c Hr) in Hc as (aircraft & ra & Ha & Hra & Hc).
    apply bind_Ok in Hra as (demanded & Hd & Hra).
    apply demanded_Ok in Hd.
    destruct demanded; [|injection Hra as <-; by apply elem_of_nil in Hc].
    destruct Hd as [[Hcol Hpos] _]; [done|].
    apply (for_collect_elem _ _ _ c Hra) in Hc as (skill & rs & Hs & Hrs & Hc).
    apply bind_Ok in Hrs as (c' & Hc' & [= <-]).
    apply list_elem_of_singleton in Hc as ->.
    apply coverage_spec in Hc' as (Hlb & Hub & Hname & Hcov); [|done].
    exists aircraft, skill. split_and!; done.
  - intros aircraft skill Ha Hs Hcol Hpos.
    destruct (for_collect_each _ _ _ aircraft Hr Ha) as [ra Hra].
    pose proof Hra as Hra'.
    apply bind_Ok in Hra as (demanded & Hd & Hra).
    apply demanded_Ok in Hd.
    destruct demanded; [|by destruct Hd as [_ Hd]; specialize (Hd (conj Hcol Hpos))].
    destruct (for_collect_each _ _ _ skill Hra Hs) as [rs Hrs].
    pose proof Hrs as Hrs'.
    apply bind_Ok in Hrs as (c' & Hc' & [= <-]).
    apply coverage_spec in Hc' as (Hlb & Hub & Hname & Hcov); [|done].
    exists c'. split_and!; try done.
    apply (for_collect_elem _ _ _ c' Hr). exists aircraft, ra.
    split_and!; [done..|].
    apply (for_collect_elem _ _ _ c' Hra). exists skill, [c'].
    split_and!; [done..|]. left.
Qed.

(** What the rows of the schedule contribute to constraint 3. *)
Lemma inspector_coverage_elem ks iskills ms df irc row r c :
  Optimizer.inspector_coverage (x_dict ks) iskills ms df irc row = Ok r →
  c ∈ r →
  ∃ b g s col,
    Optimizer.row_slot row = Ok (b, g, s) ∧ col ∈ irc ∧
    positive_cell row col ∧
    c_name c = "inspector_" +:+ col +:+ Optimizer.slot_suffix b g s ∧
    c_lb c = Fin 1 ∧ c_ub c = PosInf ∧
    covers iskills ms col b g s c.
Proof.
  unfold Optimizer.inspector_coverage.
  intros (b & g & s & Hslot & Hr)%row_slot_bind Hc. exists b, g, s.
  apply (for_collect_elem _ _ _ c Hr) in Hc as (col & ra & Ha & Hra & Hc).
  apply bind_Ok in Hra as (active & Hd & Hra).
  apply inspector_required_Ok in Hd.
  destruct active; [|injection Hra as <-; by apply elem_of_nil in Hc].
  destruct Hd as [[Hcol Hpos] _]; [done|].
  apply bind_Ok in Hra as (c' & Hc' & [= <-]).
  apply list_elem_of_singleton in Hc as ->.
  apply coverage_spec in Hc' as (Hlb & Hub & Hname & Hcov); [|done].
  exists col. split_and!; done.
Qed.

(** ** Constraint 4: no self-inspection *)

Lemma set_coefficients_other {A} (pick : A → result (option var)) (a : Z)
    (l : list A) (c c' : MPConstraint) (v : var) :
  for_fold (λ c i, r ← pick i;
                   Ok (match r with
                       | Some v => SetCoefficient c v a
                       | None => c
                       end)) l c = Ok c' →
  (∀ i, i ∈ l → pick i ≠ Ok (Some v)) →
  c_coeffs c' !! v = c_coeffs c !! v.
Proof.
  revert c. induction l as [|i l IH]; intros c; simpl.
  - by intros [= <-].
  - intros (c1 & (r & Hr & [= <-])%bind_Ok & Hrest)%bind_Ok Hv.
    rewrite (IH _ Hrest); [|intros; apply Hv; by right].
    destruct r as [v'|]; [|done]. simpl.
    apply lookup_insert_ne. intros ->. by apply (Hv i); [left|].
Qed.

Lemma other_mechanics_Ok skills ms m_inspector name others m :
  Optimizer.other_mechanics_with_skill skills ms m_inspector name = Ok others →
  m ∈ others ↔ other_with_skill skills ms m_inspector name m.
Proof.
  unfold Optimizer.other_mechanics_with_skill, other_with_skill. intros Hrun.
  rewrite (for_collect_elem _ _ _ m Hrun). split.
  - intros (m' & r & Hm' & Hr & Hm). case_bool_decide as Hne.
    + apply bind_Ok in Hr as (skilled & [_ Hsk]%has_skill_Ok & [= <-]).
      destruct skilled; [|by apply elem_of_nil in Hm].
      apply list_elem_of_singleton in Hm as ->. split_and!; [done..|].
      by apply Hsk.
    + injection Hr as <-. by apply elem_of_nil in Hm.
  - intros (Hm & Hne & Hsk).
    destruct (for_collect_each _ _ _ m Hrun Hm) as [r Hr].
    exists m, r. split_and!; [done..|].
    rewrite bool_decide_true in Hr by done.
    apply bind_Ok in Hr as (skilled & [_ Hsk']%has_skill_Ok & [= <-]).
    destruct skilled; [left | by apply Hsk' in Hsk].
Qed.

(** The body of the loop over [m_inspector]: one constraint when the
    mechanic holds the inspector skill and another mechanic holds the
    regular one, and none otherwise. *)
Lemma no_self_inspection_for_spec ks skills iskills ms b g s col m_inspector r :
  Optimizer.no_self_inspection_for (x_dict ks) skills iskills ms b g s col
    m_inspector = Ok r →
  (r = [] ∧
   ¬ (holds_skill iskills m_inspector col ∧
      ∃ m, other_with_skill skills ms m_inspector (regular_skill col) m)) ∨
  (∃ c, r = [c] ∧
     holds_skill iskills m_inspector col ∧
     (∃ m, other_with_skill skills ms m_inspector (regular_skill col) m) ∧
     c_name c = "no_self_inspect_" +:+ col +:+ Optimizer.slot_suffix b g s +:+
                "_inspector" +:+ pretty m_inspector ∧
     c_lb c = NegInf ∧ c_ub c = Fin 0 ∧
     guards skills ms (regular_skill col) m_inspector b g s c).
Proof.
  unfold Optimizer.no_self_inspection_for. cbv zeta.
  fold (regular_skill col).
  intros (inspects & [_ Hin]%has_skill_Ok & Hr)%bind_Ok.
  destruct inspects.
  2: { left. injection Hr as <-. split; [done|]. intros [Hs _].
       by apply Hin in Hs. }
  apply bind_Ok in Hr as (others & Hothers & Hr).
  pose proof (λ m, other_mechanics_Ok _ _ _ _ _ m Hothers) as Hoth.
  destruct others as [|m0 others'].
  { left. injection Hr as <-. split; [done|]. intros [_ [m Hm]].
    apply Hoth in Hm. by apply elem_of_nil in Hm. }
  right. remember (m0 :: others') as others eqn:Heq.
  apply bind_Ok in Hr as (v & [Hk ->]%subscript_x_dict & Hr).
  apply bind_Ok in Hr as (c & Hc & [= <-]). exists c.
  rewrite (for_fold_ext _
    (λ c m, r ← (v ← subscript (x_dict ks) (m, b, g, s); Ok (Some v));
            Ok (match r with
                | Some v => SetCoefficient c v (-1)
                | None => c
                end))) in Hc.
  2: { intros c0 m _. by destruct (subscript _ _). }
  pose proof (set_coefficients_other _ _ _ _ _ (X m_inspector b g s) Hc) as Hkeep.
  apply set_coefficients_spec in Hc as (Hlb & Hub & Hname & Hall & Hset & Hget).
  assert (∀ m, m ∈ others →
            (λ m, v ← subscript (x_dict ks) (m, b, g, s); Ok (Some v)) m =
            Ok (Some (X m b g s))) as Hpick.
  { intros m Hm. destruct (Hall m Hm) as [r Hr]. simpl. simpl in Hr.
    rewrite Hr. f_equal.
    by apply bind_Ok in Hr as (v' & [_ ->]%subscript_x_dict & [= <-]). }
  split_and!; try done.
  - by apply Hin.
  - exists m0. apply Hoth. rewrite Heq. left.
  - intros v a. split.
    + intros [[-> (m & Hm & Hp)] | Hv]%Hget.
      * right. split; [done|]. exists m. split; [by apply Hoth|].
        rewrite (Hpick m Hm) in Hp. congruence.
      * left. simpl in Hv. rewrite lookup_insert in Hv.
        case_decide; [|by rewrite lookup_empty in Hv]. by simplify_eq.
    + intros [[-> ->] | [-> (m & Hm%Hoth & ->)]].
      * rewrite Hkeep; [simpl; apply lookup_insert_eq|].
        intros m Hm. rewrite (Hpick m Hm). intros [= ->].
        apply Hoth in Hm as (_ & Hne & _). done.
      * by apply (Hset m); [|apply Hpick].
Qed.

(** What the rows of the schedule contribute to constraint 4. *)
Lemma no_self_inspection_elem ks skills iskills ms df irc row r :
  Optimizer.no_self_inspection (x_dict ks) skills iskills ms df irc row = Ok r →
  ∃ b g s, Optimizer.row_slot row = Ok (b, g, s) ∧
    (∀ c, c ∈ r →
       ∃ col m_inspector,
         col ∈ irc ∧ positive_cell row col ∧ m_inspector ∈ ms ∧
         holds_skill iskills m_inspector col ∧
         (∃ m, other_with_skill skills ms m_inspector (regular_skill col) m) ∧
         c_name c = "no_self_inspect_" +:+ col +:+
                    Optimizer.slot_suffix b g s +:+
                    "_inspector" +:+ pretty m_inspector ∧
         c_lb c = NegInf ∧ c_ub c = Fin 0 ∧
         guards skills ms (regular_skill col) m_inspector b g s c) ∧
    (∀ col m_inspector,
       col ∈ irc → col ∈ columns df → positive_cell row col →
       m_inspector ∈ ms →
       ∃ rm,
         Optimizer.no_self_inspection_for (x_dict ks) skills iskills ms b g s
           col m_inspector = Ok rm ∧
         ∀ c, c ∈ rm → c ∈ r).
Proof.
  unfold Optimizer.no_self_inspection.
  intros (b & g & s & Hslot & Hr)%row_slot_bind. exists b, g, s.
  split; [done|]. split.
  - intros c Hc.
    apply (for_collect_elem _ _ _ c Hr) in Hc as (col & ra & Ha & Hra & Hc).
    apply bind_Ok in Hra as (active & Hd & Hra).
    apply inspector_required_Ok in Hd.
    destruct active; [|injection Hra as <-; by apply elem_of_nil in Hc].
    destruct Hd as [[Hcol Hpos] _]; [done|].
    apply (for_collect_elem _ _ _ c Hra) in Hc as (m & rm & Hm & Hrm & Hc).
    apply no_self_inspection_for_spec in Hrm
      as [[-> _] | (c' & -> & Hins & Hoth & Hname & Hlb & Hub & Hg)].
    { by apply elem_of_nil in Hc. }
    apply list_elem_of_singleton in Hc as ->.
    exists col, m. split_and!; done.
  - intros col m Hirc Hcol Hpos Hm.
    destruct (for_collect_each _ _ _ col Hr Hirc) as [ra Hra].
    pose proof Hra as Hra'.
    apply bind_Ok in Hra as (active & Hd & Hra).
    apply inspector_required_Ok in Hd.
    destruct active;
      [|by destruct Hd as [_ Hd]; specialize (Hd (conj Hcol Hpos))].
    destruct (for_collect_each _ _ _ m Hra Hm) as [rm Hrm].
    exists rm. split; [done|]. intros c Hc.
    apply (for_collect_elem _ _ _ c Hr). exists col, ra.
    split_and!; [done..|].
    apply (for_collect_elem _ _ _ c Hra). by exists m, rm.
Qed.

(** ** Every constraint of the model belongs to one of the five families *)

Lemma linearization_elem ks yks bs gs ss m1 m2 r c :
  Optimizer.linearization (x_dict ks) (y_dict yks) bs gs ss (m1, m2) = Ok r →
  c ∈ r →
  ∃ b g s, b ∈ bs ∧ g ∈ gs ∧ s ∈ ss ∧
    (c = avoid_y_le_x1 m1 m2 b g s ∨ c = avoid_y_le_x2 m1 m2 b g s ∨
     c = avoid_y_ge_sum m1 m2 b g s).
Proof.
  unfold Optimizer.linearization. intros Hr Hc.
  apply (for_collect_elem _ _ _ c Hr) in Hc as (b & rb & Hb & Hrb & Hc).
  apply (for_collect_elem _ _ _ c Hrb) in Hc as (g & rg & Hg & Hrg & Hc).
  apply (for_collect_elem _ _ _ c Hrg) in Hc as (s & rs & Hs & Hrs & Hc).
  exists b, g, s. split_and!; [done..|].
  apply bind_Ok in Hrs as (y & [Hy ->]%subscript_y_dict & Hrs).
  apply bind_Ok in Hrs as (x1 & [Hx1 ->]%subscript_x_dict & Hrs).
  apply bind_Ok in Hrs as (x2 & [Hx2 ->]%subscript_x_dict & Hrs).
  apply bind_Ok in Hrs as (x1' & [_ ->]%subscript_x_dict & Hrs).
  apply bind_Ok in Hrs as (x2' & [_ ->]%subscript_x_dict & [= <-]).
  apply elem_of_cons in Hc as [-> | Hc]; [by left|].
  apply elem_of_cons in Hc as [-> | Hc]; [by right; left|].
  apply list_elem_of_singleton in Hc as ->. by right; right.
Qed.

Lemma model_constraints available self data self' model c :
  Optimizer.create_model available self data = Ok (self', model) →
  c ∈ constraints (Optimizer.m_solver model) →
  (∃ m, m ∈ mechanics data ∧
        c_name c = "mechanic_" +:+ pretty m +:+ "_single_assignment") ∨
  (∃ row b g s aircraft skill,
     row ∈ rows (base_schedule_df data) ∧
     Optimizer.row_slot row = Ok (b, g, s) ∧
     aircraft ∈ Optimizer.aircraft_types ∧ skill ∈ Optimizer.skill_types ∧
     aircraft ∈ columns (base_schedule_df data) ∧ positive_cell row aircraft ∧
     c_name c = "skill_" +:+ (aircraft +:+ skill) +:+
                Optimizer.slot_suffix b g s ∧
     c_lb c = Fin 1 ∧ c_ub c = PosInf ∧
     covers (Optimizer.m_mechanic_skills model) (mechanics data)
       (aircraft +:+ skill) b g s c) ∨
  (∃ row b g s col,
     row ∈ rows (base_schedule_df data) ∧
     Optimizer.row_slot row = Ok (b, g, s) ∧
     col ∈ Optimizer.m_inspector_req_columns model ∧ positive_cell row col ∧
     c_name c = "inspector_" +:+ col +:+ Optimizer.slot_suffix b g s ∧
     c_lb c = Fin 1 ∧ c_ub c = PosInf ∧
     covers (Optimizer.m_mechanic_inspector_skills model) (mechanics data)
       col b g s c) ∨
  (∃ row b g s col m_inspector,
     row ∈ rows (base_schedule_df data) ∧
     Optimizer.row_slot row = Ok (b, g, s) ∧
     col ∈ Optimizer.m_inspector_req_columns model ∧ positive_cell row col ∧
     m_inspector ∈ mechanics data ∧
     holds_skill (Optimizer.m_mechanic_inspector_skills model) m_inspector col ∧
     (∃ m, other_with_skill (Optimizer.m_mechanic_skills model)
             (mechanics data) m_inspector (regular_skill col) m) ∧
     c_name c = "no_self_inspect_" +:+ col +:+ Optimizer.slot_suffix b g s +:+
                "_inspector" +:+ pretty m_inspector ∧
     c_lb c = NegInf ∧ c_ub c = Fin 0 ∧
     guards (Optimizer.m_mechanic_skills model) (mechanics data)
       (regular_skill col) m_inspector b g s c) ∨
  (∃ m1 m2 b g s,
     is_Some (avoidance_dict data !! (m1, m2)) ∧ m1 < m2 ∧
     b ∈ bases data ∧ g ∈ periods data ∧ s ∈ shifts data ∧
     (c = avoid_y_le_x1 m1 m2 b g s ∨ c = avoid_y_le_x2 m1 m2 b g s ∨
      c = avoid_y_ge_sum m1 m2 b g s)).
Proof.
  intros Hrun Hc.
  apply create_model_inv in Hrun
    as (c1 & c2 & c3 & c4 & c5 & sv1 & sv2 & sv3 & _ & _ & _ & Hirc & _ & Hc1
        & Hc2 & Hc3 & Hc4 & Hc5 & Hcons & _).
  rewrite Hcons, !elem_of_app in Hc. rewrite Hirc.
  destruct Hc as [Hc | [Hc | [Hc | [Hc | Hc]]]].
  - left. apply (for_collect_elem _ _ _ c Hc1) in Hc as (m & r & Hm & Hr & Hc).
    apply single_assignment_spec in Hr as (c' & -> & _ & _ & Hname & _).
    apply list_elem_of_singleton in Hc as ->. by exists m.
  - right. left.
    apply (for_collect_elem _ _ _ c Hc2) in Hc as (row & r & Hrow & Hr & Hc).
    apply skill_coverage_elem in Hr as (b & g & s & Hslot & Hfrom & _).
    destruct (Hfrom c Hc) as (aircraft & skill & ?).
    exists row, b, g, s, aircraft, skill. tauto.
  - right. right. left. case_bool_decide.
    2: { injection Hc3 as <-. by apply elem_of_nil in Hc. }
    apply (for_collect_elem _ _ _ c Hc3) in Hc as (row & r & Hrow & Hr & Hc).
    destruct (inspector_coverage_elem _ _ _ _ _ _ _ _ Hr Hc)
      as (b & g & s & col & ?).
    exists row, b, g, s, col. tauto.
  - right. right. right. left. case_bool_decide.
    2: { injection Hc4 as <-. by apply elem_of_nil in Hc. }
    apply (for_collect_elem _ _ _ c Hc4) in Hc as (row & r & Hrow & Hr & Hc).
    apply no_self_inspection_elem in Hr as (b & g & s & Hslot & Hfrom & _).
    destruct (Hfrom c Hc) as (col & m & ?).
    exists row, b, g, s, col, m. tauto.
  - right. right. right. right.
    apply (for_collect_elem _ _ _ c Hc5) in Hc as ([m1 m2] & r & Hp & Hr & Hc).
    apply elem_of_unique_pairs in Hp as [Hsome Hlt].
    destruct (linearization_elem _ _ _ _ _ _ _ _ _ Hr Hc) as (b & g & s & ?).
    exists m1, m2, b, g, s. tauto.
Qed.

(** A constraint whose name starts with [p] is not one whose name is known
    to start otherwise. *)
Ltac other_family H :=
  match goal with
  | Hn : c_name _ = _ |- _ =>
      rewrite Hn in H; vm_compute in H; discriminate H
  | Hc : _ = avoid_y_le_x1 _ _ _ _ _ ∨ _ |- _ =>
      destruct Hc as [-> | [-> | ->]]; vm_compute in H; discriminate H
  end.

(** C4. For every row of the schedule whose count for an aircraft is
    positive and for each of the three disciplines, the model holds a
    coverage constraint over the mechanics with the regular skill, with
    lower bound 1 whatever the count; and every skill-coverage constraint
    of the model comes from such a row, so that a count that is zero or
    missing yields none. *)
Theorem skill_coverage_rhs_one available self data self' model :
  Optimizer.create_model available self data = Ok (self', model) →
  (∀ row b g s aircraft skill,
     row ∈ rows (base_schedule_df data) →
     Optimizer.row_slot row = Ok (b, g, s) →
     aircraft ∈ Optimizer.aircraft_types → skill ∈ Optimizer.skill_types →
     aircraft ∈ columns (base_schedule_df data) →
     positive_cell row aircraft →
     ∃ c, c ∈ constraints (Optimizer.m_solver model) ∧
       c_name c = "skill_" +:+ (aircraft +:+ skill) +:+
                  Optimizer.slot_suffix b g s ∧
       c_lb c = Fin 1 ∧ c_ub c = PosInf ∧
       covers (Optimizer.m_mechanic_skills model) (mechanics data)
         (aircraft +:+ skill) b g s c) ∧
  (∀ c, c ∈ constraints (Optimizer.m_solver model) →
     startswith "skill_" (c_name c) = true →
     ∃ row b g s aircraft skill,
       row ∈ rows (base_schedule_df data) ∧
       Optimizer.row_slot row = Ok (b, g, s) ∧
       aircraft ∈ Optimizer.aircraft_types ∧ skill ∈ Optimizer.skill_types ∧
       aircraft ∈ columns (base_schedule_df data) ∧
       positive_cell row aircraft ∧
       c_name c = "skill_" +:+ (aircraft +:+ skill) +:+
                  Optimizer.slot_suffix b g s ∧
       c_lb c = Fin 1 ∧ c_ub c = PosInf ∧
       covers (Optimizer.m_mechanic_skills model) (mechanics data)
         (aircraft +:+ skill) b g s c).
Proof.
  intros Hrun. split.
  - intros row b g s aircraft skill Hrow Hslot Ha Hs Hcol Hpos.
    apply create_model_inv in Hrun
      as (c1 & c2 & c3 & c4 & c5 & sv1 & sv2 & sv3 & _ & _ & _ & _ & _ & _
          & Hc2 & _ & _ & _ & Hcons & _).
    destruct (for_collect_each _ _ _ row Hc2 Hrow) as [r Hr].
    destruct (skill_coverage_elem _ _ _ _ _ _ Hr)
      as (b' & g' & s' & Hslot' & _ & Hto).
    rewrite Hslot in Hslot'. injection Hslot' as <- <- <-.
    destruct (Hto aircraft skill Ha Hs Hcol Hpos) as (c & Hc & Hdesc).
    exists c. split; [|done]. rewrite Hcons, !elem_of_app. right. left.
    apply (for_collect_elem _ _ _ c Hc2). by exists row, r.
  - intros c Hc Hname.
    destruct (model_constraints _ _ _ _ _ c Hrun Hc)
      as [(m & _ & Hn) | [Hskill | [(row & b & g & s & col & _ & _ & _ & _ & Hn & _)
         | [(row & b & g & s & col & m & _ & _ & _ & _ & _ & _ & _ & Hn & _)
         | (m1 & m2 & b & g & s & _ & _ & _ & _ & _ & Hn)]]]];
      [other_family Hname | done | other_family Hname..].
Qed.

(** C5. For a row with an active inspector column and a mechanic holding
    that inspector skill: when another mechanic of the pool holds the
    regular skill, the model holds the constraint with coefficient 1 on the
    inspector and -1 on every such other mechanic, bounded above by 0; when
    there is none, the builder creates nothing for that mechanic; and every
    no-self-inspection constraint of the model comes from a case of the
    first kind. *)
Theorem no_self_inspection_conditional available self data self' model :
  Optimizer.create_model available self data = Ok (self', model) →
  (∀ row b g s col m_inspector,
     row ∈ rows (base_schedule_df data) →
     Optimizer.row_slot row = Ok (b, g, s) →
     col ∈ Optimizer.m_inspector_req_columns model →
     positive_cell row col →
     m_inspector ∈ mechanics data →
     holds_skill (Optimizer.m_mechanic_inspector_skills model) m_inspector col →
     ((∃ m, other_with_skill (Optimizer.m_mechanic_skills model)
              (mechanics data) m_inspector (regular_skill col) m) →
      ∃ c, c ∈ constraints (Optimizer.m_solver model) ∧
        c_name c = "no_self_inspect_" +:+ col +:+
                   Optimizer.slot_suffix b g s +:+
                   "_inspector" +:+ pretty m_inspector ∧
        c_lb c = NegInf ∧ c_ub c = Fin 0 ∧
        guards (Optimizer.m_mechanic_skills model) (mechanics data)
          (regular_skill col) m_inspector b g s c) ∧
     (¬ (∃ m, other_with_skill (Optimizer.m_mechanic_skills model)
                (mechanics data) m_inspector (regular_skill col) m) →
      Optimizer.no_self_inspection_for (Optimizer.m_x model)
        (Optimizer.m_mechanic_skills model)
        (Optimizer.m_mechanic_inspector_skills model) (mechanics data)
        b g s col m_inspector = Ok [])) ∧
  (∀ c, c ∈ constraints (Optimizer.m_solver model) →
     startswith "no_self_inspect_" (c_name c) = true →
     ∃ row b g s col m_inspector,
       row ∈ rows (base_schedule_df data) ∧
       Optimizer.row_slot row = Ok (b, g, s) ∧
       col ∈ Optimizer.m_inspector_req_columns model ∧
       positive_cell row col ∧
       m_inspector ∈ mechanics data ∧
       holds_skill (Optimizer.m_mechanic_inspector_skills model)
         m_inspector col ∧
       (∃ m, other_with_skill (Optimizer.m_mechanic_skills model)
               (mechanics data) m_inspector (regular_skill col) m) ∧
       c_name c = "no_self_inspect_" +:+ col +:+
                  Optimizer.slot_suffix b g s +:+
                  "_inspector" +:+ pretty m_inspector ∧
       c_lb c = NegInf ∧ c_ub c = Fin 0 ∧
       guards (Optimizer.m_mechanic_skills model) (mechanics data)
         (regular_skill col) m_inspector b g s c).
Proof.
  intros Hrun. split.
  - intros row b g s col m Hrow Hslot Hirc Hpos Hm Hins.
    apply create_model_inv in Hrun
      as (c1 & c2 & c3 & c4 & c5 & sv1 & sv2 & sv3 & _ & Hx & _ & Heq & _ & _
          & _ & _ & Hc4 & _ & Hcons & _).
    rewrite Heq in Hirc. rewrite Hx.
    rewrite bool_decide_true in Hc4
      by (intros Hnil; rewrite Hnil in Hirc; by apply elem_of_nil in Hirc).
    destruct (for_collect_each _ _ _ row Hc4 Hrow) as [r Hr].
    destruct (no_self_inspection_elem _ _ _ _ _ _ _ _ Hr)
      as (b' & g' & s' & Hslot' & _ & Hto).
    rewrite Hslot in Hslot'. injection Hslot' as <- <- <-.
    pose proof Hirc as [_ Hcol]%list_elem_of_filter.
    destruct (Hto col m Hirc Hcol Hpos Hm) as (rm & Hrm & Hsub).
    apply no_self_inspection_for_spec in Hrm as Hspec.
    destruct Hspec as [[-> Hnot] | (c & -> & _ & Hoth & Hdesc)].
    + split; [intros Hoth; destruct Hnot; by split | done].
    + split; [|by intros []]. intros _. exists c. split; [|done].
      rewrite Hcons, !elem_of_app. do 3 right. left.
      apply (for_collect_elem _ _ _ c Hc4). exists row, r.
      split_and!; [done..|]. apply Hsub. left.
  - intros c Hc Hname.
    destruct (model_constraints _ _ _ _ _ c Hrun Hc)
      as [(m & _ & Hn)
         | [(row & b & g & s & a & sk & _ & _ & _ & _ & _ & _ & Hn & _)
         | [(row & b & g & s & col & _ & _ & _ & _ & Hn & _)
         | [Hself | (m1 & m2 & b & g & s & _ & _ & _ & _ & _ & Hn)]]]];
      [other_family Hname.. | done | other_family Hname].
Qed.

(** ** Single assignment, from the model to the extracted list *)

Lemma linear_nonneg val (coeffs : gmap var Z) :
  (∀ v a, coeffs !! v = Some a → 0 ≤ a * val v) → 0 ≤ linear val coeffs.
Proof.
  unfold linear.
  apply (map_fold_weak_ind
    (λ r (m : gmap var Z), (∀ v a, m !! v = Some a → 0 ≤ a * val v) → 0 ≤ r)).
  - done.
  - intros v a m r Hv IH Hall.
    assert (0 ≤ a * val v) by (apply Hall, lookup_insert_eq).
    assert (0 ≤ r); [|lia]. apply IH. intros v' a' Hv'. apply Hall.
    rewrite lookup_insert_ne; [done|]. intros ->. congruence.
Qed.

Lemma linear_delete val (coeffs : gmap var Z) v a :
  coeffs !! v = Some a →
  linear val coeffs = a * val v + linear val (delete v coeffs).
Proof.
  intros Hv. rewrite <- (insert_delete_id coeffs v a Hv) at 1.
  apply linear_insert, lookup_delete_eq.
Qed.

(** Two entries of a linear form with non-negative terms bound it from
    below. *)
Lemma linear_two val (coeffs : gmap var Z) v1 v2 a1 a2 :
  coeffs !! v1 = Some a1 → coeffs !! v2 = Some a2 → v1 ≠ v2 →
  (∀ v a, coeffs !! v = Some a → 0 ≤ a * val v) →
  a1 * val v1 + a2 * val v2 ≤ linear val coeffs.
Proof.
  intros H1 H2 Hne Hall.
  rewrite (linear_delete val coeffs v1 a1 H1).
  rewrite (linear_delete val (delete v1 coeffs) v2 a2)
    by (by rewrite lookup_delete_ne).
  assert (0 ≤ linear val (delete v2 (delete v1 coeffs))); [|lia].
  apply linear_nonneg. intros v a Hv. apply Hall.
  apply lookup_delete_Some in Hv as [_ Hv].
  by apply lookup_delete_Some in Hv as [_ Hv].
Qed.

Lemma filter_fmap {A B} (f : A → B) (P : B → Prop) `{∀ y, Decision (P y)}
    (l : list A) :
  filter P (f <$> l) = f <$> filter (λ a, P (f a)) l.
Proof.
  induction l as [|a l IH]; [done|].
  rewrite fmap_cons, !filter_cons, IH. by case_decide.
Qed.

Lemma NoDup_two {A} (l : list A) :
  NoDup l → (2 ≤ length l)%nat → ∃ a1 a2, a1 ∈ l ∧ a2 ∈ l ∧ a1 ≠ a2.
Proof.
  intros Hl Hlen. destruct l as [|a1 [|a2 l]]; simpl in Hlen; [lia..|].
  exists a1, a2. split_and!; [left | right; left |].
  apply NoDup_cons in Hl as [Hnin _]. intros ->. apply Hnin. left.
Qed.

Lemma chosen_integer val ks k :
  k ∈ ks →
  chosen (λ v, inject_Z (val v)) (x_dict ks) k = true ↔ 1 ≤ val (X4 k).
Proof.
  intros Hk. unfold chosen.
  rewrite (proj2 (lookup_x_dict ks k (X4 k))) by done.
  rewrite bool_decide_eq_true. unfold Qlt. simpl. lia.
Qed.

Lemma mechanic_id_at cd k : Optimizer.mechanic_id (assignment_at cd k) = k.1.1.1.
Proof. by destruct k as [[[??]?]?]. Qed.

(** C6. In a model built over duplicate-free ids, every mechanic has a
    constraint [0 ≤ Σ x[m, b, g, s] ≤ 1] over all slots, and from every
    integer-feasible solution [extract_solution] returns a list with at
    most one record per mechanic. *)
Theorem single_assignment_extracted available self data self' model val :
  NoDup (mechanics data) → NoDup (bases data) →
  NoDup (periods data) → NoDup (shifts data) →
  Optimizer.create_model available self data = Ok (self', model) →
  feasible (Optimizer.m_solver model) val →
  (∀ m, m ∈ mechanics data →
     ∃ c, c ∈ constraints (Optimizer.m_solver model) ∧
       c_lb c = Fin 0 ∧ c_ub c = Fin 1 ∧
       ∀ v a, c_coeffs c !! v = Some a ↔
         a = 1 ∧ ∃ b g s, b ∈ bases data ∧ g ∈ periods data ∧
                          s ∈ shifts data ∧ v = X m b g s) ∧
  ∃ assignments total,
    Optimizer.extract_solution (λ v, inject_Z (val v)) self'
      (mechanics data) (bases data) (periods data) (shifts data)
      (cost_dict data) = Ok (assignments, total) ∧
    single_assignment_invariant assignments.
Proof.
  intros Hms Hbs Hgs Hss Hrun [Hbounds Hholds].
  apply create_model_inv in Hrun
    as (c1 & c2 & c3 & c4 & c5 & sv1 & sv2 & sv3 & Hx & _ & _ & _ & _ & Hc1
        & _ & _ & _ & _ & Hcons & Hvars & _).
  set (ks := keys4 (mechanics data) (bases data) (periods data) (shifts data))
    in *.
  assert (∀ m, m ∈ mechanics data →
     ∃ c, c ∈ constraints (Optimizer.m_solver model) ∧
       c_lb c = Fin 0 ∧ c_ub c = Fin 1 ∧
       ∀ v a, c_coeffs c !! v = Some a ↔
         a = 1 ∧ ∃ b g s, b ∈ bases data ∧ g ∈ periods data ∧
                          s ∈ shifts data ∧ v = X m b g s) as Hsingle.
  { intros m Hm. destruct (for_collect_each _ _ _ m Hc1 Hm) as [r Hr].
    pose proof Hr as Hr'.
    apply single_assignment_spec in Hr as (c & -> & Hlb & Hub & _ & _ & Hco).
    exists c. split_and!; try done.
    rewrite Hcons, elem_of_app. left.
    apply (for_collect_elem _ _ _ c Hc1). exists m, [c].
    split_and!; [done..|]. left. }
  split; [done|].
  eexists _, _. split.
  { apply (extract_solution_result _ _ _ _ _ _ _ _ Hx).
    apply Forall_forall. intros k Hk. exists (X4 k). by apply lookup_x_dict. }
  intros m. fold ks. rewrite filter_fmap, length_fmap.
  destruct (decide (2 ≤ length
    (filter (λ k, Optimizer.mechanic_id (assignment_at (cost_dict data) k) = m)
       (filter (λ k, chosen (λ v, inject_Z (val v)) (x_dict ks) k = true) ks)))%nat)
    as [Hlen|]; [|lia].
  exfalso. apply NoDup_two in Hlen as (k1 & k2 & Hk1 & Hk2 & Hne).
  2: { by apply NoDup_filter, NoDup_filter, NoDup_keys4. }
  apply list_elem_of_filter in Hk1 as [Hm1 [Hch1 Hin1]%list_elem_of_filter].
  apply list_elem_of_filter in Hk2 as [Hm2 [Hch2 Hin2]%list_elem_of_filter].
  apply chosen_integer in Hch1; [|done]. apply chosen_integer in Hch2; [|done].
  rewrite mechanic_id_at in Hm1, Hm2.
  destruct k1 as [[[m1 b1] g1] s1], k2 as [[[m2 b2] g2] s2]. simpl in *.
  subst m1 m2.
  pose proof Hin1 as (Hm & Hb1 & Hg1 & Hs1)%elem_of_keys4.
  pose proof Hin2 as (_ & Hb2 & Hg2 & Hs2)%elem_of_keys4.
  destruct (Hsingle m Hm) as (c & Hc & _ & Hub & Hco).
  destruct (Hholds c Hc) as [_ Hle]. rewrite Hub in Hle. simpl in Hle.
  assert (1 * val (X m b1 g1 s1) + 1 * val (X m b2 g2 s2)
          ≤ linear val (c_coeffs c)); [|lia].
  apply linear_two.
  - apply Hco. split; [done|]. by exists b1, g1, s1.
  - apply Hco. split; [done|]. by exists b2, g2, s2.
  - congruence.
  - intros v a [-> (b & g & s & Hb & Hg & Hs & ->)]%Hco.
    assert (x_decl (m, b, g, s) ∈ variables (Optimizer.m_solver model)) as Hd.
    { rewrite Hvars, elem_of_app. left. apply list_elem_of_fmap.
      exists (m, b, g, s). split; [done|]. by apply elem_of_keys4. }
    apply Hbounds in Hd. simpl in Hd. lia.
Qed.

(** ** Symmetry of the avoidance map and the [y] variables *)

Lemma load_data_avoidance su self f1 f2 f3 av data log :
  DataLoader.load_data su self f1 f2 f3 av = Ok (data, log) →
  avoidance_dict data = (DataLoader.load_avoidance av).1.
Proof.
  unfold DataLoader.load_data.
  destruct f1 as [df1|]; simpl; [|done].
  destruct (DataLoader.column df1 "mechanic_id" ≫= su) as [ms|]; simpl; [|done].
  destruct f2 as [df2|]; simpl; [|done].
  destruct (DataLoader.column df2 "base_id" ≫= su) as [bs|]; simpl; [|done].
  destruct (DataLoader.column df2 "period" ≫= su) as [gs|]; simpl; [|done].
  destruct (DataLoader.column df2 "shift" ≫= su) as [ss|]; simpl; [|done].
  destruct f3 as [df3|]; simpl; [|done].
  destruct (for_fold _ (rows df3) ∅) as [cd|]; simpl; [|done].
  destruct (DataLoader.load_avoidance av) as [d lg]. by intros [= <- <-].
Qed.

Lemma avoidance_rows_keeps l d k :
  is_Some (d !! k) → is_Some ((DataLoader.avoidance_rows l d).1 !! k).
Proof.
  revert d. induction l as [|row l IH]; intros d Hk; simpl; [done|].
  destruct (DataLoader.avoidance_row row) as [[[m1 m2] p]|e]; [|done].
  apply IH. by apply (store_pair_keeps d (m1, m2, p)).
Qed.

Lemma avoidance_rows_app pre post parsed d :
  parsed_as pre parsed →
  DataLoader.avoidance_rows (pre ++ post) d =
  DataLoader.avoidance_rows post (foldl store_pair d parsed).
Proof.
  intros Hl. revert d.
  induction Hl as [|row [[m1 m2] p] l parsed Hrow _ IH]; intros d; simpl;
    [done|].
  rewrite Hrow. apply IH.
Qed.

(** Every row parsed before any failure leaves both orders in the map. *)
Lemma load_avoidance_both df pre post parsed m1 m2 penalty :
  rows df = pre ++ post → parsed_as pre parsed → (m1, m2, penalty) ∈ parsed →
  is_Some ((DataLoader.load_avoidance (Some (Ok df))).1 !! (m1, m2)) ∧
  is_Some ((DataLoader.load_avoidance (Some (Ok df))).1 !! (m2, m1)).
Proof.
  intros Hrows Hparsed Hin. simpl.
  assert (∀ k, is_Some (foldl store_pair ∅ parsed !! k) →
    is_Some ((DataLoader.avoidance_rows (rows df) ∅).1 !! k)) as Hkeep.
  { intros k Hk. rewrite Hrows, (avoidance_rows_app pre post parsed) by done.
    by apply avoidance_rows_keeps. }
  destruct (stored_both parsed ∅ m1 m2 penalty Hin) as [H1 H2].
  apply Hkeep in H1, H2.
  by destruct (DataLoader.avoidance_rows (rows df) ∅) as [d [e|]].
Qed.

Lemma filter_one {A} (P : A → Prop) `{∀ a, Decision (P a)} (l : list A) a0 :
  NoDup l → a0 ∈ l → (∀ a, a ∈ l → P a ↔ a = a0) →
  length (filter P l) = 1%nat.
Proof.
  intros Hl Hin HP.
  assert (∀ l', (∀ a, a ∈ l' → ¬ P a) → filter P l' = []) as Hnone.
  { intros l' Hl'. induction l' as [|a l' IH]; [done|].
    rewrite filter_cons, decide_False by (apply Hl'; left).
    apply IH. intros. apply Hl'. by right. }
  induction l as [|a l IH]; [by apply elem_of_nil in Hin|].
  apply NoDup_cons in Hl as [Hnin Hl]. rewrite filter_cons.
  apply elem_of_cons in Hin as [<- | Hin].
  - rewrite decide_True by (apply HP; [left | done]).
    rewrite Hnone; [done|]. intros a Ha HPa.
    apply HP in HPa; [|by right]. by subst.
  - rewrite decide_False.
    + apply IH; [done..|]. intros. apply HP. by right.
    + intros Ha%HP; [|left]. by subst.
Qed.

Lemma NoDup_keys5 prs bs gs ss :
  NoDup prs → NoDup bs → NoDup gs → NoDup ss → NoDup (keys5 prs bs gs ss).
Proof. intros. unfold keys5. by repeat apply NoDup_pairs. Qed.

Lemma elem_of_keys5 prs bs gs ss m1 m2 b g s :
  (m1, m2, b, g, s) ∈ keys5 prs bs gs ss ↔
  (m1, m2) ∈ prs ∧ b ∈ bs ∧ g ∈ gs ∧ s ∈ ss.
Proof. unfold keys5. rewrite !elem_of_pairs. tauto. Qed.

(** One [y] variable per slot for a pair stored in both orders. *)
Lemma single_y_variable available self data self' model m1 m2 b g s :
  Optimizer.create_model available self data = Ok (self', model) →
  is_Some (avoidance_dict data !! (m1, m2)) →
  is_Some (avoidance_dict data !! (m2, m1)) →
  m1 ≠ m2 →
  NoDup (bases data) → NoDup (periods data) → NoDup (shifts data) →
  b ∈ bases data → g ∈ periods data → s ∈ shifts data →
  length (filter (λ d, var_key d = Y m1 m2 b g s ∨ var_key d = Y m2 m1 b g s)
            (variables (Optimizer.m_solver model))) = 1%nat ∧
  Optimizer.m_avoidance_vars model !! (m1 `min` m2, m1 `max` m2, b, g, s) =
    Some (Y (m1 `min` m2) (m1 `max` m2) b g s) ∧
  Optimizer.m_avoidance_vars model !! (m1 `max` m2, m1 `min` m2, b, g, s) = None.
Proof.
  intros Hrun H12 H21 Hne Hbs Hgs Hss Hb Hg Hs.
  apply create_model_inv in Hrun
    as (c1 & c2 & c3 & c4 & c5 & sv1 & sv2 & sv3 & _ & _ & Hy & _ & _ & _
        & _ & _ & _ & _ & _ & Hvars & _).
  set (prs := elements (Optimizer.unique_pairs (avoidance_dict data))) in *.
  set (ks := keys5 prs (bases data) (periods data) (shifts data)) in *.
  assert (NoDup ks) as Hnd by (apply NoDup_keys5; [apply NoDup_elements|done..]).
  assert (∀ a c, (a, c, b, g, s) ∈ ks ↔
            is_Some (avoidance_dict data !! (a, c)) ∧ a < c) as Hks.
  { intros a c. unfold ks. rewrite elem_of_keys5. unfold prs.
    rewrite elem_of_unique_pairs. tauto. }
  split_and!.
  - rewrite Hvars, filter_app, length_app.
    rewrite !filter_fmap, !length_fmap.
    assert (∀ l : list (Z * Z * Z * Z),
              filter (λ k, var_key (x_decl k) = Y m1 m2 b g s ∨
                           var_key (x_decl k) = Y m2 m1 b g s) l = []) as ->.
    { intros l. induction l as [|[[[??]?]?] l IH]; [done|].
      rewrite filter_cons, decide_False; [apply IH|].
      simpl. intros [?|?]; discriminate. }
    simpl.
    destruct (Z.lt_total m1 m2) as [Hlt | [? | Hlt]]; [|done|].
    + apply (filter_one _ _ (m1, m2, b, g, s)); [done | by apply Hks |].
      intros [[[[a c] b'] g'] s'] Hin. simpl. split; [|by intros [= -> -> -> -> ->]; left].
      intros [[= -> -> -> -> ->] | [= -> -> -> -> ->]]; [done|].
      apply Hks in Hin as [_ ?]. lia.
    + apply (filter_one _ _ (m2, m1, b, g, s)); [done | by apply Hks |].
      intros [[[[a c] b'] g'] s'] Hin. simpl. split; [|by intros [= -> -> -> -> ->]; right].
      intros [[= -> -> -> -> ->] | [= -> -> -> -> ->]]; [|done].
      apply Hks in Hin as [_ ?]. lia.
  - rewrite Hy. apply lookup_y_dict. split; [|done]. apply Hks.
    destruct (Z.lt_total m1 m2) as [Hlt | [? | Hlt]]; [|done|].
    + rewrite Z.min_l, Z.max_r by lia. done.
    + rewrite Z.min_r, Z.max_l by lia. split; [done | lia].
  - rewrite Hy. destruct (y_dict ks !! _) as [v|] eqn:Hv; [|done].
    apply lookup_y_dict in Hv as [[_ ?]%Hks _]. lia.
Qed.

(** C8. Every row of the avoidance list that is parsed leaves both orders
    of its pair in the map with the same penalty, the map is symmetric,
    and a model built from it over duplicate-free slots declares, for two
    distinct mechanics of such a row, exactly one [y] variable per slot:
    the one of the ordered pair. *)
Theorem avoidance_symmetric_single_y su loader f1 f2 f3 df data log
    pre post parsed m1 m2 penalty available self self' model b g s :
  DataLoader.load_data su loader f1 f2 f3 (Some (Ok df)) = Ok (data, log) →
  rows df = pre ++ post → parsed_as pre parsed → (m1, m2, penalty) ∈ parsed →
  Optimizer.create_model available self data = Ok (self', model) →
  m1 ≠ m2 →
  NoDup (bases data) → NoDup (periods data) → NoDup (shifts data) →
  b ∈ bases data → g ∈ periods data → s ∈ shifts data →
  is_Some (avoidance_dict data !! (m1, m2)) ∧
  avoidance_dict data !! (m2, m1) = avoidance_dict data !! (m1, m2) ∧
  symmetric (avoidance_dict data) ∧
  length (filter (λ d, var_key d = Y m1 m2 b g s ∨ var_key d = Y m2 m1 b g s)
            (variables (Optimizer.m_solver model))) = 1%nat ∧
  Optimizer.m_avoidance_vars model !! (m1 `min` m2, m1 `max` m2, b, g, s) =
    Some (Y (m1 `min` m2) (m1 `max` m2) b g s) ∧
  Optimizer.m_avoidance_vars model !! (m1 `max` m2, m1 `min` m2, b, g, s) = None.
Proof.
  intros Hload Hrows Hparsed Hin Hrun Hne Hbs Hgs Hss Hb Hg Hs.
  apply load_data_avoidance in Hload.
  destruct (load_avoidance_both df pre post parsed m1 m2 penalty Hrows Hparsed Hin)
    as [H12 H21].
  rewrite <- Hload in H12, H21.
  assert (symmetric (avoidance_dict data)) as Hsym
    by (rewrite Hload; apply load_avoidance_symmetric).
  split; [done|]. split; [apply Hsym|]. split; [done|].
  by apply (single_y_variable available self data self').
Qed.

(** ** The statements on the sample *)

Lemma load_loaded file :
  (if Sample.load file is Ok _ then true else false) = true →
  Sample.load file = Ok (Sample.data file, Sample.log file).
Proof.
  unfold Sample.data, Sample.log. by destruct (Sample.load file) as [[??]|].
Qed.

Lemma extract_extracted sv file :
  (if Sample.extract sv file is Ok _ then true else false) = true →
  Sample.extract sv file =
  Ok ((Sample.extracted sv file).1, (Sample.extracted sv file).2).
Proof.
  unfold Sample.extracted. by destruct (Sample.extract sv file) as [[??]|].
Qed.

Lemma sample_built :
  Sample.build (Some (Ok Sample.avoidance)) =
  Ok ((Sample.built (Some (Ok Sample.avoidance))).1,
      (Sample.built (Some (Ok Sample.avoidance))).2).
Proof. apply build_built. vm_compute. reflexivity. Qed.

Lemma sample_feasible :
  feasible (Optimizer.m_solver (Sample.built (Some (Ok Sample.avoidance))).2)
    Sample.together.
Proof. apply feasible_Forall. split; by_evaluation. Qed.

Lemma shift_name_day_iff_1_witness :
  Sample.extract Sample.value (Some (Ok Sample.avoidance)) =
    Ok ((Sample.extracted Sample.value (Some (Ok Sample.avoidance))).1,
        (Sample.extracted Sample.value (Some (Ok Sample.avoidance))).2) ∧
  Forall (λ a,
      (Optimizer.shift_name a = "Day" ↔ Optimizer.shift a = 1) ∧
      (Optimizer.shift_name a = "Day" ∨ Optimizer.shift_name a = "Night"))
    (Sample.extracted Sample.value (Some (Ok Sample.avoidance))).1.
Proof.
  assert (Sample.extract Sample.value (Some (Ok Sample.avoidance)) =
    Ok ((Sample.extracted Sample.value (Some (Ok Sample.avoidance))).1,
        (Sample.extracted Sample.value (Some (Ok Sample.avoidance))).2)) as H
    by (apply extract_extracted; vm_compute; reflexivity).
  split; [exact H|].
  exact (shift_name_day_iff_1 _ _ _ _ _ _ _ _ _ H).
Defined.

Lemma extract_solution_unchecked_witness :
  Optimizer.x (Sample.built None).1 = Some (Optimizer.m_x (Sample.built None).2) ∧
  Forall (λ k, is_Some (Optimizer.m_x (Sample.built None).2 !! k))
    (keys4 [1; 2; 3] [1] [1] [1; 2]) ∧
  Optimizer.extract_solution Sample.value (Sample.built None).1
    [1; 2; 3] [1] [1] [1; 2] ∅ =
  Ok (assignment_at ∅ <$>
        filter (λ k, chosen Sample.value (Optimizer.m_x (Sample.built None).2) k
                     = true) (keys4 [1; 2; 3] [1] [1] [1; 2]),
      foldl (λ t a, fadd t (Optimizer.cost a)) (Fnum 0)
        (assignment_at ∅ <$>
           filter (λ k, chosen Sample.value
                          (Optimizer.m_x (Sample.built None).2) k = true)
             (keys4 [1; 2; 3] [1] [1] [1; 2]))).
Proof.
  assert (Optimizer.x (Sample.built None).1 =
          Some (Optimizer.m_x (Sample.built None).2)) as Hx
    by (vm_compute; reflexivity).
  assert (Forall (λ k, is_Some (Optimizer.m_x (Sample.built None).2 !! k))
            (keys4 [1; 2; 3] [1] [1] [1; 2])) as Hkeys by by_evaluation.
  split; [exact Hx|]. split; [exact Hkeys|].
  exact (extract_solution_unchecked Sample.value _ _ _ _ _ ∅ _ Hx Hkeys).
Defined.

(** C2, as stated, fails: with every variable at value 1 each mechanic of
    the sample is read out at both shifts, and the call returns the list. *)
Lemma extract_solution_returns_double_assignment :
  Sample.extract (λ _, 1%Q) None =
    Ok ((Sample.extracted (λ _, 1%Q) None).1,
        (Sample.extracted (λ _, 1%Q) None).2) ∧
  length (filter (λ a, Optimizer.mechanic_id a = 1)
            (Sample.extracted (λ _, 1%Q) None).1) = 2%nat ∧
  ¬ single_assignment_invariant (Sample.extracted (λ _, 1%Q) None).1.
Proof.
  split; [apply extract_extracted; vm_compute; reflexivity|].
  assert (length (filter (λ a, Optimizer.mechanic_id a = 1)
            (Sample.extracted (λ _, 1%Q) None).1) = 2%nat) as Hlen
    by (vm_compute; reflexivity).
  split; [exact Hlen|]. intros H. specialize (H 1). rewrite Hlen in H. lia.
Qed.

Lemma sample_schedule :
  base_schedule_df (Sample.data (Some (Ok Sample.avoidance))) = Sample.schedule.
Proof. vm_compute. reflexivity. Qed.

Lemma skill_coverage_rhs_one_witness :
  Sample.build (Some (Ok Sample.avoidance)) =
    Ok ((Sample.built (Some (Ok Sample.avoidance))).1,
        (Sample.built (Some (Ok Sample.avoidance))).2) ∧
  ∃ c, c ∈ constraints
             (Optimizer.m_solver (Sample.built (Some (Ok Sample.avoidance))).2) ∧
    c_name c = "skill_" +:+ ("aw139" +:+ "_af") +:+
               Optimizer.slot_suffix 1 1 1 ∧
    c_lb c = Fin 1 ∧ c_ub c = PosInf ∧
    covers (Optimizer.m_mechanic_skills
              (Sample.built (Some (Ok Sample.avoidance))).2)
      (mechanics (Sample.data (Some (Ok Sample.avoidance))))
      ("aw139" +:+ "_af") 1 1 1 c.
Proof.
  split; [exact sample_built|].
  apply (proj1 (skill_coverage_rhs_one (λ _, true) Sample.optimizer
                  (Sample.data (Some (Ok Sample.avoidance))) _ _ sample_built)
           Sample.day_row 1 1 1 "aw139" "_af").
  - rewrite sample_schedule. left.
  - vm_compute. reflexivity.
  - by_evaluation.
  - by_evaluation.
  - rewrite sample_schedule. by_evaluation.
  - exists (inject_Z 2). split; vm_compute; reflexivity.
Defined.

Lemma sample_mechanics :
  mechanics (Sample.data (Some (Ok Sample.avoidance))) = [1; 2; 3].
Proof. vm_compute. reflexivity. Qed.

Lemma no_self_inspection_conditional_witness :
  Sample.build (Some (Ok Sample.avoidance)) =
    Ok ((Sample.built (Some (Ok Sample.avoidance))).1,
        (Sample.built (Some (Ok Sample.avoidance))).2) ∧
  ∃ c, c ∈ constraints
             (Optimizer.m_solver (Sample.built (Some (Ok Sample.avoidance))).2) ∧
    c_name c = "no_self_inspect_" +:+ "aw139_af_inspec" +:+
               Optimizer.slot_suffix 1 1 1 +:+ "_inspector" +:+ pretty 1 ∧
    c_lb c = NegInf ∧ c_ub c = Fin 0 ∧
    guards (Optimizer.m_mechanic_skills
              (Sample.built (Some (Ok Sample.avoidance))).2)
      (mechanics (Sample.data (Some (Ok Sample.avoidance))))
      (regular_skill "aw139_af_inspec") 1 1 1 1 c.
Proof.
  split; [exact sample_built|].
  refine (proj1 (proj1 (no_self_inspection_conditional (λ _, true)
                   Sample.optimizer (Sample.data (Some (Ok Sample.avoidance)))
                   _ _ sample_built)
           Sample.day_row 1 1 1 "aw139_af_inspec" 1 _ _ _ _ _ _) _).
  - rewrite sample_schedule. left.
  - vm_compute. reflexivity.
  - by_evaluation.
  - exists (inject_Z 1). split; vm_compute; reflexivity.
  - rewrite sample_mechanics. by_evaluation.
  - eexists. split; vm_compute; reflexivity.
  - exists 2. split; [rewrite sample_mechanics; by_evaluation|].
    split; [discriminate|]. eexists. split; vm_compute; reflexivity.
Defined.

(** The last part of C5 on an instance: in a pool where the inspector is
    the only holder of the regular skill the model has no no-self-inspection
    constraint, and placing the inspector alone is feasible. *)
Lemma lone_inspector_feasible :
  (if Sample.lone_build is Ok _ then true else false) = true ∧
  Forall (λ c, startswith "no_self_inspect_" (c_name c) = false)
    Sample.lone_constraints ∧
  Forall (λ d, var_lb d ≤ Sample.alone (var_key d) ≤ var_ub d)
    Sample.lone_variables ∧
  Forall (holds Sample.alone) Sample.lone_constraints ∧
  Sample.alone (X 1 1 1 1) = 1.
Proof.
  split; [vm_compute; reflexivity|].
  split; [by_evaluation|]. split; [by_evaluation|]. split; [by_evaluation|].
  reflexivity.
Qed.

Lemma single_assignment_extracted_witness :
  NoDup (mechanics (Sample.data (Some (Ok Sample.avoidance)))) ∧
  NoDup (bases (Sample.data (Some (Ok Sample.avoidance)))) ∧
  NoDup (periods (Sample.data (Some (Ok Sample.avoidance)))) ∧
  NoDup (shifts (Sample.data (Some (Ok Sample.avoidance)))) ∧
  Sample.build (Some (Ok Sample.avoidance)) =
    Ok ((Sample.built (Some (Ok Sample.avoidance))).1,
        (Sample.built (Some (Ok Sample.avoidance))).2) ∧
  feasible (Optimizer.m_solver (Sample.built (Some (Ok Sample.avoidance))).2)
    Sample.together ∧
  ∃ assignments total,
    Sample.extract Sample.value (Some (Ok Sample.avoidance)) =
      Ok (assignments, total) ∧
    single_assignment_invariant assignments.
Proof.
  assert (NoDup (mechanics (Sample.data (Some (Ok Sample.avoidance))))) as H1
    by by_evaluation.
  assert (NoDup (bases (Sample.data (Some (Ok Sample.avoidance))))) as H2
    by by_evaluation.
  assert (NoDup (periods (Sample.data (Some (Ok Sample.avoidance))))) as H3
    by by_evaluation.
  assert (NoDup (shifts (Sample.data (Some (Ok Sample.avoidance))))) as H4
    by by_evaluation.
  split_and!; [exact H1 | exact H2 | exact H3 | exact H4 | exact sample_built
              | exact sample_feasible |].
  exact (proj2 (single_assignment_extracted (λ _, true) Sample.optimizer
                  (Sample.data (Some (Ok Sample.avoidance))) _ _
                  Sample.together H1 H2 H3 H4 sample_built sample_feasible)).
Defined.

Lemma objective_cost_coefficient_witness :
  Sample.build (Some (Ok Sample.avoidance)) =
    Ok ((Sample.built (Some (Ok Sample.avoidance))).1,
        (Sample.built (Some (Ok Sample.avoidance))).2) ∧
  1 ∈ mechanics (Sample.data (Some (Ok Sample.avoidance))) ∧
  1 ∈ bases (Sample.data (Some (Ok Sample.avoidance))) ∧
  1 ∈ periods (Sample.data (Some (Ok Sample.avoidance))) ∧
  2 ∈ shifts (Sample.data (Some (Ok Sample.avoidance))) ∧
  objective (Optimizer.m_solver (Sample.built (Some (Ok Sample.avoidance))).2)
    !! X 1 1 1 2 =
  Some (default (Fnum 0)
          (cost_dict (Sample.data (Some (Ok Sample.avoidance))) !! (1, 1))).
Proof.
  assert (1 ∈ mechanics (Sample.data (Some (Ok Sample.avoidance)))) as H1
    by by_evaluation.
  assert (1 ∈ bases (Sample.data (Some (Ok Sample.avoidance)))) as H2
    by by_evaluation.
  assert (1 ∈ periods (Sample.data (Some (Ok Sample.avoidance)))) as H3
    by by_evaluation.
  assert (2 ∈ shifts (Sample.data (Some (Ok Sample.avoidance)))) as H4
    by by_evaluation.
  split_and!; [exact sample_built | exact H1 | exact H2 | exact H3 | exact H4 |].
  exact (proj1 (proj2 (objective_cost_coefficient (λ _, true) Sample.optimizer
                  (Sample.data (Some (Ok Sample.avoidance))) _ _ 1 1 1 2
                  sample_built H1 H2 H3 H4))).
Defined.

Lemma avoidance_symmetric_single_y_witness :
  Sample.load (Some (Ok Sample.avoidance)) =
    Ok (Sample.data (Some (Ok Sample.avoidance)),
        Sample.log (Some (Ok Sample.avoidance))) ∧
  parsed_as (rows Sample.avoidance) [(1, 2, Fnum (inject_Z 50))] ∧
  Sample.build (Some (Ok Sample.avoidance)) =
    Ok ((Sample.built (Some (Ok Sample.avoidance))).1,
        (Sample.built (Some (Ok Sample.avoidance))).2) ∧
  avoidance_dict (Sample.data (Some (Ok Sample.avoidance))) !! (2, 1) =
    avoidance_dict (Sample.data (Some (Ok Sample.avoidance))) !! (1, 2) ∧
  length (filter (λ d, var_key d = Y 1 2 1 1 2 ∨ var_key d = Y 2 1 1 1 2)
            (variables (Optimizer.m_solver
                          (Sample.built (Some (Ok Sample.avoidance))).2)))
    = 1%nat.
Proof.
  assert (Sample.load (Some (Ok Sample.avoidance)) =
    Ok (Sample.data (Some (Ok Sample.avoidance)),
        Sample.log (Some (Ok Sample.avoidance)))) as Hload
    by (apply load_loaded; vm_compute; reflexivity).
  assert (parsed_as (rows Sample.avoidance) [(1, 2, Fnum (inject_Z 50))])
    as Hparsed by (repeat constructor).
  split_and!; [exact Hload | exact Hparsed | exact sample_built | |].
  - refine (proj1 (proj2 (avoidance_symmetric_single_y
      DataLoader.int_sorted_unique DataLoader.__init__ (Ok Sample.skills)
      (Ok Sample.schedule) (Ok Sample.costs) Sample.avoidance _ _
      (rows Sample.avoidance) [] [(1, 2, Fnum (inject_Z 50))] 1 2
      (Fnum (inject_Z 50)) (λ _, true) Sample.optimizer _ _ 1 1 2
      Hload _ Hparsed _ sample_built _ _ _ _ _ _ _)));
      [by rewrite app_nil_r | left | discriminate | by_evaluation..].
  - refine (proj1 (proj2 (proj2 (proj2 (avoidance_symmetric_single_y
      DataLoader.int_sorted_unique DataLoader.__init__ (Ok Sample.skills)
      (Ok Sample.schedule) (Ok Sample.costs) Sample.avoidance _ _
      (rows Sample.avoidance) [] [(1, 2, Fnum (inject_Z 50))] 1 2
      (Fnum (inject_Z 50)) (λ _, true) Sample.optimizer _ _ 1 1 2
      Hload _ Hparsed _ sample_built _ _ _ _ _ _ _)))));
      [by rewrite app_nil_r | left | discriminate | by_evaluation..].
Defined.

(** * Further properties *)

(** ** Constraint 3: inspector coverage *)

Lemma inspector_coverage_to ks iskills ms df irc row r b g s col :
  Optimizer.inspector_coverage (x_dict ks) iskills ms df irc row = Ok r →
  Optimizer.row_slot row = Ok (b, g, s) →
  col ∈ irc → col ∈ columns df → positive_cell row col →
  ∃ c, c ∈ r ∧
    c_name c = "inspector_" +:+ col +:+ Optimizer.slot_suffix b g s ∧
    c_lb c = Fin 1 ∧ c_ub c = PosInf ∧
    covers iskills ms col b g s c.
Proof.
  unfold Optimizer.inspector_coverage.
  intros (b' & g' & s' & Hslot' & Hr)%row_slot_bind Hslot Hirc Hcol Hpos.
  rewrite Hslot in Hslot'. injection Hslot' as <- <- <-.
  destruct (for_collect_each _ _ _ col Hr Hirc) as [ra Hra].
  pose proof Hra as Hra'.
  apply bind_Ok in Hra as (active & Hd & Hra).
  apply inspector_required_Ok in Hd.
  destruct active;
    [|by destruct Hd as [_ Hd]; specialize (Hd (conj Hcol Hpos))].
  apply bind_Ok in Hra as (c & Hc & [= <-]).
  apply coverage_spec in Hc as (Hlb & Hub & Hname & Hcov); [|done].
  exists c. split_and!; try done.
  apply (for_collect_elem _ _ _ c Hr). exists col, [c].
  split_and!; [done..|]. left.
Qed.

(** X1. For every row of the schedule and every inspector column with a
    positive requirement in it, the model holds a constraint with lower
    bound 1 over the mechanics with that inspector skill at the slot of the
    row; and every inspector-coverage constraint of the model comes from
    such a row and column. *)
Theorem inspector_coverage_in_model available self data self' model :
  Optimizer.create_model available self data = Ok (self', model) →
  (∀ row b g s col,
     row ∈ rows (base_schedule_df data) →
     Optimizer.row_slot row = Ok (b, g, s) →
     col ∈ Optimizer.m_inspector_req_columns model →
     positive_cell row col →
     ∃ c, c ∈ constraints (Optimizer.m_solver model) ∧
       c_name c = "inspector_" +:+ col +:+ Optimizer.slot_suffix b g s ∧
       c_lb c = Fin 1 ∧ c_ub c = PosInf ∧
       covers (Optimizer.m_mechanic_inspector_skills model) (mechanics data)
         col b g s c) ∧
  (∀ c, c ∈ constraints (Optimizer.m_solver model) →
     startswith "inspector_" (c_name c) = true →
     ∃ row b g s col,
       row ∈ rows (base_schedule_df data) ∧
       Optimizer.row_slot row = Ok (b, g, s) ∧
       col ∈ Optimizer.m_inspector_req_columns model ∧
       positive_cell row col ∧
       c_name c = "inspector_" +:+ col +:+ Optimizer.slot_suffix b g s ∧
       c_lb c = Fin 1 ∧ c_ub c = PosInf ∧
       covers (Optimizer.m_mechanic_inspector_skills model) (mechanics data)
         col b g s c).
Proof.
  intros Hrun. split.
  - intros row b g s col Hrow Hslot Hirc Hpos.
    apply create_model_inv in Hrun
      as (c1 & c2 & c3 & c4 & c5 & sv1 & sv2 & sv3 & _ & _ & _ & Heq & _ & _
          & _ & Hc3 & _ & _ & Hcons & _).
    rewrite Heq in Hirc.
    rewrite bool_decide_true in Hc3
      by (intros Hnil; rewrite Hnil in Hirc; by apply elem_of_nil in Hirc).
    destruct (for_collect_each _ _ _ row Hc3 Hrow) as [r Hr].
    pose proof Hirc as [_ Hcol]%list_elem_of_filter.
    destruct (inspector_coverage_to _ _ _ _ _ _ _ _ _ _ _ Hr Hslot Hirc Hcol Hpos)
      as (c & Hc & Hdesc).
    exists c. split; [|done]. rewrite Hcons, !elem_of_app. right. right. left.
    apply (for_collect_elem _ _ _ c Hc3). by exists row, r.
  - intros c Hc Hname.
    destruct (model_constraints _ _ _ _ _ c Hrun Hc)
      as [(m & _ & Hn)
         | [(row & b & g & s & a & sk & _ & _ & _ & _ & _ & _ & Hn & _)
         | [Hinsp
         | [(row & b & g & s & col & m & _ & _ & _ & _ & _ & _ & _ & Hn & _)
         | (m1 & m2 & b & g & s & _ & _ & _ & _ & _ & Hn)]]]];
      [other_family Hname.. | done | other_family Hname | other_family Hname].
Qed.

Lemma inspector_coverage_in_model_witness :
  Sample.build (Some (Ok Sample.avoidance)) =
    Ok ((Sample.built (Some (Ok Sample.avoidance))).1,
        (Sample.built (Some (Ok Sample.avoidance))).2) ∧
  ∃ c, c ∈ constraints
             (Optimizer.m_solver (Sample.built (Some (Ok Sample.avoidance))).2) ∧
    c_name c = "inspector_" +:+ "aw139_af_inspec" +:+
               Optimizer.slot_suffix 1 1 1 ∧
    c_lb c = Fin 1 ∧ c_ub c = PosInf ∧
    covers (Optimizer.m_mechanic_inspector_skills
              (Sample.built (Some (Ok Sample.avoidance))).2)
      (mechanics (Sample.data (Some (Ok Sample.avoidance))))
      "aw139_af_inspec" 1 1 1 c.
Proof.
  split; [exact sample_built|].
  apply (proj1 (inspector_coverage_in_model (λ _, true) Sample.optimizer
                  (Sample.data (Some (Ok Sample.avoidance))) _ _ sample_built)
           Sample.day_row 1 1 1 "aw139_af_inspec").
  - rewrite sample_schedule. left.
  - vm_compute. reflexivity.
  - by_evaluation.
  - exists (inject_Z 1). split; vm_compute; reflexivity.
Defined.

(** ** The constraints of the model are those of the five families *)




(** ** The variables of the model *)

Lemma length_pairs {A C} (la : list A) (lc : list C) :
  length (pairs la lc) = (length la * length lc)%nat.
Proof.
  unfold pairs. induction la as [|a la IH]; [done|].
  assert (length (lc ≫= λ c, [(a, c)]) = length lc) as Hrow.
  { clear IH. induction lc as [|c lc IH]; [done|]. simpl. by f_equal. }
  change (length ((lc ≫= λ c, [(a, c)]) ++
                  (la ≫= λ a, lc ≫= λ c, [(a, c)])) =
          (length lc + length la * length lc)%nat).
  by rewrite length_app, IH, Hrow.
Qed.

(** X3. The model declares one variable per key of the four loops and one
    per avoidance pair [m1 < m2] and slot, each an integer variable with
    bounds 0 and 1, and no other: their number is
    (|mechanics| + |pairs|) · |bases| · |periods| · |shifts|, and [x] holds a
    variable exactly for the keys of the four loops. *)
Theorem variables_of_model available self data self' model :
  Optimizer.create_model available self data = Ok (self', model) →
  length (variables (Optimizer.m_solver model)) =
    ((length (mechanics data) +
      size (Optimizer.unique_pairs (avoidance_dict data))) *
     (length (bases data) * length (periods data) * length (shifts data)))%nat ∧
  (∀ d, d ∈ variables (Optimizer.m_solver model) →
     var_lb d = 0 ∧ var_ub d = 1 ∧
     ((∃ m b g s, m ∈ mechanics data ∧ b ∈ bases data ∧ g ∈ periods data ∧
                  s ∈ shifts data ∧ var_key d = X m b g s) ∨
      (∃ m1 m2 b g s, is_Some (avoidance_dict data !! (m1, m2)) ∧ m1 < m2 ∧
                      b ∈ bases data ∧ g ∈ periods data ∧ s ∈ shifts data ∧
                      var_key d = Y m1 m2 b g s))) ∧
  (∀ m b g s v,
     Optimizer.m_x model !! (m, b, g, s) = Some v ↔
     v = X m b g s ∧ m ∈ mechanics data ∧ b ∈ bases data ∧
     g ∈ periods data ∧ s ∈ shifts data).
Proof.
  intros Hrun.
  apply create_model_inv in Hrun
    as (c1 & c2 & c3 & c4 & c5 & sv1 & sv2 & sv3 & _ & Hx & _ & _ & _ & _
        & _ & _ & _ & _ & _ & Hvars & _).
  split_and!.
  - rewrite Hvars, length_app, !length_fmap. unfold keys4, keys5.
    rewrite !length_pairs. unfold size, set_size. simpl. lia.
  - intros d. rewrite Hvars, elem_of_app, !list_elem_of_fmap.
    intros [([[[m b] g] s] & -> & Hk%elem_of_keys4)
           | ([[[[m1 m2] b] g] s] & -> & Hk%elem_of_keys5)].
    + split_and!; [done..|]. left. exists m, b, g, s. tauto.
    + split_and!; [done..|]. right. exists m1, m2, b, g, s.
      destruct Hk as (?%elem_of_unique_pairs & ? & ? & ?). tauto.
  - intros m b g s v. rewrite Hx, lookup_x_dict, elem_of_keys4. simpl. tauto.
Qed.

Lemma variables_of_model_witness :
  Sample.build (Some (Ok Sample.avoidance)) =
    Ok ((Sample.built (Some (Ok Sample.avoidance))).1,
        (Sample.built (Some (Ok Sample.avoidance))).2) ∧
  length (variables
            (Optimizer.m_solver (Sample.built (Some (Ok Sample.avoidance))).2)) =
    ((length (mechanics (Sample.data (Some (Ok Sample.avoidance)))) +
      size (Optimizer.unique_pairs
              (avoidance_dict (Sample.data (Some (Ok Sample.avoidance)))))) *
     (length (bases (Sample.data (Some (Ok Sample.avoidance)))) *
      length (periods (Sample.data (Some (Ok Sample.avoidance)))) *
      length (shifts (Sample.data (Some (Ok Sample.avoidance))))))%nat.
Proof.
  split; [exact sample_built|].
  exact (proj1 (variables_of_model (λ _, true) Sample.optimizer
                  (Sample.data (Some (Ok Sample.avoidance))) _ _ sample_built)).
Defined.

(** ** Avoidance pairs and the pool *)

(** X4. When the avoidance map names, in a pair [m1 < m2], a mechanic that
    is not in the pool, and there is at least one slot, [create_model]
    raises: no model is returned. *)
Theorem avoidance_outside_pool_raises available self data m1 m2 b g s :
  is_Some (avoidance_dict data !! (m1, m2)) → m1 < m2 →
  m1 ∉ mechanics data ∨ m2 ∉ mechanics data →
  b ∈ bases data → g ∈ periods data → s ∈ shifts data →
  ∃ e, Optimizer.create_model available self data = Raise e.
Proof.
  intros Hpair Hlt Hout Hb Hg Hs.
  destruct (Optimizer.create_model available self data) as [[self' model]|e]
    eqn:Hrun; [|by exists e].
  exfalso.
  apply create_model_inv in Hrun
    as (c1 & c2 & c3 & c4 & c5 & sv1 & sv2 & sv3 & _ & _ & _ & _ & _ & _ & _
        & _ & _ & Hc5 & _).
  assert ((m1, m2) ∈ elements (Optimizer.unique_pairs (avoidance_dict data)))
    as Hin by by apply elem_of_unique_pairs.
  destruct (for_collect_each _ _ _ _ Hc5 Hin) as [r Hr].
  destruct (linearization_spec _ _ _ _ _ _ _ _ b g s Hr Hb Hg Hs)
    as (H1%elem_of_keys4 & H2%elem_of_keys4 & _).
  destruct Hout as [Hout | Hout]; apply Hout; tauto.
Qed.

Lemma avoidance_outside_pool_raises_witness :
  is_Some (avoidance_dict (Sample.data (Some (Ok Sample.stranger_avoidance)))
             !! (1, 9)) ∧
  1 < 9 ∧
  (1 ∉ mechanics (Sample.data (Some (Ok Sample.stranger_avoidance))) ∨
   9 ∉ mechanics (Sample.data (Some (Ok Sample.stranger_avoidance)))) ∧
  1 ∈ bases (Sample.data (Some (Ok Sample.stranger_avoidance))) ∧
  1 ∈ periods (Sample.data (Some (Ok Sample.stranger_avoidance))) ∧
  1 ∈ shifts (Sample.data (Some (Ok Sample.stranger_avoidance))) ∧
  ∃ e, Sample.build (Some (Ok Sample.stranger_avoidance)) = Raise e.
Proof.
  assert (is_Some (avoidance_dict
            (Sample.data (Some (Ok Sample.stranger_avoidance))) !! (1, 9)))
    as H1 by (eexists; vm_compute; reflexivity).
  assert (1 ∉ mechanics (Sample.data (Some (Ok Sample.stranger_avoidance))) ∨
          9 ∉ mechanics (Sample.data (Some (Ok Sample.stranger_avoidance))))
    as H2 by (right; by_evaluation).
  assert (1 ∈ bases (Sample.data (Some (Ok Sample.stranger_avoidance))))
    as H3 by by_evaluation.
  assert (1 ∈ periods (Sample.data (Some (Ok Sample.stranger_avoidance))))
    as H4 by by_evaluation.
  assert (1 ∈ shifts (Sample.data (Some (Ok Sample.stranger_avoidance))))
    as H5 by by_evaluation.
  split_and!; [exact H1 | reflexivity | exact H2 | exact H3 | exact H4
              | exact H5 |].
  exact (avoidance_outside_pool_raises (λ _, true) Sample.optimizer
           (Sample.data (Some (Ok Sample.stranger_avoidance))) 1 9 1 1 1
           H1 eq_refl H2 H3 H4 H5).
Defined.

(** ** The backend and the state of the object *)

Lemma movement_costs_preserves (P : Solver → Prop) xd cd ms bs gs ss sv sv' :
  (∀ s v a, P s → P (SetObjectiveCoefficient s v a)) →
  Optimizer.movement_costs xd cd ms bs gs ss sv = Ok sv' → P sv → P sv'.
Proof.
  intros HP Hrun H0. revert Hrun. unfold Optimizer.movement_costs.
  apply (for_fold_invariant _ P); [done|].
  intros s1 m s2 _ H1. apply (for_fold_invariant _ P); [done|].
  clear s1 s2 H1. intros s1 b s2 _ H1.
  apply (for_fold_invariant _ P); [done|].
  clear s1 s2 H1. intros s1 g s2 _ H1.
  apply (for_fold_invariant _ P); [done|].
  clear s1 s2 H1. intros s1 s s2 _ H1 (v & _ & [= <-])%bind_Ok. by apply HP.
Qed.

Lemma avoidance_penalties_preserves (P : Solver → Prop) ad yd bs gs ss sv pair
    sv' :
  (∀ s v a, P s → P (SetObjectiveCoefficient s v a)) →
  Optimizer.avoidance_penalties ad yd bs gs ss sv pair = Ok sv' → P sv → P sv'.
Proof.
  intros HP Hrun H0. revert Hrun. unfold Optimizer.avoidance_penalties.
  destruct pair as [m1 m2]. intros (penalty & _ & Hrun)%bind_Ok. revert Hrun.
  apply (for_fold_invariant _ P); [done|].
  intros s1 b s2 _ H1. apply (for_fold_invariant _ P); [done|].
  clear s1 s2 H1. intros s1 g s2 _ H1.
  apply (for_fold_invariant _ P); [done|].
  clear s1 s2 H1. intros s1 s s2 _ H1.
  case_bool_decide; [|by intros [= <-]].
  intros (v & _ & [= <-])%bind_Ok. by apply HP.
Qed.

(** X5. [create_model] builds on the requested backend when it is
    available and on CBC otherwise, records the backend used in
    [solver_name], sets the objective to minimization, and leaves in the
    object exactly the tuple it returns. *)
Theorem create_model_state available self data self' model :
  Optimizer.create_model available self data = Ok (self', model) →
  let name := if available (Optimizer.solver_name self)
              then Optimizer.solver_name self else "CBC" in
  available name = true ∧
  Optimizer.solver_name self' = name ∧
  backend (Optimizer.m_solver model) = name ∧
  minimization (Optimizer.m_solver model) = true ∧
  Optimizer.solver self' = Some (Optimizer.m_solver model) ∧
  Optimizer.x self' = Some (Optimizer.m_x model) ∧
  Optimizer.mechanic_skills self' = Some (Optimizer.m_mechanic_skills model) ∧
  Optimizer.mechanic_inspector_skills self' =
    Some (Optimizer.m_mechanic_inspector_skills model) ∧
  Optimizer.inspector_req_columns self' =
    Some (Optimizer.m_inspector_req_columns model) ∧
  Optimizer.avoidance_vars self' = Some (Optimizer.m_avoidance_vars model).
Proof.
  intros H name. unfold Optimizer.create_model in H.
  apply bind_Ok in H as ([sv0 name'] & Hsv0 & H).
  assert (available name = true ∧ name' = name ∧ backend sv0 = name)
    as (Havail & -> & Hb0).
  { subst name. destruct (available (Optimizer.solver_name self)) eqn:Ha.
    - injection Hsv0 as <- <-. by rewrite Ha.
    - destruct (available "CBC") eqn:Hc; [|done]. by injection Hsv0 as <- <-. }
  clear Hsv0. rewrite create_x_spec in H.
  apply bind_Ok in H as (c1 & Hc1 & H).
  apply bind_Ok in H as ([skills iskills] & Hskills & H).
  apply bind_Ok in H as (c2 & Hc2 & H).
  apply bind_Ok in H as (c3 & Hc3 & H).
  apply bind_Ok in H as (c4 & Hc4 & H).
  apply bind_Ok in H as ([sv1 yd'] & Hy & H).
  apply bind_Ok in H as (sv2 & Hsv2 & H).
  apply bind_Ok in H as (sv3 & Hsv3 & H).
  injection H as <- <-. simpl.
  assert (backend sv1 = name) as Hb1.
  { case_bool_decide.
    - rewrite create_y_spec in Hy.
      by apply bind_Ok in Hy as (c5 & _ & [= <- _]).
    - by injection Hy as <- _. }
  assert (backend sv2 = name) as Hb2.
  { by apply (movement_costs_preserves (λ s, backend s = name)) in Hsv2. }
  assert (backend sv3 = name) as Hb3.
  { destruct (bool_decide (avoidance_dict data ≠ ∅) && bool_decide (yd' ≠ ∅));
      [|by injection Hsv3 as <-].
    revert Hsv3.
    apply (for_fold_invariant _ (λ s, backend s = name)); [done|].
    intros s1 pair s2 _ E1 E2.
    by apply (avoidance_penalties_preserves (λ s, backend s = name)) in E2. }
  split_and!; done.
Qed.

Lemma create_model_state_witness :
  Sample.fallback_build =
    Ok (Sample.fallback_built.1, Sample.fallback_built.2) ∧
  Optimizer.solver_name Sample.fallback_built.1 = "CBC" ∧
  backend (Optimizer.m_solver Sample.fallback_built.2) = "CBC" ∧
  minimization (Optimizer.m_solver Sample.fallback_built.2) = true ∧
  Optimizer.solver Sample.fallback_built.1 =
    Some (Optimizer.m_solver Sample.fallback_built.2).
Proof.
  assert (Sample.fallback_build =
          Ok (Sample.fallback_built.1, Sample.fallback_built.2)) as H.
  { unfold Sample.fallback_built.
    assert ((if Sample.fallback_build is Ok _ then true else false) = true)
      as Hok by (vm_compute; reflexivity).
    destruct Sample.fallback_build as [[??]|]; [reflexivity | discriminate]. }
  split; [exact H|].
  pose proof (create_model_state Sample.cbc_only Sample.optimizer
                (Sample.data None) _ _ H) as (_ & H1 & H2 & H3 & H4 & _).
  split_and!; [exact H1 | exact H2 | exact H3 | exact H4].
Defined.

(** ** The penalty variables in a feasible solution *)

Lemma avoidance_keys available self data self' model m1 m2 b g s :
  Optimizer.create_model available self data = Ok (self', model) →
  is_Some (avoidance_dict data !! (m1, m2)) → m1 < m2 →
  b ∈ bases data → g ∈ periods data → s ∈ shifts data →
  m1 ∈ mechanics data ∧ m2 ∈ mechanics data ∧
  x_decl (m1, b, g, s) ∈ variables (Optimizer.m_solver model) ∧
  x_decl (m2, b, g, s) ∈ variables (Optimizer.m_solver model) ∧
  y_decl (m1, m2, b, g, s) ∈ variables (Optimizer.m_solver model).
Proof.
  intros Hrun Hpair Hlt Hb Hg Hs.
  apply create_model_inv in Hrun
    as (c1 & c2 & c3 & c4 & c5 & sv1 & sv2 & sv3 & _ & _ & _ & _ & _ & _ & _
        & _ & _ & Hc5 & _ & Hvars & _).
  assert ((m1, m2) ∈ elements (Optimizer.unique_pairs (avoidance_dict data)))
    as Hin by by apply elem_of_unique_pairs.
  destruct (for_collect_each _ _ _ _ Hc5 Hin) as [r Hr].
  destruct (linearization_spec _ _ _ _ _ _ _ _ b g s Hr Hb Hg Hs)
    as (H1 & H2 & H3 & _).
  pose proof H1 as (? & _)%elem_of_keys4.
  pose proof H2 as (? & _)%elem_of_keys4.
  rewrite Hvars, !elem_of_app, !list_elem_of_fmap.
  split_and!; [done | done | left | left | right]; eauto.
Qed.

(** X6. In every feasible solution the penalty variable of an avoidance
    pair [m1 < m2] at a slot is 0 or 1 and is at most each of the two [x]
    variables of the pair at that slot: it is 1 only if both mechanics are
    assigned there. *)
Theorem penalty_variable_below_both available self data self' model val
    m1 m2 b g s :
  Optimizer.create_model available self data = Ok (self', model) →
  feasible (Optimizer.m_solver model) val →
  is_Some (avoidance_dict data !! (m1, m2)) → m1 < m2 →
  b ∈ bases data → g ∈ periods data → s ∈ shifts data →
  0 ≤ val (Y m1 m2 b g s) ≤ 1 ∧
  val (Y m1 m2 b g s) ≤ val (X m1 b g s) ∧
  val (Y m1 m2 b g s) ≤ val (X m2 b g s) ∧
  (val (Y m1 m2 b g s) = 1 →
   val (X m1 b g s) = 1 ∧ val (X m2 b g s) = 1).
Proof.
  intros Hrun [Hbounds Hholds] Hpair Hlt Hb Hg Hs.
  destruct (linearization_in_model _ _ _ _ _ m1 m2 b g s Hrun Hpair Hlt Hb Hg Hs)
    as (H1 & H2 & _).
  destruct (avoid_y_le_x_sound val m1 m2 b g s (Hholds _ H1) (Hholds _ H2))
    as [Hle1 Hle2].
  destruct (avoidance_keys _ _ _ _ _ m1 m2 b g s Hrun Hpair Hlt Hb Hg Hs)
    as (_ & _ & Hx1%Hbounds & Hx2%Hbounds & Hy%Hbounds).
  simpl in *. lia.
Qed.

Lemma penalty_variable_below_both_witness :
  Sample.build (Some (Ok Sample.avoidance)) =
    Ok ((Sample.built (Some (Ok Sample.avoidance))).1,
        (Sample.built (Some (Ok Sample.avoidance))).2) ∧
  feasible (Optimizer.m_solver (Sample.built (Some (Ok Sample.avoidance))).2)
    Sample.together ∧
  is_Some (avoidance_dict (Sample.data (Some (Ok Sample.avoidance))) !! (1, 2)) ∧
  1 < 2 ∧
  1 ∈ bases (Sample.data (Some (Ok Sample.avoidance))) ∧
  1 ∈ periods (Sample.data (Some (Ok Sample.avoidance))) ∧
  1 ∈ shifts (Sample.data (Some (Ok Sample.avoidance))) ∧
  Sample.together (Y 1 2 1 1 1) ≤ Sample.together (X 1 1 1 1) ∧
  Sample.together (Y 1 2 1 1 1) ≤ Sample.together (X 2 1 1 1).
Proof.
  assert (is_Some (avoidance_dict (Sample.data (Some (Ok Sample.avoidance)))
                     !! (1, 2))) as H1 by (eexists; vm_compute; reflexivity).
  assert (1 ∈ bases (Sample.data (Some (Ok Sample.avoidance)))) as H2
    by by_evaluation.
  assert (1 ∈ periods (Sample.data (Some (Ok Sample.avoidance)))) as H3
    by by_evaluation.
  assert (1 ∈ shifts (Sample.data (Some (Ok Sample.avoidance)))) as H4
    by by_evaluation.
  split_and!; [exact sample_built | exact sample_feasible | exact H1
              | reflexivity | exact H2 | exact H3 | exact H4 | |].
  - exact (proj1 (proj2 (penalty_variable_below_both (λ _, true)
             Sample.optimizer (Sample.data (Some (Ok Sample.avoidance))) _ _
             Sample.together 1 2 1 1 1 sample_built sample_feasible H1 eq_refl
             H2 H3 H4))).
  - exact (proj1 (proj2 (proj2 (penalty_variable_below_both (λ _, true)
             Sample.optimizer (Sample.data (Some (Ok Sample.avoidance))) _ _
             Sample.together 1 2 1 1 1 sample_built sample_feasible H1 eq_refl
             H2 H3 H4)))).
Defined.

(** ** The objective: penalties, and nothing else *)

Lemma movement_costs_outside ks cd ms bs gs ss sv sv' v :
  Optimizer.movement_costs (x_dict ks) cd ms bs gs ss sv = Ok sv' →
  v ∉ X4 <$> keys4 ms bs gs ss →
  objective sv' !! v = objective sv !! v.
Proof.
  unfold Optimizer.movement_costs. cbv zeta.
  rewrite for_fold_nested, for_fold_nested, for_fold_nested.
  intros Hrun Hv.
  rewrite (for_fold_ext _
    (λ sv k, v ← subscript (x_dict ks) k;
             Ok (SetObjectiveCoefficient sv v
                   (default (Fnum 0) (cd !! (k.1.1.1, k.1.1.2)))))) in Hrun.
  2: { intros s0 [[[??]?]?] _. reflexivity. }
  apply objective_loop in Hrun as [_ Hout]. apply Hout.
  intros k Hk <-. apply Hv. apply list_elem_of_fmap. by exists k.
Qed.

(** A loop that sets the objective coefficient of the penalty variables
    stored under the keys of [l] to one value. *)
Lemma penalty_loop {A} yks (key : A → Z * Z * Z * Z * Z) (w : float)
    (l : list A) sv sv' :
  for_fold (λ sv i,
      if bool_decide (is_Some (y_dict yks !! key i))
      then v ← subscript (y_dict yks) (key i);
           Ok (SetObjectiveCoefficient sv v w)
      else Ok sv) l sv = Ok sv' →
  (∀ i, i ∈ l → key i ∈ yks → objective sv' !! Y5 (key i) = Some w) ∧
  (∀ v, (∀ i, i ∈ l → key i ∈ yks → Y5 (key i) ≠ v) →
        objective sv' !! v = objective sv !! v).
Proof.
  revert sv. induction l as [|i l IH]; intros sv; simpl.
  - intros [= <-]. split; [by intros ? ?%elem_of_nil | done].
  - intros (sv1 & Hstep & Hrest)%bind_Ok.
    destruct (IH _ Hrest) as [Hin Hout].
    assert (objective sv1 =
            if decide (key i ∈ yks)
            then <[Y5 (key i) := w]> (objective sv) else objective sv) as Hsv1.
    { case_bool_decide as Hsome.
      - apply bind_Ok in Hstep as (v & [Hk ->]%subscript_y_dict & [= <-]).
        by rewrite decide_True.
      - injection Hstep as <-. rewrite decide_False; [done|]. intros Hk.
        apply Hsome. exists (Y5 (key i)). by apply lookup_y_dict. }
    split.
    + intros j [->|Hj]%elem_of_cons Hk; [|by apply Hin].
      destruct (decide (key i ∈ key <$> l)) as [Hl|Hl].
      * apply list_elem_of_fmap in Hl as (j & Hj & Hjl). rewrite Hj in Hk |- *.
        by apply Hin.
      * rewrite Hout.
        -- rewrite Hsv1, decide_True by done. apply lookup_insert_eq.
        -- intros j Hj _ Heq%Y5_inj. apply Hl, list_elem_of_fmap. by exists j.
    + intros v Hv. rewrite Hout by (intros; apply Hv; [by right | done]).
      rewrite Hsv1. case_decide; [|done].
      apply lookup_insert_ne. apply Hv; [left | done].
Qed.

Lemma avoidance_penalties_objective ad yks bs gs ss sv m1 m2 sv' :
  Optimizer.avoidance_penalties ad (y_dict yks) bs gs ss sv (m1, m2) = Ok sv' →
  (∀ b g s, b ∈ bs → g ∈ gs → s ∈ ss → (m1, m2, b, g, s) ∈ yks →
     objective sv' !! Y m1 m2 b g s = ad !! (m1, m2)) ∧
  (∀ v, (∀ b g s, b ∈ bs → g ∈ gs → s ∈ ss → v ≠ Y m1 m2 b g s) →
     objective sv' !! v = objective sv !! v).
Proof.
  unfold Optimizer.avoidance_penalties.
  intros (penalty & Hp%subscript_Ok & Hrun)%bind_Ok.
  rewrite for_fold_nested, for_fold_nested in Hrun.
  apply (penalty_loop yks (λ p, (m1, m2, p.1.1, p.1.2, p.2))) in Hrun
    as [Hin Hout].
  split.
  - intros b g s Hb Hg Hs Hk. rewrite Hp.
    apply (Hin (b, g, s)); [by rewrite !elem_of_pairs | done].
  - intros v Hv. apply Hout. intros [[b g] s] Hi%elem_of_pairs _ Heq.
    rewrite elem_of_pairs in Hi. simpl in Heq.
    apply (Hv b g s); [tauto..|done].
Qed.

Lemma avoidance_penalties_all ad yks bs gs ss (prs : list (Z * Z)) sv sv' :
  for_fold (Optimizer.avoidance_penalties ad (y_dict yks) bs gs ss) prs sv
    = Ok sv' →
  (∀ m1 m2 b g s, (m1, m2) ∈ prs → b ∈ bs → g ∈ gs → s ∈ ss →
     (m1, m2, b, g, s) ∈ yks →
     objective sv' !! Y m1 m2 b g s = ad !! (m1, m2)) ∧
  (∀ v, (∀ m1 m2 b g s, (m1, m2) ∈ prs → b ∈ bs → g ∈ gs → s ∈ ss →
           v ≠ Y m1 m2 b g s) →
     objective sv' !! v = objective sv !! v).
Proof.
  revert sv. induction prs as [|[m1 m2] prs IH]; intros sv; simpl.
  - intros [= <-]. split; [|done]. by intros ? ? ? ? ? ?%elem_of_nil.
  - intros (sv1 & [Hin1 Hout1]%avoidance_penalties_objective & Hrest)%bind_Ok.
    destruct (IH _ Hrest) as [Hin Hout]. split.
    + intros m1' m2' b g s [[= -> ->]|Hp]%elem_of_cons Hb Hg Hs Hk;
        [|by apply Hin].
      destruct (decide ((m1, m2) ∈ prs)) as [Hl|Hl]; [by apply Hin|].
      rewrite Hout; [by apply Hin1|].
      intros m1' m2' b' g' s' Hp _ _ _ [= -> -> _ _ _]. done.
    + intros v Hv. rewrite Hout, Hout1; [done| |].
      * intros b g s Hb Hg Hs. apply Hv; [left | done..].
      * intros m1' m2' b g s Hp. apply Hv. by right.
Qed.

(** X7. The objective coefficient of [avoidance_vars[m1, m2, b, g, s]] is
    the penalty stored for [(m1, m2)], at every slot; and the objective has
    no term besides the [x] variables of the four loops and these penalty
    variables. *)
Theorem objective_penalty_coefficient available self data self' model :
  Optimizer.create_model available self data = Ok (self', model) →
  (∀ m1 m2 b g s,
     is_Some (avoidance_dict data !! (m1, m2)) → m1 < m2 →
     b ∈ bases data → g ∈ periods data → s ∈ shifts data →
     Optimizer.m_avoidance_vars model !! (m1, m2, b, g, s) =
       Some (Y m1 m2 b g s) ∧
     objective (Optimizer.m_solver model) !! Y m1 m2 b g s =
       avoidance_dict data !! (m1, m2)) ∧
  (∀ v a, objective (Optimizer.m_solver model) !! v = Some a →
     (∃ m b g s, v = X m b g s ∧ m ∈ mechanics data ∧ b ∈ bases data ∧
                 g ∈ periods data ∧ s ∈ shifts data) ∨
     (∃ m1 m2 b g s, v = Y m1 m2 b g s ∧
                     is_Some (avoidance_dict data !! (m1, m2)) ∧ m1 < m2 ∧
                     b ∈ bases data ∧ g ∈ periods data ∧ s ∈ shifts data)).
Proof.
  intros Hrun.
  apply create_model_inv in Hrun
    as (c1 & c2 & c3 & c4 & c5 & sv1 & sv2 & sv3 & _ & _ & Hy & _ & _ & _ & _
        & _ & _ & _ & _ & _ & Hobj1 & Hmove & Hpen & Hobj).
  set (prs := elements (Optimizer.unique_pairs (avoidance_dict data))) in *.
  set (yks := keys5 prs (bases data) (periods data) (shifts data)) in *.
  split.
  - intros m1 m2 b g s Hpair Hlt Hb Hg Hs.
    assert ((m1, m2) ∈ prs) as Hin by by apply elem_of_unique_pairs.
    assert ((m1, m2, b, g, s) ∈ yks) as Hk by by apply elem_of_keys5.
    assert (y_dict yks !! (m1, m2, b, g, s) = Some (Y m1 m2 b g s)) as Hlook
      by by apply lookup_y_dict.
    split; [by rewrite Hy|]. rewrite Hobj.
    rewrite !bool_decide_true in Hpen.
    + simpl in Hpen. apply avoidance_penalties_all in Hpen as [Hset _].
      by apply Hset.
    + intros Hempty. by rewrite Hempty, lookup_empty in Hlook.
    + intros Hempty. destruct Hpair as [p Hp].
      by rewrite Hempty, lookup_empty in Hp.
  - intros v a. rewrite Hobj. intros Hv.
    assert (objective sv2 !! v = Some a →
            ∃ m b g s, v = X m b g s ∧ m ∈ mechanics data ∧ b ∈ bases data ∧
                       g ∈ periods data ∧ s ∈ shifts data) as Hx.
    { intros Hv2.
      destruct (decide (v ∈ X4 <$> keys4 (mechanics data) (bases data)
                                    (periods data) (shifts data))) as [Hin|Hout].
      - apply list_elem_of_fmap in Hin as ([[[m b] g] s] & -> & Hk%elem_of_keys4).
        exists m, b, g, s. tauto.
      - rewrite (movement_costs_outside _ _ _ _ _ _ _ _ v Hmove Hout), Hobj1,
          lookup_empty in Hv2. done. }
    destruct (bool_decide (avoidance_dict data ≠ ∅) && bool_decide (_ ≠ ∅));
      [|injection Hpen as <-; left; by apply Hx].
    apply avoidance_penalties_all in Hpen as [_ Hout].
    destruct (decide (v ∈ Y5 <$> yks)) as [Hin|Hnin].
    + right.
      apply list_elem_of_fmap in Hin as ([[[[m1 m2] b] g] s] & -> & Hk%elem_of_keys5).
      exists m1, m2, b, g, s.
      destruct Hk as (?%elem_of_unique_pairs & ? & ? & ?). tauto.
    + left. apply Hx. rewrite <- Hout; [done|].
      intros m1 m2 b g s Hp Hb Hg Hs ->. apply Hnin, list_elem_of_fmap.
      exists (m1, m2, b, g, s). split; [done|]. by apply elem_of_keys5.
Qed.

Lemma objective_penalty_coefficient_witness :
  Sample.build (Some (Ok Sample.avoidance)) =
    Ok ((Sample.built (Some (Ok Sample.avoidance))).1,
        (Sample.built (Some (Ok Sample.avoidance))).2) ∧
  is_Some (avoidance_dict (Sample.data (Some (Ok Sample.avoidance))) !! (1, 2)) ∧
  1 < 2 ∧
  1 ∈ bases (Sample.data (Some (Ok Sample.avoidance))) ∧
  1 ∈ periods (Sample.data (Some (Ok Sample.avoidance))) ∧
  2 ∈ shifts (Sample.data (Some (Ok Sample.avoidance))) ∧
  objective (Optimizer.m_solver (Sample.built (Some (Ok Sample.avoidance))).2)
    !! Y 1 2 1 1 2 =
  avoidance_dict (Sample.data (Some (Ok Sample.avoidance))) !! (1, 2).
Proof.
  assert (is_Some (avoidance_dict (Sample.data (Some (Ok Sample.avoidance)))
                     !! (1, 2))) as H1 by (eexists; vm_compute; reflexivity).
  assert (1 ∈ bases (Sample.data (Some (Ok Sample.avoidance)))) as H2
    by by_evaluation.
  assert (1 ∈ periods (Sample.data (Some (Ok Sample.avoidance)))) as H3
    by by_evaluation.
  assert (2 ∈ shifts (Sample.data (Some (Ok Sample.avoidance)))) as H4
    by by_evaluation.
  split_and!; [exact sample_built | exact H1 | reflexivity | exact H2
              | exact H3 | exact H4 |].
  exact (proj2 (proj1 (objective_penalty_coefficient (λ _, true)
           Sample.optimizer (Sample.data (Some (Ok Sample.avoidance))) _ _
           sample_built) 1 2 1 1 2 H1 eq_refl H2 H3 H4)).
Defined.

(** ** extract_solution on the object of a model *)

Lemma for_fold_each {A S} (body : S → A → result S) (l : list A) s s' a :
  for_fold body l s = Ok s' → a ∈ l → ∃ s1 s2, body s1 a = Ok s2.
Proof.
  revert s. induction l as [|a' l IH]; intros s; simpl.
  - by intros _ ?%elem_of_nil.
  - intros (s1 & H1 & H2)%bind_Ok [->|Ha]%elem_of_cons; eauto.
Qed.

(** X8. On the object of a model, [extract_solution] returns the records
    of the keys whose value is above 0.5 when every key of the lists it is
    given is a key of the model, and raises [KeyError] otherwise, that is
    for a mechanic, base, period or shift the model was not built for. *)
Theorem extract_after_create available self data self' model sv ms bs gs ss cd :
  Optimizer.create_model available self data = Ok (self', model) →
  (Forall (λ k, k ∈ keys4 (mechanics data) (bases data) (periods data)
                      (shifts data)) (keys4 ms bs gs ss) →
   Optimizer.extract_solution sv self' ms bs gs ss cd =
   Ok (assignment_at cd <$>
         filter (λ k, chosen sv (Optimizer.m_x model) k = true)
           (keys4 ms bs gs ss),
       foldl (λ t a, fadd t (Optimizer.cost a)) (Fnum 0)
         (assignment_at cd <$>
            filter (λ k, chosen sv (Optimizer.m_x model) k = true)
              (keys4 ms bs gs ss)))) ∧
  (¬ Forall (λ k, k ∈ keys4 (mechanics data) (bases data) (periods data)
                        (shifts data)) (keys4 ms bs gs ss) →
   Optimizer.extract_solution sv self' ms bs gs ss cd = Raise KeyError).
Proof.
  intros Hrun.
  apply create_model_inv in Hrun
    as (c1 & c2 & c3 & c4 & c5 & sv1 & sv2 & sv3 & Hx & Hmx & _).
  rewrite Hmx. split.
  - intros Hkeys. apply (extract_solution_result _ _ _ _ _ _ _ _ Hx).
    eapply Forall_impl; [exact Hkeys|]. intros k Hk. exists (X4 k).
    by apply lookup_x_dict.
  - intros Hkeys.
    destruct (Optimizer.extract_solution sv self' ms bs gs ss cd)
      as [r|e] eqn:Hex.
    + destruct Hkeys. apply Forall_forall. intros k Hk.
      rewrite (extract_solution_flat _ _ _ _ _ _ _ _ Hx) in Hex.
      destruct (for_fold_each _ _ _ _ k Hex Hk)
        as (s1 & s2 & (v & [Hin _]%subscript_x_dict & _)%bind_Ok).
      done.
    + apply extract_solution_raises in Hex as [[_ Hnone] | [-> _]];
        [congruence | done].
Qed.

Lemma extract_after_create_witness :
  Sample.build (Some (Ok Sample.avoidance)) =
    Ok ((Sample.built (Some (Ok Sample.avoidance))).1,
        (Sample.built (Some (Ok Sample.avoidance))).2) ∧
  ¬ Forall (λ k, k ∈ keys4 (mechanics (Sample.data (Some (Ok Sample.avoidance))))
                        (bases (Sample.data (Some (Ok Sample.avoidance))))
                        (periods (Sample.data (Some (Ok Sample.avoidance))))
                        (shifts (Sample.data (Some (Ok Sample.avoidance)))))
      (keys4 [1; 4] [1] [1] [1]) ∧
  Optimizer.extract_solution Sample.value
    (Sample.built (Some (Ok Sample.avoidance))).1 [1; 4] [1] [1] [1] ∅ =
  Raise KeyError.
Proof.
  assert (¬ Forall (λ k, k ∈ keys4
                      (mechanics (Sample.data (Some (Ok Sample.avoidance))))
                      (bases (Sample.data (Some (Ok Sample.avoidance))))
                      (periods (Sample.data (Some (Ok Sample.avoidance))))
                      (shifts (Sample.data (Some (Ok Sample.avoidance)))))
            (keys4 [1; 4] [1] [1] [1])) as H by by_evaluation.
  split; [exact sample_built|]. split; [exact H|].
  exact (proj2 (extract_after_create (λ _, true) Sample.optimizer
           (Sample.data (Some (Ok Sample.avoidance))) _ _ Sample.value
           [1; 4] [1] [1] [1] ∅ sample_built) H).
Defined.

(** ** From a feasible solution to the roster *)

Lemma linear_pos_entry val (coeffs : gmap var Z) :
  0 < linear val coeffs → ∃ v a, coeffs !! v = Some a ∧ 0 < a * val v.
Proof.
  unfold linear.
  apply (map_fold_weak_ind
    (λ r (m : gmap var Z), 0 < r → ∃ v a, m !! v = Some a ∧ 0 < a * val v)).
  - lia.
  - intros v a m r Hv IH Hpos.
    destruct (decide (0 < a * val v)) as [Hterm|Hterm].
    + exists v, a. split; [apply lookup_insert_eq | done].
    + destruct IH as (v' & a' & Hv' & Hpos'); [lia|].
      exists v', a'. split; [|done].
      rewrite lookup_insert_ne; [done|]. intros ->. congruence.
Qed.

Lemma linear_neg_entry val (coeffs : gmap var Z) :
  linear val coeffs < 0 → ∃ v a, coeffs !! v = Some a ∧ a * val v < 0.
Proof.
  unfold linear.
  apply (map_fold_weak_ind
    (λ r (m : gmap var Z), r < 0 → ∃ v a, m !! v = Some a ∧ a * val v < 0)).
  - lia.
  - intros v a m r Hv IH Hneg.
    destruct (decide (a * val v < 0)) as [Hterm|Hterm].
    + exists v, a. split; [apply lookup_insert_eq | done].
    + destruct IH as (v' & a' & Hv' & Hneg'); [lia|].
      exists v', a'. split; [|done].
      rewrite lookup_insert_ne; [done|]. intros ->. congruence.
Qed.

(** A coverage constraint that holds has a mechanic with the skill at the
    slot. *)
Lemma covered_slot val skills ms name b g s c :
  covers skills ms name b g s c → c_lb c = Fin 1 → holds val c →
  ∃ m, m ∈ ms ∧ holds_skill skills m name ∧ 1 ≤ val (X m b g s).
Proof.
  intros Hcov Hlb [Habove _]. rewrite Hlb in Habove. simpl in Habove.
  destruct (linear_pos_entry val (c_coeffs c)) as (v & a & Hv & Hpos); [lia|].
  apply Hcov in Hv as [-> (m & Hm & Hsk & ->)]. exists m.
  split_and!; [done..|lia].
Qed.

Lemma coverage_keys ks skills ms b g s name c c' m :
  Optimizer.coverage (x_dict ks) skills ms b g s name c = Ok c' →
  m ∈ ms → holds_skill skills m name → (m, b, g, s) ∈ ks.
Proof.
  unfold Optimizer.coverage. intros Hrun Hm Hsk.
  destruct (for_fold_each _ _ _ _ m Hrun Hm) as (c1 & c2 & Hbody).
  apply bind_Ok in Hbody as (skilled & [_ Hiff]%has_skill_Ok & Hbody).
  destruct skilled; [|by apply Hiff in Hsk].
  by apply bind_Ok in Hbody as (v & [Hin _]%subscript_x_dict & _).
Qed.

Lemma skill_coverage_keys ks skills ms df row r b g s aircraft skill m :
  Optimizer.skill_coverage (x_dict ks) skills ms df row = Ok r →
  Optimizer.row_slot row = Ok (b, g, s) →
  aircraft ∈ Optimizer.aircraft_types → skill ∈ Optimizer.skill_types →
  aircraft ∈ columns df → positive_cell row aircraft →
  m ∈ ms → holds_skill skills m (aircraft +:+ skill) → (m, b, g, s) ∈ ks.
Proof.
  unfold Optimizer.skill_coverage.
  intros (b' & g' & s' & Hslot' & Hr)%row_slot_bind Hslot Ha Hs Hcol Hpos Hm Hsk.
  rewrite Hslot in Hslot'. injection Hslot' as <- <- <-.
  destruct (for_collect_each _ _ _ aircraft Hr Ha) as [ra Hra].
  apply bind_Ok in Hra as (demanded & Hd & Hra).
  apply demanded_Ok in Hd.
  destruct demanded; [|by destruct Hd as [_ Hd]; specialize (Hd (conj Hcol Hpos))].
  destruct (for_collect_each _ _ _ skill Hra Hs) as [rs Hrs].
  apply bind_Ok in Hrs as (c' & Hc' & _).
  by apply (coverage_keys _ _ _ _ _ _ _ _ _ m Hc').
Qed.

Lemma inspector_coverage_keys ks iskills ms df irc row r b g s col m :
  Optimizer.inspector_coverage (x_dict ks) iskills ms df irc row = Ok r →
  Optimizer.row_slot row = Ok (b, g, s) →
  col ∈ irc → col ∈ columns df → positive_cell row col →
  m ∈ ms → holds_skill iskills m col → (m, b, g, s) ∈ ks.
Proof.
  unfold Optimizer.inspector_coverage.
  intros (b' & g' & s' & Hslot' & Hr)%row_slot_bind Hslot Hirc Hcol Hpos Hm Hsk.
  rewrite Hslot in Hslot'. injection Hslot' as <- <- <-.
  destruct (for_collect_each _ _ _ col Hr Hirc) as [ra Hra].
  apply bind_Ok in Hra as (active & Hd & Hra).
  apply inspector_required_Ok in Hd.
  destruct active;
    [|by destruct Hd as [_ Hd]; specialize (Hd (conj Hcol Hpos))].
  apply bind_Ok in Hra as (c & Hc & _).
  by apply (coverage_keys _ _ _ _ _ _ _ _ _ m Hc).
Qed.

(** The value of a declared [x] variable in a feasible solution. *)
Lemma declared_bounds available self data self' model val k :
  Optimizer.create_model available self data = Ok (self', model) →
  feasible (Optimizer.m_solver model) val →
  k ∈ keys4 (mechanics data) (bases data) (periods data) (shifts data) →
  0 ≤ val (X4 k) ≤ 1.
Proof.
  intros Hrun [Hbounds _] Hk.
  apply create_model_inv in Hrun
    as (c1 & c2 & c3 & c4 & c5 & sv1 & sv2 & sv3 & _ & _ & _ & _ & _ & _ & _
        & _ & _ & _ & _ & Hvars & _).
  assert (x_decl k ∈ variables (Optimizer.m_solver model)) as Hd.
  { rewrite Hvars, elem_of_app. left. apply list_elem_of_fmap. by exists k. }
  apply Hbounds in Hd. by destruct k as [[[??]?]?].
Qed.

(** A key of the model whose variable is 1 is read out by
    [extract_solution]. *)
Lemma assigned_in_roster available self data self' model val k :
  Optimizer.create_model available self data = Ok (self', model) →
  k ∈ keys4 (mechanics data) (bases data) (periods data) (shifts data) →
  1 ≤ val (X4 k) →
  ∃ assignments total,
    Optimizer.extract_solution (λ v, inject_Z (val v)) self'
      (mechanics data) (bases data) (periods data) (shifts data)
      (cost_dict data) = Ok (assignments, total) ∧
    assignment_at (cost_dict data) k ∈ assignments.
Proof.
  intros Hrun Hk Hval.
  apply create_model_inv in Hrun
    as (c1 & c2 & c3 & c4 & c5 & sv1 & sv2 & sv3 & Hx & _).
  eexists _, _. split.
  { apply (extract_solution_result _ _ _ _ _ _ _ _ Hx).
    apply Forall_forall. intros k' Hk'. exists (X4 k'). by apply lookup_x_dict. }
  apply list_elem_of_fmap. exists k. split; [done|].
  apply list_elem_of_filter. split; [|done]. by apply chosen_integer.
Qed.

(** X9. From a feasible solution, for every row of the schedule with a
    positive count for an aircraft and for each discipline, some mechanic
    of the pool with that skill has value 1 at the slot of the row, and
    [extract_solution] returns a list with that mechanic at that slot. *)
Theorem demanded_skill_in_roster available self data self' model val
    row b g s aircraft skill :
  Optimizer.create_model available self data = Ok (self', model) →
  feasible (Optimizer.m_solver model) val →
  row ∈ rows (base_schedule_df data) →
  Optimizer.row_slot row = Ok (b, g, s) →
  aircraft ∈ Optimizer.aircraft_types → skill ∈ Optimizer.skill_types →
  aircraft ∈ columns (base_schedule_df data) →
  positive_cell row aircraft →
  ∃ m, m ∈ mechanics data ∧
    holds_skill (Optimizer.m_mechanic_skills model) m (aircraft +:+ skill) ∧
    val (X m b g s) = 1 ∧
    ∃ assignments total,
      Optimizer.extract_solution (λ v, inject_Z (val v)) self'
        (mechanics data) (bases data) (periods data) (shifts data)
        (cost_dict data) = Ok (assignments, total) ∧
      assignment_at (cost_dict data) (m, b, g, s) ∈ assignments.
Proof.
  intros Hrun Hfeas Hrow Hslot Ha Hs Hcol Hpos.
  pose proof Hrun as Hinv.
  apply create_model_inv in Hinv
    as (c1 & c2 & c3 & c4 & c5 & sv1 & sv2 & sv3 & _ & _ & _ & _ & _ & _
        & Hc2 & _ & _ & _ & Hcons & _).
  destruct (for_collect_each _ _ _ row Hc2 Hrow) as [r Hr].
  destruct (skill_coverage_elem _ _ _ _ _ _ Hr)
    as (b' & g' & s' & Hslot' & _ & Hto).
  rewrite Hslot in Hslot'. injection Hslot' as <- <- <-.
  destruct (Hto aircraft skill Ha Hs Hcol Hpos)
    as (c & Hc & _ & Hlb & _ & Hcov).
  assert (c ∈ constraints (Optimizer.m_solver model)) as Hin.
  { rewrite Hcons, !elem_of_app. right. left.
    apply (for_collect_elem _ _ _ c Hc2). by exists row, r. }
  destruct (covered_slot val _ _ _ _ _ _ c Hcov Hlb (proj2 Hfeas c Hin))
    as (m & Hm & Hsk & Hval).
  pose proof (skill_coverage_keys _ _ _ _ _ _ _ _ _ _ _ m Hr Hslot Ha Hs Hcol
                Hpos Hm Hsk) as Hk.
  pose proof (declared_bounds _ _ _ _ _ val _ Hrun Hfeas Hk) as Hb. simpl in Hb.
  exists m. split_and!; [done | done | lia |].
  by apply (assigned_in_roster available self data self' model val (m, b, g, s)).
Qed.

(** X10. From a feasible solution, for every row of the schedule and
    every inspector column with a positive requirement in it, some mechanic
    of the pool with that inspector skill has value 1 at the slot of the
    row, and [extract_solution] returns a list with that mechanic at that
    slot. *)
Theorem required_inspector_in_roster available self data self' model val
    row b g s col :
  Optimizer.create_model available self data = Ok (self', model) →
  feasible (Optimizer.m_solver model) val →
  row ∈ rows (base_schedule_df data) →
  Optimizer.row_slot row = Ok (b, g, s) →
  col ∈ Optimizer.m_inspector_req_columns model →
  positive_cell row col →
  ∃ m, m ∈ mechanics data ∧
    holds_skill (Optimizer.m_mechanic_inspector_skills model) m col ∧
    val (X m b g s) = 1 ∧
    ∃ assignments total,
      Optimizer.extract_solution (λ v, inject_Z (val v)) self'
        (mechanics data) (bases data) (periods data) (shifts data)
        (cost_dict data) = Ok (assignments, total) ∧
      assignment_at (cost_dict data) (m, b, g, s) ∈ assignments.
Proof.
  intros Hrun Hfeas Hrow Hslot Hirc Hpos.
  pose proof Hrun as Hinv.
  apply create_model_inv in Hinv
    as (c1 & c2 & c3 & c4 & c5 & sv1 & sv2 & sv3 & _ & _ & _ & Heq & _ & _
        & _ & Hc3 & _ & _ & Hcons & _).
  rewrite Heq in Hirc.
  rewrite bool_decide_true in Hc3
    by (intros Hnil; rewrite Hnil in Hirc; by apply elem_of_nil in Hirc).
  destruct (for_collect_each _ _ _ row Hc3 Hrow) as [r Hr].
  pose proof Hirc as [_ Hcol]%list_elem_of_filter.
  destruct (inspector_coverage_to _ _ _ _ _ _ _ _ _ _ _ Hr Hslot Hirc Hcol Hpos)
    as (c & Hc & _ & Hlb & _ & Hcov).
  assert (c ∈ constraints (Optimizer.m_solver model)) as Hin.
  { rewrite Hcons, !elem_of_app. right. right. left.
    apply (for_collect_elem _ _ _ c Hc3). by exists row, r. }
  destruct (covered_slot val _ _ _ _ _ _ c Hcov Hlb (proj2 Hfeas c Hin))
    as (m & Hm & Hsk & Hval).
  pose proof (inspector_coverage_keys _ _ _ _ _ _ _ _ _ _ _ m Hr Hslot Hirc Hcol
                Hpos Hm Hsk) as Hk.
  pose proof (declared_bounds _ _ _ _ _ val _ Hrun Hfeas Hk) as Hb. simpl in Hb.
  exists m. split_and!; [done | done | lia |].
  by apply (assigned_in_roster available self data self' model val (m, b, g, s)).
Qed.

Lemma no_self_inspection_for_keys ks skills iskills ms b g s col m_inspector
    c m :
  Optimizer.no_self_inspection_for (x_dict ks) skills iskills ms b g s col
    m_inspector = Ok [c] →
  other_with_skill skills ms m_inspector (regular_skill col) m →
  (m, b, g, s) ∈ ks.
Proof.
  unfold Optimizer.no_self_inspection_for. cbv zeta.
  fold (regular_skill col).
  intros (inspects & _ & Hr)%bind_Ok Hm.
  destruct inspects; [|done].
  apply bind_Ok in Hr as (others & Hothers & Hr).
  apply (other_mechanics_Ok _ _ _ _ _ m Hothers) in Hm.
  destruct others as [|m0 others']; [by apply elem_of_nil in Hm|].
  apply bind_Ok in Hr as (v & _ & Hr).
  apply bind_Ok in Hr as (c' & Hc & _).
  destruct (for_fold_each _ _ _ _ m Hc Hm) as (s1 & s2 & Hbody).
  by apply bind_Ok in Hbody as (v' & [Hin _]%subscript_x_dict & _).
Qed.

(** X11. From a feasible solution: when a holder of an inspector skill
    is assigned at the slot of a row that requires that inspection, and
    another mechanic of the pool holds the regular skill, then another
    holder of the regular skill is assigned at the same slot, and the list
    returned by [extract_solution] has both. *)
Theorem inspector_accompanied available self data self' model val
    row b g s col m_inspector :
  Optimizer.create_model available self data = Ok (self', model) →
  feasible (Optimizer.m_solver model) val →
  row ∈ rows (base_schedule_df data) →
  Optimizer.row_slot row = Ok (b, g, s) →
  col ∈ Optimizer.m_inspector_req_columns model →
  positive_cell row col →
  m_inspector ∈ mechanics data →
  holds_skill (Optimizer.m_mechanic_inspector_skills model) m_inspector col →
  (∃ m, other_with_skill (Optimizer.m_mechanic_skills model) (mechanics data)
          m_inspector (regular_skill col) m) →
  1 ≤ val (X m_inspector b g s) →
  ∃ m, other_with_skill (Optimizer.m_mechanic_skills model) (mechanics data)
         m_inspector (regular_skill col) m ∧
    val (X m b g s) = 1 ∧
    ∃ assignments total,
      Optimizer.extract_solution (λ v, inject_Z (val v)) self'
        (mechanics data) (bases data) (periods data) (shifts data)
        (cost_dict data) = Ok (assignments, total) ∧
      assignment_at (cost_dict data) (m_inspector, b, g, s) ∈ assignments ∧
      assignment_at (cost_dict data) (m, b, g, s) ∈ assignments.
Proof.
  intros Hrun Hfeas Hrow Hslot Hirc Hpos Hmi Hins Hother Hval.
  pose proof Hrun as Hinv.
  apply create_model_inv in Hinv
    as (c1 & c2 & c3 & c4 & c5 & sv1 & sv2 & sv3 & _ & _ & _ & Heq & _ & _
        & _ & _ & Hc4 & _ & Hcons & _).
  rewrite Heq in Hirc.
  rewrite bool_decide_true in Hc4
    by (intros Hnil; rewrite Hnil in Hirc; by apply elem_of_nil in Hirc).
  destruct (for_collect_each _ _ _ row Hc4 Hrow) as [r Hr].
  destruct (no_self_inspection_elem _ _ _ _ _ _ _ _ Hr)
    as (b' & g' & s' & Hslot' & _ & Hto).
  rewrite Hslot in Hslot'. injection Hslot' as <- <- <-.
  pose proof Hirc as [_ Hcol]%list_elem_of_filter.
  destruct (Hto col m_inspector Hirc Hcol Hpos Hmi) as (rm & Hrm & Hsub).
  pose proof Hrm as Hspec. apply no_self_inspection_for_spec in Hspec.
  destruct Hspec as [[_ Hnot] | (c & -> & _ & _ & _ & _ & Hub & Hguards)];
    [by destruct Hnot|].
  assert (c ∈ constraints (Optimizer.m_solver model)) as Hin.
  { rewrite Hcons, !elem_of_app. do 3 right. left.
    apply (for_collect_elem _ _ _ c Hc4). exists row, r.
    split_and!; [done..|]. apply Hsub. left. }
  destruct (proj2 Hfeas c Hin) as [_ Hle]. rewrite Hub in Hle. simpl in Hle.
  assert (c_coeffs c !! X m_inspector b g s = Some 1) as Hci
    by (apply Hguards; by left).
  rewrite (linear_delete val _ _ _ Hci) in Hle.
  destruct (linear_neg_entry val (delete (X m_inspector b g s) (c_coeffs c)))
    as (v & a & Hv & Hneg); [lia|].
  apply lookup_delete_Some in Hv as [Hne Hv].
  apply Hguards in Hv as [[_ ->] | [-> (m & Hm & ->)]]; [done|].
  pose proof (no_self_inspection_for_keys _ _ _ _ _ _ _ _ _ _ m Hrm Hm) as Hk.
  pose proof (declared_bounds _ _ _ _ _ val _ Hrun Hfeas Hk) as Hb. simpl in Hb.
  assert ((m_inspector, b, g, s) ∈
          keys4 (mechanics data) (bases data) (periods data) (shifts data))
    as Hki.
  { apply elem_of_keys4 in Hk as (_ & ? & ? & ?). by apply elem_of_keys4. }
  exists m. split_and!; [done | lia |].
  destruct (assigned_in_roster available self data self' model val
              (m_inspector, b, g, s) Hrun Hki Hval)
    as (assignments & total & Hex & Hin1).
  destruct (assigned_in_roster available self data self' model val
              (m, b, g, s) Hrun Hk)
    as (assignments' & total' & Hex' & Hin2); [simpl; lia|].
  rewrite Hex in Hex'. injection Hex' as <- <-.
  by exists assignments, total.
Qed.

(** The statements above on the sample. *)

Lemma sample_day_row :
  Sample.day_row ∈ rows (base_schedule_df (Sample.data (Some (Ok Sample.avoidance)))).
Proof. rewrite sample_schedule. left. Qed.

Lemma demanded_skill_in_roster_witness :
  Sample.build (Some (Ok Sample.avoidance)) =
    Ok ((Sample.built (Some (Ok Sample.avoidance))).1,
        (Sample.built (Some (Ok Sample.avoidance))).2) ∧
  feasible (Optimizer.m_solver (Sample.built (Some (Ok Sample.avoidance))).2)
    Sample.together ∧
  Optimizer.row_slot Sample.day_row = Ok (1, 1, 1) ∧
  positive_cell Sample.day_row "aw139" ∧
  ∃ m, m ∈ mechanics (Sample.data (Some (Ok Sample.avoidance))) ∧
    holds_skill (Optimizer.m_mechanic_skills
                   (Sample.built (Some (Ok Sample.avoidance))).2)
      m ("aw139" +:+ "_av") ∧
    Sample.together (X m 1 1 1) = 1 ∧
    ∃ assignments total,
      Sample.extract Sample.value (Some (Ok Sample.avoidance)) =
        Ok (assignments, total) ∧
      assignment_at (cost_dict (Sample.data (Some (Ok Sample.avoidance))))
        (m, 1, 1, 1) ∈ assignments.
Proof.
  assert (Optimizer.row_slot Sample.day_row = Ok (1, 1, 1)) as Hslot
    by (vm_compute; reflexivity).
  assert (positive_cell Sample.day_row "aw139") as Hpos
    by (exists (inject_Z 2); split; vm_compute; reflexivity).
  assert ("aw139" ∈ Optimizer.aircraft_types) as Ha by by_evaluation.
  assert ("_av" ∈ Optimizer.skill_types) as Hs by by_evaluation.
  assert ("aw139" ∈
          columns (base_schedule_df (Sample.data (Some (Ok Sample.avoidance)))))
    as Hcol by (rewrite sample_schedule; by_evaluation).
  split_and!; [exact sample_built | exact sample_feasible | exact Hslot
              | exact Hpos |].
  exact (demanded_skill_in_roster (λ _, true) Sample.optimizer
           (Sample.data (Some (Ok Sample.avoidance))) _ _ Sample.together
           Sample.day_row 1 1 1 "aw139" "_av" sample_built sample_feasible
           sample_day_row Hslot Ha Hs Hcol Hpos).
Defined.

Lemma sample_inspector_column :
  "aw139_af_inspec" ∈
  Optimizer.m_inspector_req_columns (Sample.built (Some (Ok Sample.avoidance))).2.
Proof. by_evaluation. Qed.

Lemma sample_inspector_cell : positive_cell Sample.day_row "aw139_af_inspec".
Proof. exists (inject_Z 1). split; vm_compute; reflexivity. Qed.

Lemma required_inspector_in_roster_witness :
  Sample.build (Some (Ok Sample.avoidance)) =
    Ok ((Sample.built (Some (Ok Sample.avoidance))).1,
        (Sample.built (Some (Ok Sample.avoidance))).2) ∧
  feasible (Optimizer.m_solver (Sample.built (Some (Ok Sample.avoidance))).2)
    Sample.together ∧
  Optimizer.row_slot Sample.day_row = Ok (1, 1, 1) ∧
  positive_cell Sample.day_row "aw139_af_inspec" ∧
  ∃ m, m ∈ mechanics (Sample.data (Some (Ok Sample.avoidance))) ∧
    holds_skill (Optimizer.m_mechanic_inspector_skills
                   (Sample.built (Some (Ok Sample.avoidance))).2)
      m "aw139_af_inspec" ∧
    Sample.together (X m 1 1 1) = 1 ∧
    ∃ assignments total,
      Sample.extract Sample.value (Some (Ok Sample.avoidance)) =
        Ok (assignments, total) ∧
      assignment_at (cost_dict (Sample.data (Some (Ok Sample.avoidance))))
        (m, 1, 1, 1) ∈ assignments.
Proof.
  assert (Optimizer.row_slot Sample.day_row = Ok (1, 1, 1)) as Hslot
    by (vm_compute; reflexivity).
  split_and!; [exact sample_built | exact sample_feasible | exact Hslot
              | exact sample_inspector_cell |].
  exact (required_inspector_in_roster (λ _, true) Sample.optimizer
           (Sample.data (Some (Ok Sample.avoidance))) _ _ Sample.together
           Sample.day_row 1 1 1 "aw139_af_inspec" sample_built sample_feasible
           sample_day_row Hslot sample_inspector_column sample_inspector_cell).
Defined.

Lemma inspector_accompanied_witness :
  Sample.build (Some (Ok Sample.avoidance)) =
    Ok ((Sample.built (Some (Ok Sample.avoidance))).1,
        (Sample.built (Some (Ok Sample.avoidance))).2) ∧
  feasible (Optimizer.m_solver (Sample.built (Some (Ok Sample.avoidance))).2)
    Sample.together ∧
  holds_skill (Optimizer.m_mechanic_inspector_skills
                 (Sample.built (Some (Ok Sample.avoidance))).2)
    1 "aw139_af_inspec" ∧
  1 ≤ Sample.together (X 1 1 1 1) ∧
  ∃ m, other_with_skill
         (Optimizer.m_mechanic_skills
            (Sample.built (Some (Ok Sample.avoidance))).2)
         (mechanics (Sample.data (Some (Ok Sample.avoidance)))) 1
         (regular_skill "aw139_af_inspec") m ∧
    Sample.together (X m 1 1 1) = 1 ∧
    ∃ assignments total,
      Sample.extract Sample.value (Some (Ok Sample.avoidance)) =
        Ok (assignments, total) ∧
      assignment_at (cost_dict (Sample.data (Some (Ok Sample.avoidance))))
        (1, 1, 1, 1) ∈ assignments ∧
      assignment_at (cost_dict (Sample.data (Some (Ok Sample.avoidance))))
        (m, 1, 1, 1) ∈ assignments.
Proof.
  assert (Optimizer.row_slot Sample.day_row = Ok (1, 1, 1)) as Hslot
    by (vm_compute; reflexivity).
  assert (1 ∈ mechanics (Sample.data (Some (Ok Sample.avoidance)))) as Hm
    by by_evaluation.
  assert (holds_skill (Optimizer.m_mechanic_inspector_skills
                         (Sample.built (Some (Ok Sample.avoidance))).2)
            1 "aw139_af_inspec") as Hins
    by (eexists; split; vm_compute; reflexivity).
  assert (∃ m, other_with_skill
                 (Optimizer.m_mechanic_skills
                    (Sample.built (Some (Ok Sample.avoidance))).2)
                 (mechanics (Sample.data (Some (Ok Sample.avoidance)))) 1
                 (regular_skill "aw139_af_inspec") m) as Hother.
  { exists 2. split; [rewrite sample_mechanics; by_evaluation|].
    split; [discriminate|]. eexists. split; vm_compute; reflexivity. }
  assert (1 ≤ Sample.together (X 1 1 1 1)) as Hval by (vm_compute; discriminate).
  split_and!; [exact sample_built | exact sample_feasible | exact Hins
              | exact Hval |].
  exact (inspector_accompanied (λ _, true) Sample.optimizer
           (Sample.data (Some (Ok Sample.avoidance))) _ _ Sample.together
           Sample.day_row 1 1 1 "aw139_af_inspec" 1 sample_built sample_feasible
           sample_day_row Hslot sample_inspector_column sample_inspector_cell
           Hm Hins Hother Hval).
Defined.

(** ** The skill dictionaries *)

(** A loop that stores, in the dictionary of mechanic [m], the integer
    found in the row under each name of the loop that is a column. *)
Lemma dict_loop {A} (cols : list string) (row : gmap string cell) (m : Z)
    (name_of : A → string) (l : list A) (sk sk' : gmap Z (gmap string Z)) d0 :
  for_fold (λ sk a,
      if bool_decide (name_of a ∈ cols)
      then v ← subscript row (name_of a) ≫= py_int;
           Ok (alter (insert (name_of a) v) m sk)
      else Ok sk) l sk = Ok sk' →
  sk !! m = Some d0 →
  ∃ d, sk' = <[m := d]> sk ∧
    ∀ name z, d !! name = Some z ↔
      (name ∈ name_of <$> l ∧ name ∈ cols ∧
       subscript row name ≫= py_int = Ok z) ∨
      (¬ (name ∈ name_of <$> l ∧ name ∈ cols) ∧ d0 !! name = Some z).
Proof.
  revert sk d0. induction l as [|a l IH]; intros sk d0; simpl.
  - intros [= <-] Hm. exists d0. split; [by rewrite insert_id|].
    intros name z. split; [|by intros [[?%elem_of_nil _]|[_ ?]]].
    intros Hd. right. split; [|done]. by intros [?%elem_of_nil _].
  - intros (sk1 & Hstep & Hrest)%bind_Ok Hm.
    case_bool_decide as Hcol.
    + apply bind_Ok in Hstep as (v & Hv & [= <-]).
      destruct (IH _ (<[name_of a := v]> d0) Hrest) as (d & -> & Hd).
      { by rewrite lookup_alter_eq, Hm. }
      exists d. split.
      { apply map_eq. intros m'. destruct (decide (m' = m)) as [->|Hne].
        - by rewrite !lookup_insert_eq.
        - by rewrite !lookup_insert_ne, lookup_alter_ne by done. }
      intros name z. rewrite Hd, elem_of_cons. clear Hd IH Hrest.
      destruct (decide (name = name_of a)) as [->|Hne].
      * rewrite lookup_insert_eq. split.
        -- intros [(_ & _ & Hz) | [_ [= <-]]]; left; split_and!; auto.
        -- intros [(_ & _ & Hz) | [Hnot _]]; [|destruct Hnot; auto].
           destruct (decide (name_of a ∈ name_of <$> l)); [left; auto|].
           right. split; [tauto | congruence].
      * rewrite lookup_insert_ne by done. split.
        -- intros [(? & ? & ?) | [Hnot ?]]; [left; auto|].
           right. split; [|done]. intros [[?|?] ?]; [done|]. apply Hnot; auto.
        -- intros [([?|?] & ? & ?) | [Hnot ?]]; [done | left; auto |].
           right. split; [|done]. intros [? ?]. apply Hnot; auto.
    + injection Hstep as <-.
      destruct (IH _ d0 Hrest Hm) as (d & -> & Hd).
      exists d. split; [done|].
      intros name z. rewrite Hd, elem_of_cons. clear Hd IH Hrest. split.
      * intros [(? & ? & ?) | [Hnot ?]]; [left; auto|].
        right. split; [|done]. intros [[->|?] ?]; [done|]. apply Hnot; auto.
      * intros [([->|?] & ? & ?) | [Hnot ?]]; [done | left; auto |].
        right. split; [|done]. intros [? ?]. apply Hnot; auto.
Qed.


(** The loop over the columns acts on the two dictionaries separately. *)
Lemma skills_loop_split (df : DataFrame) (row : gmap string cell) (m : Z)
    (l : list (string * string)) sk isk sk' isk' :
  for_fold (skills_step df row m) l (sk, isk)
    = Ok (sk', isk') →
  for_fold (λ sk p,
      if bool_decide (p.1 +:+ p.2 ∈ columns df)
      then v ← subscript row (p.1 +:+ p.2) ≫= py_int;
           Ok (alter (insert (p.1 +:+ p.2) v) m sk)
      else Ok sk) l sk = Ok sk' ∧
  for_fold (λ isk p,
      if bool_decide (p.1 +:+ p.2 +:+ "_inspec" ∈ columns df)
      then v ← subscript row (p.1 +:+ p.2 +:+ "_inspec") ≫= py_int;
           Ok (alter (insert (p.1 +:+ p.2 +:+ "_inspec") v) m isk)
      else Ok isk) l isk = Ok isk'.
Proof.
  revert sk isk. induction l as [|p l IH]; intros sk isk; simpl.
  - by intros [= <- <-].
  - intros ([sk1 isk1] & Hstep & Hrest)%bind_Ok. unfold skills_step in Hstep.
    apply bind_Ok in Hstep as (sk1' & H1 & Hstep).
    apply bind_Ok in Hstep as (isk1' & H2 & [= <- <-]).
    rewrite H1, H2. simpl. by apply IH.
Qed.


Lemma read_skills_rows df :
  Optimizer.read_skills df =
  for_fold (read_skills_row df) (rows df)
    ((∅, ∅) : gmap Z (gmap string Z) * gmap Z (gmap string Z)).
Proof.
  unfold Optimizer.read_skills. apply for_fold_ext.
  intros [sk isk] row _. reflexivity.
Qed.

Lemma read_skills_row_spec df sk isk row sk' isk' :
  read_skills_row df (sk, isk) row = Ok (sk', isk') →
  ∃ m d di,
    subscript row "mechanic_id" ≫= py_int = Ok m ∧
    sk' = <[m := d]> sk ∧ isk' = <[m := di]> isk ∧
    (∀ name z, d !! name = Some z ↔
       name ∈ skill_columns ∧ name ∈ columns df ∧
       subscript row name ≫= py_int = Ok z) ∧
    (∀ name z, di !! name = Some z ↔
       name ∈ inspector_skill_columns ∧ name ∈ columns df ∧
       subscript row name ≫= py_int = Ok z).
Proof.
  unfold read_skills_row.
  intros (m & Hm & Hrun)%bind_Ok. exists m.
  rewrite for_fold_nested in Hrun.
  rewrite (for_fold_ext _ (skills_step df row m)) in Hrun
    by (intros [??] [??] _; reflexivity).
  apply skills_loop_split in Hrun as [H1 H2].
  apply (dict_loop _ _ _ (λ p, p.1 +:+ p.2) _ _ _ ∅) in H1 as (d & -> & Hd);
    [|apply lookup_insert_eq].
  apply (dict_loop _ _ _ (λ p, p.1 +:+ p.2 +:+ "_inspec") _ _ _ ∅) in H2
    as (di & -> & Hdi); [|apply lookup_insert_eq].
  exists d, di. split; [done|]. rewrite !insert_insert_eq.
  split; [done|]. split; [done|]. split.
  - intros name z. rewrite Hd. unfold skill_columns. split; [|auto].
    by intros [? | [_ ?]].
  - intros name z. rewrite Hdi. unfold inspector_skill_columns. split; [|auto].
    by intros [? | [_ ?]].
Qed.

Lemma read_skills_keep df (l : list (gmap string cell)) sk isk sk' isk' m :
  for_fold (read_skills_row df) l (sk, isk) = Ok (sk', isk') →
  (∀ r, r ∈ l → subscript r "mechanic_id" ≫= py_int ≠ Ok m) →
  sk' !! m = sk !! m ∧ isk' !! m = isk !! m.
Proof.
  intros Hrun Hl.
  apply (for_fold_invariant _
    (λ st, st.1 !! m = sk !! m ∧ st.2 !! m = isk !! m)) in Hrun;
    [done | done |].
  intros [s1 i1] r [s2 i2] Hr [E1 E2]
    (m' & d & di & Hm' & -> & -> & _)%read_skills_row_spec.
  simpl in *. rewrite !lookup_insert_ne; [done|..];
    intros ->; by apply (Hl r).
Qed.

Lemma read_skills_dom df (l : list (gmap string cell)) sk isk sk' isk' m :
  for_fold (read_skills_row df) l (sk, isk) = Ok (sk', isk') →
  (is_Some (sk' !! m) ↔
     is_Some (sk !! m) ∨
     ∃ r, r ∈ l ∧ subscript r "mechanic_id" ≫= py_int = Ok m) ∧
  (is_Some (isk' !! m) ↔
     is_Some (isk !! m) ∨
     ∃ r, r ∈ l ∧ subscript r "mechanic_id" ≫= py_int = Ok m).
Proof.
  revert sk isk. induction l as [|row l IH]; intros sk isk; simpl.
  - intros [= <- <-].
    split; (split; [auto | by intros [? | (? & ?%elem_of_nil & _)]]).
  - intros ([sk1 isk1] & Hrow & Hrest)%bind_Ok.
    apply read_skills_row_spec in Hrow as (m' & d & di & Hm' & -> & -> & _).
    destruct (IH _ _ Hrest) as [-> ->]. clear IH Hrest.
    destruct (decide (m = m')) as [->|Hne].
    + rewrite !lookup_insert_eq.
      split; (split; [intros _; right; exists row; split; [left | done]|]);
        intros _; left; by eexists.
    + rewrite !lookup_insert_ne by done.
      split; (split; [intros [? | (r & ? & ?)]; [by left|];
                      right; exists r; split; [by right | done]|]);
        (intros [? | (r & [->|?]%elem_of_cons & ?)];
           [by left | congruence | right; by exists r]).
Qed.

(** X12. [mechanic_skills] and [mechanic_inspector_skills] have an entry
    exactly for the ids of the rows of the skill table.  The entry of a
    mechanic is read from the last row with that id: it maps each of the
    nine skill columns (for the second dictionary, the nine inspector
    columns) that the table has to the integer of the cell, and holds
    nothing else. *)
Theorem read_skills_last_row df skills iskills :
  Optimizer.read_skills df = Ok (skills, iskills) →
  (∀ m, is_Some (skills !! m) ↔
        ∃ r, r ∈ rows df ∧ subscript r "mechanic_id" ≫= py_int = Ok m) ∧
  (∀ m, is_Some (iskills !! m) ↔ is_Some (skills !! m)) ∧
  (∀ pre row post m,
     rows df = pre ++ row :: post →
     subscript row "mechanic_id" ≫= py_int = Ok m →
     (∀ r, r ∈ post → subscript r "mechanic_id" ≫= py_int ≠ Ok m) →
     ∃ d di, skills !! m = Some d ∧ iskills !! m = Some di ∧
       (∀ name z, d !! name = Some z ↔
          name ∈ skill_columns ∧ name ∈ columns df ∧
          subscript row name ≫= py_int = Ok z) ∧
       (∀ name z, di !! name = Some z ↔
          name ∈ inspector_skill_columns ∧ name ∈ columns df ∧
          subscript row name ≫= py_int = Ok z)).
Proof.
  rewrite read_skills_rows. intros Hrun.
  assert (∀ m, (is_Some (skills !! m) ↔
                ∃ r, r ∈ rows df ∧ subscript r "mechanic_id" ≫= py_int = Ok m) ∧
               (is_Some (iskills !! m) ↔
                ∃ r, r ∈ rows df ∧ subscript r "mechanic_id" ≫= py_int = Ok m))
    as Hdom.
  { intros m. destruct (read_skills_dom _ _ _ _ _ _ m Hrun) as [-> ->].
    rewrite lookup_empty.
    split; (split; [by intros [[? ?]|?] | by right]). }
  split; [intros m; apply Hdom|]. split.
  { intros m. destruct (Hdom m) as [-> ->]. done. }
  intros pre row post m Hrows Hm Hpost. rewrite Hrows, for_fold_app in Hrun.
  apply bind_Ok in Hrun as ([sk0 isk0] & _ & Hrun). simpl in Hrun.
  apply bind_Ok in Hrun as ([sk1 isk1] & Hrow & Hrest).
  apply read_skills_row_spec in Hrow
    as (m' & d & di & Hm' & -> & -> & Hd & Hdi).
  rewrite Hm in Hm'. injection Hm' as <-.
  destruct (read_skills_keep _ _ _ _ _ _ m Hrest Hpost) as [E1 E2].
  exists d, di. rewrite E1, E2, !lookup_insert_eq. done.
Qed.

Lemma read_skills_last_row_witness :
  Optimizer.read_skills Sample.skills =
    Ok (Optimizer.m_mechanic_skills (Sample.built None).2,
        Optimizer.m_mechanic_inspector_skills (Sample.built None).2) ∧
  rows Sample.skills =
    take 2 (rows Sample.skills) ++
    list_to_map (zip (columns Sample.skills)
                   (Sample.int_cell <$> [3; 1; 0; 0; 0])) :: [] ∧
  ∃ d di,
    Optimizer.m_mechanic_skills (Sample.built None).2 !! 3 = Some d ∧
    Optimizer.m_mechanic_inspector_skills (Sample.built None).2 !! 3
      = Some di ∧
    (∀ name z, d !! name = Some z ↔
       name ∈ skill_columns ∧ name ∈ columns Sample.skills ∧
       subscript (list_to_map (zip (columns Sample.skills)
                                 (Sample.int_cell <$> [3; 1; 0; 0; 0])))
         name ≫= py_int = Ok z) ∧
    (∀ name z, di !! name = Some z ↔
       name ∈ inspector_skill_columns ∧ name ∈ columns Sample.skills ∧
       subscript (list_to_map (zip (columns Sample.skills)
                                 (Sample.int_cell <$> [3; 1; 0; 0; 0])))
         name ≫= py_int = Ok z).
Proof.
  assert (Optimizer.read_skills Sample.skills =
          Ok (Optimizer.m_mechanic_skills (Sample.built None).2,
              Optimizer.m_mechanic_inspector_skills (Sample.built None).2))
    as H by (vm_compute; reflexivity).
  assert (rows Sample.skills =
          take 2 (rows Sample.skills) ++
          list_to_map (zip (columns Sample.skills)
                         (Sample.int_cell <$> [3; 1; 0; 0; 0])) :: [])
    as Hrows by reflexivity.
  split; [exact H|]. split; [exact Hrows|].
  refine (proj2 (proj2 (read_skills_last_row _ _ _ H)) _ _ _ 3 Hrows _ _).
  - vm_compute. reflexivity.
  - intros r Hr. clear -Hr. by apply elem_of_nil in Hr.
Defined.

(** ** load_data: the cost table *)

(** The loop over the base columns for the row of mechanic [m]. *)
Lemma cost_columns_loop (cols : list string) (row : gmap string cell) (m : Z)
    (l : list (string * Z)) (cd cd' : gmap (Z * Z) float) :
  for_fold (λ cost_dict '(col, base_id),
      if bool_decide (col ∈ cols)
      then c ← subscript row col ≫= py_float;
           Ok (<[(m, base_id) := c]> cost_dict)
      else Ok cost_dict) l cd = Ok cd' →
  (∀ k c, cd' !! k = Some c →
     (∃ col b, k = (m, b) ∧ (col, b) ∈ l ∧ col ∈ cols ∧
               subscript row col ≫= py_float = Ok c) ∨
     cd !! k = Some c) ∧
  (∀ k, (∀ col b, (col, b) ∈ l → col ∈ cols → k ≠ (m, b)) →
        cd' !! k = cd !! k) ∧
  (NoDup l.*2 → ∀ col b, (col, b) ∈ l → col ∈ cols →
     ∃ c, subscript row col ≫= py_float = Ok c ∧ cd' !! (m, b) = Some c).
Proof.
  revert cd. induction l as [|[col0 b0] l IH]; intros cd; simpl.
  - intros [= <-]. split_and!; [auto | done |].
    by intros _ ? ? ?%elem_of_nil.
  - intros (cd1 & Hstep & Hrest)%bind_Ok.
    destruct (IH _ Hrest) as (Hfrom & Hout & Hlast). clear IH. split_and!.
    + intros k c [(col & b & -> & Hin & Hcol & Hc) | Hk]%Hfrom.
      { left. exists col, b. split_and!; [done | by right | done..]. }
      case_bool_decide as Hcol0; [|injection Hstep as <-; by right].
      apply bind_Ok in Hstep as (c0 & Hc0 & [= <-]).
      rewrite lookup_insert in Hk. case_decide as Heq; [|by right].
      injection Hk as <-. subst k. left. exists col0, b0.
      split_and!; [done | left | done..].
    + intros k Hk.
      rewrite Hout by (intros col b ? ?; apply (Hk col b); [by right | done]).
      case_bool_decide as Hcol0; [|by injection Hstep as <-].
      apply bind_Ok in Hstep as (c0 & Hc0 & [= <-]).
      apply lookup_insert_ne. intros <-. by apply (Hk col0 b0); [left|..].
    + intros [Hnin Hnd]%NoDup_cons col b [[= -> ->]|Hin]%elem_of_cons Hcol;
        [|by apply Hlast].
      rewrite bool_decide_true in Hstep by done.
      apply bind_Ok in Hstep as (c0 & Hc0 & [= <-]).
      exists c0. split; [done|]. rewrite Hout; [apply lookup_insert_eq|].
      intros col' b' Hin' _ [= <-]. apply Hnin.
      apply list_elem_of_fmap. by exists (col', b0).
Qed.

Lemma cost_row_spec self df cd row cd' :
  DataLoader.cost_row self df cd row = Ok cd' →
  ∃ m, subscript row "id" ≫= py_int = Ok m ∧
    (∀ k c, cd' !! k = Some c →
       (∃ col b, k = (m, b) ∧
          (col, b) ∈ DataLoader.self_base_column_mapping self ∧
          col ∈ columns df ∧ subscript row col ≫= py_float = Ok c) ∨
       cd !! k = Some c) ∧
    (∀ k, k.1 ≠ m → cd' !! k = cd !! k) ∧
    (NoDup (DataLoader.self_base_column_mapping self).*2 →
     ∀ col b, (col, b) ∈ DataLoader.self_base_column_mapping self →
       col ∈ columns df →
       ∃ c, subscript row col ≫= py_float = Ok c ∧ cd' !! (m, b) = Some c).
Proof.
  unfold DataLoader.cost_row. intros (m & Hm & Hrun)%bind_Ok. exists m.
  apply cost_columns_loop in Hrun as (Hfrom & Hout & Hlast).
  split_and!; [done | done | | done].
  intros [m' b'] Hne. apply Hout. intros col b _ _ [= -> ->]. done.
Qed.

Lemma cost_rows_from self df (l : list (gmap string cell)) cd cd' k c :
  for_fold (DataLoader.cost_row self df) l cd = Ok cd' →
  cd' !! k = Some c →
  (∃ row col, row ∈ l ∧ subscript row "id" ≫= py_int = Ok k.1 ∧
     (col, k.2) ∈ DataLoader.self_base_column_mapping self ∧
     col ∈ columns df ∧ subscript row col ≫= py_float = Ok c) ∨
  cd !! k = Some c.
Proof.
  revert cd. induction l as [|row l IH]; intros cd; simpl.
  - intros [= <-]. by right.
  - intros (cd1 & Hrow & Hrest)%bind_Ok Hk.
    destruct (IH _ Hrest Hk) as [(row' & col & Hin & ?) | Hk1].
    { left. exists row', col. split; [by right | done]. }
    apply cost_row_spec in Hrow as (m & Hm & Hfrom & _).
    destruct (Hfrom k c Hk1) as [(col & b & -> & ? & ? & ?) | ?]; [|by right].
    left. exists row, col. split_and!; [left | done..].
Qed.

Lemma cost_rows_keep self df (l : list (gmap string cell)) cd cd' m b :
  for_fold (DataLoader.cost_row self df) l cd = Ok cd' →
  (∀ r, r ∈ l → subscript r "id" ≫= py_int ≠ Ok m) →
  cd' !! (m, b) = cd !! (m, b).
Proof.
  intros Hrun Hl.
  apply (for_fold_invariant _ (λ d, d !! (m, b) = cd !! (m, b))) in Hrun;
    [done | done |].
  intros d1 r d2 Hr E1 (m' & Hm' & _ & Hout & _)%cost_row_spec.
  rewrite Hout; [done|]. simpl. intros ->. by apply (Hl r).
Qed.

Lemma load_data_cost su self f1 f2 df3 av data log :
  DataLoader.load_data su self f1 f2 (Ok df3) av = Ok (data, log) →
  for_fold (DataLoader.cost_row self df3) (rows df3) ∅ = Ok (cost_dict data) ∧
  base_column_mapping data = DataLoader.self_base_column_mapping self.
Proof.
  unfold DataLoader.load_data.
  destruct f1 as [df1|]; simpl; [|done].
  destruct (DataLoader.column df1 "mechanic_id" ≫= su) as [ms|]; simpl; [|done].
  destruct f2 as [df2|]; simpl; [|done].
  destruct (DataLoader.column df2 "base_id" ≫= su) as [bs|]; simpl; [|done].
  destruct (DataLoader.column df2 "period" ≫= su) as [gs|]; simpl; [|done].
  destruct (DataLoader.column df2 "shift" ≫= su) as [ss|]; simpl; [|done].
  destruct (for_fold _ (rows df3) ∅) as [cd|]; simpl; [|done].
  destruct (DataLoader.load_avoidance av) as [d lg]. by intros [= <- <-].
Qed.

Lemma cost_dict_from su self f1 f2 df3 av data log m b c :
  DataLoader.load_data su self f1 f2 (Ok df3) av = Ok (data, log) →
  cost_dict data !! (m, b) = Some c →
  ∃ row col, row ∈ rows df3 ∧ subscript row "id" ≫= py_int = Ok m ∧
    (col, b) ∈ DataLoader.self_base_column_mapping self ∧
    col ∈ columns df3 ∧ subscript row col ≫= py_float = Ok c.
Proof.
  intros [Hrun _]%load_data_cost Hk.
  destruct (cost_rows_from _ _ _ _ _ (m, b) c Hrun Hk) as [? | Hempty];
    [done | by rewrite lookup_empty in Hempty].
Qed.

(** X13. Every entry [(m, b)] of the cost dictionary comes from a row of
    the cost table with id [m] and a column that the mapping sends to [b];
    and with a mapping that names each base once, the entry is the cell of
    the last row with that id. *)
Theorem cost_dict_loaded su self f1 f2 df3 av data log :
  DataLoader.load_data su self f1 f2 (Ok df3) av = Ok (data, log) →
  (∀ m b c, cost_dict data !! (m, b) = Some c →
     ∃ row col, row ∈ rows df3 ∧ subscript row "id" ≫= py_int = Ok m ∧
       (col, b) ∈ DataLoader.self_base_column_mapping self ∧
       col ∈ columns df3 ∧ subscript row col ≫= py_float = Ok c) ∧
  (∀ pre row post m col b,
     rows df3 = pre ++ row :: post →
     subscript row "id" ≫= py_int = Ok m →
     (∀ r, r ∈ post → subscript r "id" ≫= py_int ≠ Ok m) →
     NoDup (DataLoader.self_base_column_mapping self).*2 →
     (col, b) ∈ DataLoader.self_base_column_mapping self →
     col ∈ columns df3 →
     ∃ c, subscript row col ≫= py_float = Ok c ∧
          cost_dict data !! (m, b) = Some c).
Proof.
  intros Hload. split.
  - intros m b c Hk. by apply (cost_dict_from su self f1 f2 df3 av data log).
  - apply load_data_cost in Hload as [Hrun _].
    intros pre row post m col b Hrows Hm Hpost Hnd Hin Hcol.
    rewrite Hrows, for_fold_app in Hrun.
    apply bind_Ok in Hrun as (cd0 & _ & Hrun). simpl in Hrun.
    apply bind_Ok in Hrun as (cd1 & Hrow & Hrest).
    apply cost_row_spec in Hrow as (m' & Hm' & _ & _ & Hlast).
    rewrite Hm in Hm'. injection Hm' as <-.
    destruct (Hlast Hnd col b Hin Hcol) as (c & Hc & Hk).
    exists c. split; [done|].
    by rewrite (cost_rows_keep _ _ _ _ _ m b Hrest Hpost).
Qed.

Lemma sample_load_none :
  Sample.load None = Ok (Sample.data None, Sample.log None).
Proof. apply load_loaded. vm_compute. reflexivity. Qed.

Lemma cost_dict_loaded_witness :
  Sample.load None = Ok (Sample.data None, Sample.log None) ∧
  cost_dict (Sample.data None) !! (2, 3) = Some (Fnum (inject_Z 30)) ∧
  ∃ row col, row ∈ rows Sample.costs ∧
    subscript row "id" ≫= py_int = Ok 2 ∧
    (col, 3) ∈ DataLoader.self_base_column_mapping DataLoader.__init__ ∧
    col ∈ columns Sample.costs ∧
    subscript row col ≫= py_float = Ok (Fnum (inject_Z 30)).
Proof.
  assert (cost_dict (Sample.data None) !! (2, 3) = Some (Fnum (inject_Z 30)))
    as H by (vm_compute; reflexivity).
  split; [exact sample_load_none|]. split; [exact H|].
  exact (proj1 (cost_dict_loaded DataLoader.int_sorted_unique
                  DataLoader.__init__ (Ok Sample.skills) (Ok Sample.schedule)
                  Sample.costs None _ _ sample_load_none) 2 3 _ H).
Defined.

(** ** Bases without a cost column *)

Lemma objective_x available self data self' model m b g s :
  Optimizer.create_model available self data = Ok (self', model) →
  m ∈ mechanics data → b ∈ bases data → g ∈ periods data → s ∈ shifts data →
  objective (Optimizer.m_solver model) !! X m b g s =
    Some (default (Fnum 0) (cost_dict data !! (m, b))).
Proof.
  intros Hrun Hm Hb Hg Hs.
  apply create_model_inv in Hrun
    as (c1 & c2 & c3 & c4 & c5 & sv1 & sv2 & sv3 & _ & _ & _ & _ & _ & _ & _
        & _ & _ & _ & _ & _ & _ & Hmove & Hpen & Hobj).
  rewrite Hobj.
  assert (objective sv3 !! X4 (m, b, g, s) = objective sv2 !! X4 (m, b, g, s))
    as Hkeep.
  { destruct (bool_decide (avoidance_dict data ≠ ∅) && bool_decide (_ ≠ ∅));
      [|by injection Hpen as <-].
    revert Hpen.
    apply (for_fold_invariant _
      (λ sv, objective sv !! X4 (m, b, g, s) =
             objective sv2 !! X4 (m, b, g, s))); [done|].
    intros s1 pair s2 _ E1
      E2%(avoidance_penalties_keep_x _ _ _ _ _ _ _ _ (m, b, g, s)).
    by rewrite E2. }
  etrans; [exact Hkeep|].
  by destruct (movement_costs_objective _ _ _ _ _ _ _ _ m b g s Hmove).
Qed.

(** X14. The loader maps the columns A, B, C to the bases 1, 2, 3 and
    reads no other: for a base with another id the cost dictionary has no
    entry, whatever the cost table holds, and the objective coefficient of
    every assignment to that base is 0. *)
Theorem unmapped_base_costs_nothing su f1 f2 f3 av data log
    available self self' model m b g s :
  DataLoader.load_data su DataLoader.__init__ f1 f2 f3 av = Ok (data, log) →
  Optimizer.create_model available self data = Ok (self', model) →
  m ∈ mechanics data → b ∈ bases data → g ∈ periods data → s ∈ shifts data →
  b ∉ [1; 2; 3] →
  cost_dict data !! (m, b) = None ∧
  objective (Optimizer.m_solver model) !! X m b g s = Some (Fnum 0).
Proof.
  intros Hload Hrun Hm Hb Hg Hs Hout.
  assert (cost_dict data !! (m, b) = None) as Hnone.
  { destruct f3 as [df3|e].
    2: { unfold DataLoader.load_data in Hload.
         destruct f1 as [df1|]; simpl in Hload; [|done].
         destruct (DataLoader.column df1 "mechanic_id" ≫= su); simpl in Hload;
           [|done].
         destruct f2 as [df2|]; simpl in Hload; [|done].
         destruct (DataLoader.column df2 "base_id" ≫= su); simpl in Hload;
           [|done].
         destruct (DataLoader.column df2 "period" ≫= su); simpl in Hload;
           [|done].
         destruct (DataLoader.column df2 "shift" ≫= su); simpl in Hload;
           done. }
    destruct (cost_dict data !! (m, b)) as [c|] eqn:Hc; [|done].
    destruct (cost_dict_from _ _ _ _ _ _ _ _ m b c Hload Hc)
      as (row & col & _ & _ & Hin & _).
    destruct Hout. simpl in Hin.
    repeat (apply elem_of_cons in Hin as [[= _ ->] | Hin];
            [by_evaluation|]).
    by apply elem_of_nil in Hin. }
  split; [done|].
  rewrite (objective_x _ _ _ _ _ m b g s Hrun Hm Hb Hg Hs), Hnone. done.
Qed.

(** ** load_data: what a normal return needs *)

Lemma column_Ok df c l :
  DataLoader.column df c = Ok l →
  c ∈ columns df ∧ Forall2 (λ row v, row !! c = Some v) (rows df) l.
Proof.
  unfold DataLoader.column. case_bool_decide as Hc; [|done].
  intros Hl. split; [done|]. revert l Hl.
  induction (rows df) as [|row rs IH]; intros l; simpl.
  - intros [= <-]. constructor.
  - intros (r & (v & Hv%subscript_Ok & [= <-])%bind_Ok
              & (l' & Hl' & [= <-])%bind_Ok)%bind_Ok.
    constructor; [done | by apply IH].
Qed.

(** X15. [load_data] returns only if the three tables were read, the
    skill table has a column [mechanic_id], the schedule has the columns
    [base_id], [period] and [shift], and every row of the cost table has an
    integer [id]; the tables are passed on as read, and the four id lists
    are those computed from these columns. *)
Theorem load_data_requires su self f1 f2 f3 av data log :
  DataLoader.load_data su self f1 f2 f3 av = Ok (data, log) →
  f1 = Ok (mechanic_skills_df data) ∧
  f2 = Ok (base_schedule_df data) ∧
  f3 = Ok (cost_matrix_df data) ∧
  "mechanic_id" ∈ columns (mechanic_skills_df data) ∧
  "base_id" ∈ columns (base_schedule_df data) ∧
  "period" ∈ columns (base_schedule_df data) ∧
  "shift" ∈ columns (base_schedule_df data) ∧
  DataLoader.column (mechanic_skills_df data) "mechanic_id" ≫= su
    = Ok (mechanics data) ∧
  DataLoader.column (base_schedule_df data) "base_id" ≫= su
    = Ok (bases data) ∧
  DataLoader.column (base_schedule_df data) "period" ≫= su
    = Ok (periods data) ∧
  DataLoader.column (base_schedule_df data) "shift" ≫= su
    = Ok (shifts data) ∧
  (∀ row, row ∈ rows (cost_matrix_df data) →
     ∃ m, subscript row "id" ≫= py_int = Ok m).
Proof.
  unfold DataLoader.load_data.
  destruct f1 as [df1|]; simpl; [|done].
  destruct (DataLoader.column df1 "mechanic_id" ≫= su) as [ms|] eqn:Hms;
    simpl; [|done].
  destruct f2 as [df2|]; simpl; [|done].
  destruct (DataLoader.column df2 "base_id" ≫= su) as [bs|] eqn:Hbs;
    simpl; [|done].
  destruct (DataLoader.column df2 "period" ≫= su) as [gs|] eqn:Hgs;
    simpl; [|done].
  destruct (DataLoader.column df2 "shift" ≫= su) as [ss|] eqn:Hss;
    simpl; [|done].
  destruct f3 as [df3|]; simpl; [|done].
  destruct (for_fold _ (rows df3) ∅) as [cd|] eqn:Hcd; simpl; [|done].
  destruct (DataLoader.load_avoidance av) as [d lg]. intros [= <- <-]. simpl.
  pose proof Hms as (l1 & [H1 _]%column_Ok & _)%bind_Ok.
  pose proof Hbs as (l2 & [H2 _]%column_Ok & _)%bind_Ok.
  pose proof Hgs as (l3 & [H3 _]%column_Ok & _)%bind_Ok.
  pose proof Hss as (l4 & [H4 _]%column_Ok & _)%bind_Ok.
  split_and!; try done.
  intros row Hrow.
  destruct (for_fold_each _ _ _ _ row Hcd Hrow) as (s1 & s2 & Hbody).
  apply cost_row_spec in Hbody as (m & Hm & _). by exists m.
Qed.

Lemma load_data_requires_witness :
  Sample.load None = Ok (Sample.data None, Sample.log None) ∧
  "mechanic_id" ∈ columns (mechanic_skills_df (Sample.data None)) ∧
  "shift" ∈ columns (base_schedule_df (Sample.data None)).
Proof.
  split; [exact sample_load_none|].
  pose proof (load_data_requires DataLoader.int_sorted_unique
                DataLoader.__init__ (Ok Sample.skills) (Ok Sample.schedule)
                (Ok Sample.costs) None (Sample.data None) (Sample.log None)
                sample_load_none)
    as (_ & _ & _ & H1 & _ & _ & H2 & _).
  split; [exact H1 | exact H2].
Defined.

(** ** load_data: the avoidance map of a list that parses *)

Lemma stored_from parsed d k p :
  foldl store_pair d parsed !! k = Some p →
  (∃ t, t ∈ parsed ∧ t.2 = p ∧ (k = (t.1.1, t.1.2) ∨ k = (t.1.2, t.1.1))) ∨
  d !! k = Some p.
Proof.
  revert d. induction parsed as [|t parsed IH]; intros d; simpl; [by right|].
  intros [(t' & Hin & ?) | Hk]%IH.
  { left. exists t'. split; [by right | done]. }
  unfold store_pair in Hk. rewrite !lookup_insert in Hk.
  repeat case_decide; simplify_eq.
  - left. exists t. split_and!; [left | done | by right].
  - left. exists t. split_and!; [left | done | by left].
  - by right.
Qed.

Lemma stored_untouched parsed d k :
  (∀ t, t ∈ parsed → k ≠ (t.1.1, t.1.2) ∧ k ≠ (t.1.2, t.1.1)) →
  foldl store_pair d parsed !! k = d !! k.
Proof.
  revert d. induction parsed as [|t parsed IH]; intros d Hk; [done|].
  simpl. rewrite IH by (intros t' Ht'; apply Hk; by right).
  destruct (Hk t) as [H1 H2]; [left|].
  unfold store_pair. by rewrite !lookup_insert_ne.
Qed.

Lemma load_data_log su self f1 f2 f3 av data log :
  DataLoader.load_data su self f1 f2 f3 av = Ok (data, log) →
  ∃ msg,
    log = [Info "Loading mechanic skills dataset";
           Info "Loading base aircraft schedule";
           Info "Loading cost matrix"] ++
          (DataLoader.load_avoidance av).2 ++ [Info msg].
Proof.
  unfold DataLoader.load_data.
  destruct f1 as [df1|]; simpl; [|done].
  destruct (DataLoader.column df1 "mechanic_id" ≫= su) as [ms|]; simpl; [|done].
  destruct f2 as [df2|]; simpl; [|done].
  destruct (DataLoader.column df2 "base_id" ≫= su) as [bs|]; simpl; [|done].
  destruct (DataLoader.column df2 "period" ≫= su) as [gs|]; simpl; [|done].
  destruct (DataLoader.column df2 "shift" ≫= su) as [ss|]; simpl; [|done].
  destruct f3 as [df3|]; simpl; [|done].
  destruct (for_fold _ (rows df3) ∅) as [cd|]; simpl; [|done].
  destruct (DataLoader.load_avoidance av) as [d lg]. intros [= <- <-].
  by eexists.
Qed.

(** X16. When every row of the avoidance list parses, the avoidance
    map holds a pair only if a row names it, in either order; for each pair
    the penalty is that of the last row that names it, in either order, and
    is stored under both orders; and no warning is logged. *)
Theorem avoidance_map_of_rows su self f1 f2 f3 df data log parsed :
  DataLoader.load_data su self f1 f2 f3 (Some (Ok df)) = Ok (data, log) →
  parsed_as (rows df) parsed →
  (∀ a b p, avoidance_dict data !! (a, b) = Some p →
     (a, b, p) ∈ parsed ∨ (b, a, p) ∈ parsed) ∧
  (∀ pre m1 m2 p post,
     parsed = pre ++ (m1, m2, p) :: post →
     (∀ t, t ∈ post →
        (m1, m2) ≠ (t.1.1, t.1.2) ∧ (m1, m2) ≠ (t.1.2, t.1.1)) →
     avoidance_dict data !! (m1, m2) = Some p ∧
     avoidance_dict data !! (m2, m1) = Some p) ∧
  Forall (λ r, ∃ msg, r = Info msg) log.
Proof.
  intros Hload Hparsed.
  pose proof (load_data_avoidance _ _ _ _ _ _ _ _ Hload) as Hav.
  pose proof (load_data_log _ _ _ _ _ _ _ _ Hload) as [msg Hlog].
  simpl in Hav, Hlog.
  rewrite (avoidance_rows_all _ _ ∅ Hparsed) in Hav, Hlog.
  simpl in Hav, Hlog. split_and!.
  - intros a b p. rewrite Hav.
    intros [([[m1 m2] p'] & Hin & <- & [[= -> ->] | [= -> ->]]) | Hempty]%stored_from;
      [by left | by right | by rewrite lookup_empty in Hempty].
  - intros pre m1 m2 p post -> Hpost. rewrite Hav, !foldl_app. simpl.
    rewrite !stored_untouched.
    + unfold store_pair. simpl. rewrite !lookup_insert.
      split; repeat case_decide; simplify_eq; done.
    + intros t [H1 H2]%Hpost. split; congruence.
    + done.
  - rewrite Hlog. repeat constructor; by eexists.
Qed.

Lemma avoidance_map_of_rows_witness :
  Sample.load (Some (Ok Sample.avoidance)) =
    Ok (Sample.data (Some (Ok Sample.avoidance)),
        Sample.log (Some (Ok Sample.avoidance))) ∧
  parsed_as (rows Sample.avoidance) [(1, 2, Fnum (inject_Z 50))] ∧
  avoidance_dict (Sample.data (Some (Ok Sample.avoidance))) !! (1, 2) =
    Some (Fnum (inject_Z 50)) ∧
  avoidance_dict (Sample.data (Some (Ok Sample.avoidance))) !! (2, 1) =
    Some (Fnum (inject_Z 50)).
Proof.
  assert (Sample.load (Some (Ok Sample.avoidance)) =
    Ok (Sample.data (Some (Ok Sample.avoidance)),
        Sample.log (Some (Ok Sample.avoidance)))) as Hload
    by (apply load_loaded; vm_compute; reflexivity).
  assert (parsed_as (rows Sample.avoidance) [(1, 2, Fnum (inject_Z 50))])
    as Hparsed by (repeat constructor).
  split; [exact Hload|]. split; [exact Hparsed|].
  refine (proj1 (proj2 (avoidance_map_of_rows DataLoader.int_sorted_unique
            DataLoader.__init__ (Ok Sample.skills) (Ok Sample.schedule)
            (Ok Sample.costs) Sample.avoidance _ _ _ Hload Hparsed))
          [] 1 2 (Fnum (inject_Z 50)) [] eq_refl _).
  intros t Ht. clear -Ht. by apply elem_of_nil in Ht.
Defined.

(** ** Config.__init__ *)


(** ** The roster sheet *)

(** X18. The position written in a row of the roster agrees with its
    three skill boxes: "Inspector" when the mechanic acts as inspector,
    otherwise "Avionic" exactly when the avionics box is ticked and the
    airframe and engine boxes are not both ticked, and "Mechanic" in every
    other case, also for a mechanic without any skill. *)
Theorem position_agrees_with_boxes m (inspector : bool) (d : gmap string Z) :
  ExcelGenerator.get_position m inspector d =
    (if inspector then "Inspector"
     else if ExcelGenerator.has_skill_type m "_av" d &&
             negb (ExcelGenerator.has_skill_type m "_af" d &&
                   ExcelGenerator.has_skill_type m "_r" d)
          then "Avionic" else "Mechanic").
Proof.
  unfold ExcelGenerator.get_position, ExcelGenerator.has_skill_type.
  destruct inspector; [done|]. simpl.
  repeat case_bool_decide; reflexivity.
Qed.

(** X19. The thirty day cells of a row: days 1 to 15 are ticked for
    group 1, days 16 to 30 for group 2, and no day is ticked for any other
    group. *)
Theorem day_cells_by_group (group : Z) :
  ExcelGenerator.day_cells group =
    (if bool_decide (group = 1) then replicate 15 "☑" ++ replicate 15 "☐"
     else if bool_decide (group = 2)
          then replicate 15 "☐" ++ replicate 15 "☑"
          else replicate 30 "☐").
Proof.
  unfold ExcelGenerator.day_cells.
  destruct (decide (group = 1)) as [->|H1]; [vm_compute; reflexivity|].
  destruct (decide (group = 2)) as [->|H2]; [vm_compute; reflexivity|].
  rewrite !bool_decide_false by done.
  transitivity ((λ _ : Z, "☐") <$> seqZ 1 30); [|vm_compute; reflexivity].
  apply list_fmap_ext. intros i day _. rewrite bool_decide_false; [done | lia].
Qed.

(** A loop with [break]: when it ends with the flag set, some element set
    it. *)
Lemma for_fold_flag {A} (body : A → result bool) (l : list A) :
  for_fold (λ (flag : bool) a, if flag then Ok true else body a) l false
    = Ok true →
  ∃ a, a ∈ l ∧ body a = Ok true.
Proof.
  induction l as [|a l IH]; simpl; [done|].
  intros ([|] & Ha & Hrest)%bind_Ok.
  - exists a. split; [left | done].
  - destruct (IH Hrest) as (a' & ? & ?). exists a'. split; [by right | done].
Qed.

(** X20. For an assignment at a base other than 1, 2, 3 the grouping
    key is the base id itself, no letter; with an inspector column and a
    schedule whose first row has a base id, the inspector check then takes
    the first element of an empty list and raises [IndexError]. *)
Theorem inspector_check_off_map b shift_num mechanic_id base_assignments
    mechanic_skills mechanic_inspector_skills inspector_req_columns df
    row rest k :
  b ∉ [1; 2; 3] →
  inspector_req_columns ≠ [] →
  rows df = row :: rest →
  subscript row "base_id" ≫= py_int = Ok k →
  ExcelGenerator.base_letter ExcelGenerator.__init__ b = ExcelGenerator.Id b ∧
  ExcelGenerator.is_inspector ExcelGenerator.__init__
    (ExcelGenerator.base_letter ExcelGenerator.__init__ b) shift_num
    mechanic_id base_assignments mechanic_skills mechanic_inspector_skills
    inspector_req_columns df = Raise (OtherError "IndexError").
Proof.
  intros Hb Hirc Hrows Hk.
  assert (ExcelGenerator.base_letter ExcelGenerator.__init__ b =
          ExcelGenerator.Id b) as Hkey.
  { unfold ExcelGenerator.base_letter.
    rewrite (not_elem_of_list_to_map_1 _ b); [done|]. exact Hb. }
  split; [done|]. rewrite Hkey. unfold ExcelGenerator.is_inspector.
  rewrite bool_decide_true by done. rewrite Hrows. simpl. rewrite Hk. simpl.
  reflexivity.
Qed.

Lemma inspector_check_off_map_witness :
  (4 ∉ [1; 2; 3]) ∧
  (["aw139_af_inspec"] ≠ []) ∧
  subscript Sample.day_row "base_id" ≫= py_int = Ok 1 ∧
  ExcelGenerator.is_inspector ExcelGenerator.__init__
    (ExcelGenerator.base_letter ExcelGenerator.__init__ 4) 1 1 [] ∅ ∅
    ["aw139_af_inspec"] Sample.schedule = Raise (OtherError "IndexError").
Proof.
  assert (4 ∉ [1; 2; 3]) as H1 by by_evaluation.
  assert (["aw139_af_inspec"] ≠ []) as H2 by discriminate.
  assert (subscript Sample.day_row "base_id" ≫= py_int = Ok 1) as H3
    by (vm_compute; reflexivity).
  split_and!; [exact H1 | exact H2 | exact H3 |].
  exact (proj2 (inspector_check_off_map 4 1 1 [] ∅ ∅ ["aw139_af_inspec"]
                  Sample.schedule Sample.day_row [Sample.night_row] 1
                  H1 H2 eq_refl H3)).
Defined.

(** X21. When the inspector check answers yes, the schedule has a row at
    the base and shift of the section, whatever its period, with a positive
    requirement in an inspector column for which the mechanic holds the
    inspector skill, and another mechanic listed in the same section holds
    the regular skill. *)
Theorem inspector_check_sound self key shift_num mechanic_id base_assignments
    mechanic_skills mechanic_inspector_skills inspector_req_columns df :
  ExcelGenerator.is_inspector self key shift_num mechanic_id base_assignments
    mechanic_skills mechanic_inspector_skills inspector_req_columns df
    = Ok true →
  ∃ row k col a,
    row ∈ rows df ∧
    ExcelGenerator.base_of_letter self key = Ok k ∧
    subscript row "base_id" ≫= py_int = Ok k ∧
    subscript row "shift" ≫= py_int = Ok shift_num ∧
    col ∈ inspector_req_columns ∧ col ∈ columns df ∧ positive_cell row col ∧
    ExcelGenerator.listed_skill mechanic_inspector_skills mechanic_id col
      = true ∧
    a ∈ base_assignments ∧
    ExcelGenerator.info_mechanic_id a ≠ mechanic_id ∧
    ExcelGenerator.listed_skill mechanic_skills
      (ExcelGenerator.info_mechanic_id a) (regular_skill col) = true.
Proof.
  unfold ExcelGenerator.is_inspector. case_bool_decide as Hirc; [|done].
  intros (row & Hrow & Hbody)%for_fold_flag.
  apply bind_Ok in Hbody as (base_id & Hbase & Hbody).
  apply bind_Ok in Hbody as (k & Hk & Hbody).
  apply bind_Ok in Hbody as (here & Hhere & Hbody).
  destruct here; [|done].
  case_bool_decide as Heq; [|done]. subst base_id.
  apply bind_Ok in Hhere as (shift & Hshift & [= Hs]).
  apply bool_decide_eq_true in Hs. subst shift.
  apply for_fold_flag in Hbody as (col & Hcol & Hbody).
  apply bind_Ok in Hbody as (active & Hactive & Hbody).
  apply inspector_required_Ok in Hactive.
  destruct active; [|done].
  destruct Hactive as [[Hincol Hpos] _]; [done|].
  destruct (ExcelGenerator.listed_skill mechanic_inspector_skills mechanic_id col)
    eqn:Hins; [|done].
  injection Hbody as Hothers. apply bool_decide_eq_true in Hothers.
  unfold ExcelGenerator.other_mechanics in Hothers.
  destruct (filter _ base_assignments) as [|a others] eqn:Hfilter; [done|].
  assert (a ∈ filter (λ a, ExcelGenerator.info_mechanic_id a ≠ mechanic_id ∧
                           ExcelGenerator.listed_skill mechanic_skills
                             (ExcelGenerator.info_mechanic_id a)
                             (remove_occurrences "_inspec" 0 col) = true)
                  base_assignments) as Ha by (rewrite Hfilter; left).
  apply list_elem_of_filter in Ha as [[Hne Hsk] Ha].
  exists row, k, col, a. split_and!; done.
Qed.

Lemma unmapped_base_costs_nothing_witness :
  Sample.far_load = Ok (Sample.far_data, Sample.far_log) ∧
  Sample.far_build = Ok (Sample.far_built.1, Sample.far_built.2) ∧
  1 ∈ mechanics Sample.far_data ∧ 4 ∈ bases Sample.far_data ∧
  1 ∈ periods Sample.far_data ∧ 1 ∈ shifts Sample.far_data ∧
  (4 ∉ [1; 2; 3]) ∧
  cost_dict Sample.far_data !! (1, 4) = None ∧
  objective (Optimizer.m_solver Sample.far_built.2) !! X 1 4 1 1
    = Some (Fnum 0).
Proof.
  assert (Sample.far_load = Ok (Sample.far_data, Sample.far_log)) as Hload.
  { unfold Sample.far_data, Sample.far_log.
    assert ((if Sample.far_load is Ok _ then true else false) = true) as Hok
      by (vm_compute; reflexivity).
    destruct Sample.far_load as [[??]|]; [reflexivity | discriminate]. }
  assert (Sample.far_build = Ok (Sample.far_built.1, Sample.far_built.2))
    as Hbuild.
  { unfold Sample.far_built.
    assert ((if Sample.far_build is Ok _ then true else false) = true) as Hok
      by (vm_compute; reflexivity).
    destruct Sample.far_build as [[??]|]; [reflexivity | discriminate]. }
  assert (1 ∈ mechanics Sample.far_data) as H1 by by_evaluation.
  assert (4 ∈ bases Sample.far_data) as H2 by by_evaluation.
  assert (1 ∈ periods Sample.far_data) as H3 by by_evaluation.
  assert (1 ∈ shifts Sample.far_data) as H4 by by_evaluation.
  assert (4 ∉ [1; 2; 3]) as H5 by by_evaluation.
  split_and!; [exact Hload | exact Hbuild | exact H1 | exact H2 | exact H3
              | exact H4 | exact H5 | |].
  - exact (proj1 (unmapped_base_costs_nothing DataLoader.int_sorted_unique
             (Ok Sample.skills) (Ok Sample.far_schedule) (Ok Sample.costs)
             None _ _ (λ _, true) Sample.optimizer _ _ 1 4 1 1
             Hload Hbuild H1 H2 H3 H4 H5)).
  - exact (proj2 (unmapped_base_costs_nothing DataLoader.int_sorted_unique
             (Ok Sample.skills) (Ok Sample.far_schedule) (Ok Sample.costs)
             None _ _ (λ _, true) Sample.optimizer _ _ 1 4 1 1
             Hload Hbuild H1 H2 H3 H4 H5)).
Defined.

Lemma inspector_check_sound_witness :
  ExcelGenerator.is_inspector ExcelGenerator.__init__
    (ExcelGenerator.Letter "A") 1 1 Sample.day_crew
    (Optimizer.m_mechanic_skills (Sample.built None).2)
    (Optimizer.m_mechanic_inspector_skills (Sample.built None).2)
    ["aw139_af_inspec"] Sample.schedule = Ok true ∧
  ∃ row k col a,
    row ∈ rows Sample.schedule ∧
    ExcelGenerator.base_of_letter ExcelGenerator.__init__
      (ExcelGenerator.Letter "A") = Ok k ∧
    subscript row "base_id" ≫= py_int = Ok k ∧
    subscript row "shift" ≫= py_int = Ok 1 ∧
    col ∈ ["aw139_af_inspec"] ∧ col ∈ columns Sample.schedule ∧
    positive_cell row col ∧
    ExcelGenerator.listed_skill
      (Optimizer.m_mechanic_inspector_skills (Sample.built None).2) 1 col
      = true ∧
    a ∈ Sample.day_crew ∧
    ExcelGenerator.info_mechanic_id a ≠ 1 ∧
    ExcelGenerator.listed_skill
      (Optimizer.m_mechanic_skills (Sample.built None).2)
      (ExcelGenerator.info_mechanic_id a) (regular_skill col) = true.
Proof.
  assert (ExcelGenerator.is_inspector ExcelGenerator.__init__
            (ExcelGenerator.Letter "A") 1 1 Sample.day_crew
            (Optimizer.m_mechanic_skills (Sample.built None).2)
            (Optimizer.m_mechanic_inspector_skills (Sample.built None).2)
            ["aw139_af_inspec"] Sample.schedule = Ok true) as H
    by (vm_compute; reflexivity).
  split; [exact H|].
  exact (inspector_check_sound _ _ _ _ _ _ _ _ _ H).
Defined.

(** ** The penalty reported by the application *)

Lemma accounting_loop sv ad yd (l : list (Z * Z * Z * Z * Z)) t :
  for_fold (λ t k,
      charged ←
        (if bool_decide (is_Some (yd !! k))
         then v ← subscript yd k; Ok (bool_decide (1 # 2 < sv v)%Q)
         else Ok false);
      if charged : bool then Ok (fadd t (penalty_at ad k)) else Ok t) l t =
  Ok (foldl (λ t k, fadd t (penalty_at ad k)) t
        (filter (λ k, charged sv yd k = true) l)).
Proof.
  revert t. induction l as [|k l IH]; intros t; simpl; [done|].
  assert ((if bool_decide (is_Some (yd !! k))
           then v ← subscript yd k; Ok (bool_decide (1 # 2 < sv v)%Q)
           else Ok false) = Ok (charged sv yd k)) as ->.
  { unfold charged, subscript. destruct (yd !! k) as [v|].
    - by rewrite bool_decide_true by by eexists.
    - by rewrite bool_decide_false by (by intros [? ?]). }
  simpl. rewrite filter_cons.
  destruct (charged sv yd k) eqn:Hc.
  - rewrite decide_True by done. simpl. apply IH.
  - rewrite decide_False by done. apply IH.
Qed.

Lemma total_avoidance_penalty_flat sv data yd :
  App.total_avoidance_penalty sv data yd =
  if bool_decide (avoidance_dict data ≠ ∅) && bool_decide (yd ≠ ∅)
  then Ok (foldl (λ t k, fadd t (penalty_at (avoidance_dict data) k)) (Fnum 0)
             (filter (λ k, charged sv yd k = true)
                (keys5 (elements (Optimizer.unique_pairs (avoidance_dict data)))
                   (bases data) (periods data) (shifts data))))
  else Ok (Fnum 0).
Proof.
  unfold App.total_avoidance_penalty.
  destruct (bool_decide (avoidance_dict data ≠ ∅) && bool_decide (yd ≠ ∅));
    [|done].
  cbv zeta. fold (Optimizer.unique_pairs (avoidance_dict data)).
  etrans.
  { apply (for_fold_ext _ (λ t p,
      for_fold (λ t b,
        for_fold (λ t g,
          for_fold (λ t s,
            charged ←
              (if bool_decide (is_Some (yd !! (p, b, g, s)))
               then v ← subscript yd (p, b, g, s);
                    Ok (bool_decide (1 # 2 < sv v)%Q)
               else Ok false);
            if charged : bool
            then Ok (fadd t (penalty_at (avoidance_dict data) (p, b, g, s)))
            else Ok t)
          (shifts data) t) (periods data) t) (bases data) t)).
    intros t [m1 m2] Hp.
    apply elem_of_unique_pairs in Hp as [[p Hp] _].
    rewrite (proj2 (subscript_Ok _ _ _) Hp). simpl.
    unfold penalty_at. simpl. rewrite Hp. reflexivity. }
  rewrite for_fold_nested, for_fold_nested, for_fold_nested.
  rewrite <- accounting_loop. apply for_fold_ext.
  intros t [[[[m1 m2] b] g] s] _. reflexivity.
Qed.

(** X22. The avoidance penalty reported by the application is the sum of
    the penalties of the keys, a pair and a slot, whose penalty variable is
    above 0.5; in a feasible solution each of these keys is a pair
    [m1 < m2] of the avoidance map whose two mechanics are both assigned at
    that slot: no penalty is reported for a pair that does not work
    together. *)
Theorem reported_penalty_only_together available self data self' model val :
  Optimizer.create_model available self data = Ok (self', model) →
  feasible (Optimizer.m_solver model) val →
  App.total_avoidance_penalty (λ v, inject_Z (val v)) data
    (Optimizer.m_avoidance_vars model) =
  Ok (foldl (λ t k, fadd t (penalty_at (avoidance_dict data) k)) (Fnum 0)
        (filter (λ k, charged (λ v, inject_Z (val v))
                        (Optimizer.m_avoidance_vars model) k = true)
           (keys5 (elements (Optimizer.unique_pairs (avoidance_dict data)))
              (bases data) (periods data) (shifts data)))) ∧
  ∀ m1 m2 b g s,
    (m1, m2, b, g, s) ∈
      filter (λ k, charged (λ v, inject_Z (val v))
                     (Optimizer.m_avoidance_vars model) k = true)
        (keys5 (elements (Optimizer.unique_pairs (avoidance_dict data)))
           (bases data) (periods data) (shifts data)) →
    is_Some (avoidance_dict data !! (m1, m2)) ∧ m1 < m2 ∧
    val (Y m1 m2 b g s) = 1 ∧
    val (X m1 b g s) = 1 ∧ val (X m2 b g s) = 1.
Proof.
  intros Hrun Hfeas. split.
  - rewrite total_avoidance_penalty_flat.
    destruct (bool_decide (avoidance_dict data ≠ ∅)) eqn:Had; simpl.
    + destruct (bool_decide (Optimizer.m_avoidance_vars model ≠ ∅)) eqn:Hyd;
        [done|].
      apply bool_decide_eq_false in Hyd.
      apply create_model_inv in Hrun
        as (c1 & c2 & c3 & c4 & c5 & sv1 & sv2 & sv3 & _ & _ & Hy & _).
      rewrite Hy in Hyd.
      destruct (keys5 _ (bases data) (periods data) (shifts data))
        as [|k ks] eqn:Hks; [done|].
      destruct Hyd. intros Hempty.
      assert (y_dict (k :: ks) !! k = Some (Y5 k)) as Hk
        by (apply lookup_y_dict; split; [left | done]).
      by rewrite Hempty, lookup_empty in Hk.
    + apply bool_decide_eq_false in Had. apply dec_stable in Had.
      by rewrite Had, unique_pairs_empty.
  - intros m1 m2 b g s [Hch Hk]%list_elem_of_filter.
    apply elem_of_keys5 in Hk as ([Hpair Hlt]%elem_of_unique_pairs & Hb & Hg & Hs).
    destruct (linearization_in_model _ _ _ _ _ m1 m2 b g s Hrun Hpair Hlt Hb Hg
                Hs) as (H1 & H2 & _).
    destruct (avoid_y_le_x_sound val m1 m2 b g s (proj2 Hfeas _ H1)
                (proj2 Hfeas _ H2)) as [Hle1 Hle2].
    destruct (avoidance_keys _ _ _ _ _ m1 m2 b g s Hrun Hpair Hlt Hb Hg Hs)
      as (_ & _ & Hx1%(proj1 Hfeas) & Hx2%(proj1 Hfeas) & Hyb%(proj1 Hfeas)).
    simpl in Hx1, Hx2, Hyb.
    assert (val (Y m1 m2 b g s) = 1) as Hy1.
    { unfold charged in Hch.
      apply create_model_inv in Hrun
        as (c1 & c2 & c3 & c4 & c5 & sv1 & sv2 & sv3 & _ & _ & Hy & _).
      rewrite Hy in Hch.
      rewrite (proj2 (lookup_y_dict _ (m1, m2, b, g, s) (Y m1 m2 b g s)))
        in Hch by (split; [by apply elem_of_keys5; rewrite elem_of_unique_pairs
                          | done]).
      apply bool_decide_eq_true in Hch. unfold Qlt in Hch. simpl in Hch. lia. }
    split_and!; [done | done | done | lia | lia].
Qed.

(** ** create_model returns on well-formed input *)

Lemma for_fold_total {A S} (body : S → A → result S) (l : list A) s :
  (∀ s a, a ∈ l → ∃ s', body s a = Ok s') → ∃ s', for_fold body l s = Ok s'.
Proof.
  revert s. induction l as [|a l IH]; intros s Hl; simpl; [eauto|].
  destruct (Hl s a) as [s1 ->]; [left|]. simpl.
  apply IH. intros. apply Hl. by right.
Qed.

Lemma bind_total {A B} (r : result A) (f : A → result B) :
  (∃ a, r = Ok a) → (∀ a, ∃ b, f a = Ok b) → ∃ b, r ≫= f = Ok b.
Proof. intros [a ->] Hf. apply Hf. Qed.

Lemma single_assignment_total ks bs gs ss m :
  (∀ b g s, b ∈ bs → g ∈ gs → s ∈ ss → (m, b, g, s) ∈ ks) →
  ∃ r, Optimizer.single_assignment (x_dict ks) bs gs ss m = Ok r.
Proof.
  intros Hk. unfold Optimizer.single_assignment.
  rewrite for_fold_nested, for_fold_nested.
  destruct (for_fold_total
    (λ c p, v ← subscript (x_dict ks) (m, p.1.1, p.1.2, p.2);
            Ok (SetCoefficient c v 1))
    (pairs (pairs bs gs) ss)
    (Constraint (Fin 0) (Fin 1)
       ("mechanic_" +:+ pretty m +:+ "_single_assignment"))) as [c Hc].
  { intros c [[b g] s] Hp. rewrite !elem_of_pairs in Hp. simpl.
    rewrite (proj2 (subscript_x_dict ks (m, b, g, s) (X m b g s)));
      [simpl; eauto|].
    split; [apply Hk; tauto | done]. }
  rewrite Hc. simpl. eauto.
Qed.

Lemma skills_step_total df row m st p :
  (∀ name, name ∈ skill_columns ++ inspector_skill_columns →
     name ∈ columns df → ∃ z, subscript row name ≫= py_int = Ok z) →
  p ∈ pairs Optimizer.aircraft_types Optimizer.skill_types →
  ∃ st', skills_step df row m st p = Ok st'.
Proof.
  intros Hcells Hp. destruct st as [sk isk]. unfold skills_step.
  assert (∃ sk', (if bool_decide (p.1 +:+ p.2 ∈ columns df)
                  then v ← subscript row (p.1 +:+ p.2) ≫= py_int;
                       Ok (alter (insert (p.1 +:+ p.2) v) m sk)
                  else Ok sk) = Ok sk') as [sk' ->].
  { case_bool_decide as Hcol; [|eauto].
    destruct (Hcells (p.1 +:+ p.2)) as [z ->]; [|done|simpl; eauto].
    apply elem_of_app. left. unfold skill_columns.
    apply list_elem_of_fmap. by exists p. }
  simpl.
  assert (∃ isk', (if bool_decide (p.1 +:+ p.2 +:+ "_inspec" ∈ columns df)
                   then v ← subscript row (p.1 +:+ p.2 +:+ "_inspec") ≫= py_int;
                        Ok (alter (insert (p.1 +:+ p.2 +:+ "_inspec") v) m isk)
                   else Ok isk) = Ok isk') as [isk' ->].
  { case_bool_decide as Hcol; [|eauto].
    destruct (Hcells (p.1 +:+ p.2 +:+ "_inspec")) as [z ->];
      [|done|simpl; eauto].
    apply elem_of_app. right. unfold inspector_skill_columns.
    apply list_elem_of_fmap. by exists p. }
  simpl. eauto.
Qed.

Lemma read_skills_total df :
  (∀ row, row ∈ rows df →
     (∃ m, subscript row "mechanic_id" ≫= py_int = Ok m) ∧
     (∀ name, name ∈ skill_columns ++ inspector_skill_columns →
        name ∈ columns df → ∃ z, subscript row name ≫= py_int = Ok z)) →
  ∃ r, Optimizer.read_skills df = Ok r.
Proof.
  intros Hrows. rewrite read_skills_rows. apply for_fold_total.
  intros [sk isk] row [[m Hm] Hcells]%Hrows. unfold read_skills_row.
  rewrite Hm. cbn [mbind result_bind]. rewrite for_fold_nested.
  rewrite (for_fold_ext _ (skills_step df row m))
    by (intros [??] [??] _; reflexivity).
  apply for_fold_total. intros st p Hp. by apply skills_step_total.
Qed.

Lemma has_skill_total skills m name :
  is_Some (skills !! m) → ∃ b, Optimizer.has_skill skills m name = Ok b.
Proof.
  intros [d Hd]. unfold Optimizer.has_skill.
  rewrite (proj2 (subscript_Ok skills m d) Hd). simpl. eauto.
Qed.

Lemma coverage_total ks skills ms b g s name c :
  (∀ m, m ∈ ms → is_Some (skills !! m) ∧ (m, b, g, s) ∈ ks) →
  ∃ c', Optimizer.coverage (x_dict ks) skills ms b g s name c = Ok c'.
Proof.
  intros Hms. unfold Optimizer.coverage. apply for_fold_total.
  intros c0 m [Hsk Hk]%Hms.
  destruct (has_skill_total skills m name Hsk) as [skilled ->]. simpl.
  destruct skilled; [|eauto].
  rewrite (proj2 (subscript_x_dict ks (m, b, g, s) (X m b g s)));
    [simpl; eauto | done].
Qed.

Lemma gt_zero_total (row : gmap string cell) col f :
  row !! col = Some (Num f) → ∃ b, subscript row col ≫= gt_zero = Ok b.
Proof.
  intros Hc. rewrite (proj2 (subscript_Ok row col _) Hc). simpl.
  destruct f; eauto.
Qed.

Lemma skill_coverage_total ks skills ms df row b g s :
  Optimizer.row_slot row = Ok (b, g, s) →
  (∀ m, m ∈ ms → is_Some (skills !! m) ∧ (m, b, g, s) ∈ ks) →
  (∀ col, col ∈ columns df → col ∈ Optimizer.aircraft_types →
     ∃ f, row !! col = Some (Num f)) →
  ∃ r, Optimizer.skill_coverage (x_dict ks) skills ms df row = Ok r.
Proof.
  intros Hslot Hms Hcells. unfold Optimizer.skill_coverage.
  rewrite Hslot. cbn [mbind result_bind]. apply for_collect_total.
  intros aircraft Ha.
  assert (∃ demanded,
    (if bool_decide (aircraft ∈ columns df)
     then subscript row aircraft ≫= gt_zero else Ok false) = Ok demanded)
    as [demanded ->].
  { case_bool_decide as Hcol; [|eauto].
    destruct (Hcells aircraft Hcol Ha) as [f Hf]. by eapply gt_zero_total. }
  cbn [mbind result_bind]. destruct demanded; [|eauto].
  apply for_collect_total. intros skill _.
  destruct (coverage_total ks skills ms b g s (aircraft +:+ skill)
    (Constraint (Fin 1) PosInf
       ("skill_" +:+ (aircraft +:+ skill) +:+ Optimizer.slot_suffix b g s))
    Hms) as [c ->].
  simpl. eauto.
Qed.

Lemma inspector_required_total df (row : gmap string cell) col :
  (col ∈ columns df → ∃ f, row !! col = Some (Num f)) →
  ∃ b, Optimizer.inspector_required df row col = Ok b.
Proof.
  intros Hcell. unfold Optimizer.inspector_required.
  case_bool_decide as Hcol; [|eauto].
  destruct (Hcell Hcol) as [f Hf].
  rewrite (proj2 (subscript_Ok row col _) Hf). simpl.
  destruct f; simpl; eauto.
Qed.

Lemma inspector_coverage_total ks iskills ms df irc row b g s :
  Optimizer.row_slot row = Ok (b, g, s) →
  (∀ m, m ∈ ms → is_Some (iskills !! m) ∧ (m, b, g, s) ∈ ks) →
  (∀ col, col ∈ irc → col ∈ columns df → ∃ f, row !! col = Some (Num f)) →
  ∃ r, Optimizer.inspector_coverage (x_dict ks) iskills ms df irc row = Ok r.
Proof.
  intros Hslot Hms Hcells. unfold Optimizer.inspector_coverage.
  rewrite Hslot. simpl. apply for_collect_total. intros col Hcol.
  destruct (inspector_required_total df row col (Hcells col Hcol))
    as [active ->].
  simpl. destruct active; [|eauto].
  destruct (coverage_total ks iskills ms b g s col
    (Constraint (Fin 1) PosInf
       ("inspector_" +:+ col +:+ Optimizer.slot_suffix b g s)) Hms) as [c ->].
  simpl. eauto.
Qed.

Lemma other_mechanics_total skills ms m_inspector name :
  (∀ m, m ∈ ms → is_Some (skills !! m)) →
  ∃ others,
    Optimizer.other_mechanics_with_skill skills ms m_inspector name = Ok others.
Proof.
  intros Hms. unfold Optimizer.other_mechanics_with_skill.
  apply for_collect_total. intros m Hm. case_bool_decide; [|eauto].
  destruct (has_skill_total skills m name (Hms m Hm)) as [skilled ->].
  simpl. eauto.
Qed.

Lemma no_self_inspection_for_total ks skills iskills ms b g s col m_inspector :
  (∀ m, m ∈ ms → is_Some (skills !! m) ∧ is_Some (iskills !! m) ∧
                 (m, b, g, s) ∈ ks) →
  m_inspector ∈ ms →
  ∃ r, Optimizer.no_self_inspection_for (x_dict ks) skills iskills ms b g s col
         m_inspector = Ok r.
Proof.
  intros Hms Hmi. unfold Optimizer.no_self_inspection_for. cbv zeta.
  destruct (Hms m_inspector Hmi) as (_ & Hisk & Hki).
  destruct (has_skill_total iskills m_inspector col Hisk) as [inspects ->].
  simpl. destruct inspects; [|eauto].
  destruct (other_mechanics_total skills ms m_inspector
              (remove_occurrences "_inspec" 0 col)) as [others Hothers].
  { intros m Hm. by destruct (Hms m Hm). }
  rewrite Hothers. simpl.
  pose proof (λ m, proj1 (other_mechanics_Ok _ _ _ _ _ m Hothers)) as Hin.
  destruct others as [|m0 others'] eqn:Heq; [eauto|]. rewrite <- Heq in *.
  rewrite (proj2 (subscript_x_dict ks (m_inspector, b, g, s)
                    (X m_inspector b g s))) by done.
  cbn [mbind result_bind]. apply bind_total; [|eauto].
  apply for_fold_total.
  intros c m (Hm & _)%Hin. destruct (Hms m Hm) as (_ & _ & Hk).
  rewrite (proj2 (subscript_x_dict ks (m, b, g, s) (X m b g s))) by done.
  simpl. eauto.
Qed.

Lemma no_self_inspection_total ks skills iskills ms df irc row b g s :
  Optimizer.row_slot row = Ok (b, g, s) →
  (∀ m, m ∈ ms → is_Some (skills !! m) ∧ is_Some (iskills !! m) ∧
                 (m, b, g, s) ∈ ks) →
  (∀ col, col ∈ irc → col ∈ columns df → ∃ f, row !! col = Some (Num f)) →
  ∃ r, Optimizer.no_self_inspection (x_dict ks) skills iskills ms df irc row
       = Ok r.
Proof.
  intros Hslot Hms Hcells. unfold Optimizer.no_self_inspection.
  rewrite Hslot. simpl. apply for_collect_total. intros col Hcol.
  destruct (inspector_required_total df row col (Hcells col Hcol))
    as [active ->].
  simpl. destruct active; [|eauto].
  apply for_collect_total. intros m Hm.
  by apply no_self_inspection_for_total.
Qed.

Lemma linearization_total ks yks bs gs ss m1 m2 :
  (∀ b g s, b ∈ bs → g ∈ gs → s ∈ ss →
     (m1, b, g, s) ∈ ks ∧ (m2, b, g, s) ∈ ks ∧ (m1, m2, b, g, s) ∈ yks) →
  ∃ r, Optimizer.linearization (x_dict ks) (y_dict yks) bs gs ss (m1, m2)
       = Ok r.
Proof.
  intros Hk. unfold Optimizer.linearization.
  apply for_collect_total. intros b Hb.
  apply for_collect_total. intros g Hg.
  apply for_collect_total. intros s Hs.
  destruct (Hk b g s Hb Hg Hs) as (H1 & H2 & Hy).
  rewrite (proj2 (subscript_y_dict yks (m1, m2, b, g, s) (Y m1 m2 b g s)))
    by done.
  simpl.
  rewrite (proj2 (subscript_x_dict ks (m1, b, g, s) (X m1 b g s))) by done.
  simpl.
  rewrite (proj2 (subscript_x_dict ks (m2, b, g, s) (X m2 b g s))) by done.
  simpl. eauto.
Qed.

Lemma movement_costs_total ks cd ms bs gs ss sv :
  (∀ m b g s, m ∈ ms → b ∈ bs → g ∈ gs → s ∈ ss → (m, b, g, s) ∈ ks) →
  ∃ sv', Optimizer.movement_costs (x_dict ks) cd ms bs gs ss sv = Ok sv'.
Proof.
  intros Hk. unfold Optimizer.movement_costs.
  apply for_fold_total. intros s1 m Hm.
  apply for_fold_total. intros s2 b Hb. cbv zeta.
  apply for_fold_total. intros s3 g Hg.
  apply for_fold_total. intros s4 s Hs.
  rewrite (proj2 (subscript_x_dict ks (m, b, g, s) (X m b g s)));
    [simpl; eauto|].
  split; [by apply Hk | done].
Qed.

Lemma avoidance_penalties_total ad yd bs gs ss sv pair :
  is_Some (ad !! pair) →
  ∃ sv', Optimizer.avoidance_penalties ad yd bs gs ss sv pair = Ok sv'.
Proof.
  intros [p Hp]. destruct pair as [m1 m2]. unfold Optimizer.avoidance_penalties.
  rewrite (proj2 (subscript_Ok ad (m1, m2) p) Hp). simpl.
  apply for_fold_total. intros s1 b _.
  apply for_fold_total. intros s2 g _.
  apply for_fold_total. intros s3 s _.
  case_bool_decide as Hy; [|eauto].
  destruct Hy as [v Hv].
  rewrite (proj2 (subscript_Ok yd _ v) Hv). simpl. eauto.
Qed.

(** X23. On well-formed input [create_model] returns a model: it raises
    nothing when a backend is available, the cells it converts hold
    numbers, every mechanic of the pool has a row in the skill table, the
    rows of the schedule name a base, a period and a shift of the lists,
    and the avoidance pairs are mechanics of the pool. *)
Theorem create_model_returns available self data :
  well_formed available self data →
  ∃ self' model,
    Optimizer.create_model available self data = Ok (self', model).
Proof.
  intros (Hav & Hskills & Hpool & Hsched & Hpairs).
  unfold Optimizer.create_model. cbv zeta.
  assert (∃ sv0 name,
    (if available (Optimizer.solver_name self)
     then Ok (Optimizer.new_solver (Optimizer.solver_name self),
              Optimizer.solver_name self)
     else if available "CBC"
          then Ok (Optimizer.new_solver "CBC", "CBC")
          else Raise AttributeError) = Ok (sv0, name)) as (sv0 & name & ->).
  { destruct (available (Optimizer.solver_name self)); [eauto|].
    destruct Hav as [? | ->]; [done | eauto]. }
  simpl. rewrite create_x_spec.
  set (ks := keys4 (mechanics data) (bases data) (periods data) (shifts data)).
  fold (x_dict ks).
  destruct (for_collect_total
    (Optimizer.single_assignment (x_dict ks) (bases data) (periods data)
       (shifts data)) (mechanics data)) as [c1 ->].
  { intros m Hm. apply single_assignment_total. intros b g s Hb Hg Hs.
    by apply elem_of_keys4. }
  simpl.
  destruct (read_skills_total (mechanic_skills_df data) Hskills)
    as [[skills iskills] Hread].
  rewrite Hread. simpl.
  assert (∀ m b g s, m ∈ mechanics data → b ∈ bases data → g ∈ periods data →
            s ∈ shifts data →
            is_Some (skills !! m) ∧ is_Some (iskills !! m) ∧ (m, b, g, s) ∈ ks)
    as Hms.
  { intros m b g s Hm Hb Hg Hs. rewrite read_skills_rows in Hread.
    destruct (read_skills_dom _ _ _ _ _ _ m Hread) as [H1 H2].
    split_and!; [apply H1; right; by apply Hpool
                |apply H2; right; by apply Hpool
                |by apply elem_of_keys4]. }
  destruct (for_collect_total
    (Optimizer.skill_coverage (x_dict ks) skills (mechanics data)
       (base_schedule_df data)) (rows (base_schedule_df data))) as [c2 ->].
  { intros row [(b & g & s & Hslot & Hb & Hg & Hs) Hcells]%Hsched.
    apply (skill_coverage_total ks skills _ _ row b g s Hslot).
    - intros m Hm. destruct (Hms m b g s Hm Hb Hg Hs) as (? & _ & ?). done.
    - intros col Hcol Ha. apply Hcells; [done | by left]. }
  simpl.
  set (irc := filter (λ col, endswith col "_inspec" = true)
                (columns (base_schedule_df data))).
  assert (∃ c3,
    (if bool_decide (irc ≠ [])
     then for_collect
            (Optimizer.inspector_coverage (x_dict ks) iskills (mechanics data)
               (base_schedule_df data) irc) (rows (base_schedule_df data))
     else Ok []) = Ok c3) as [c3 ->].
  { case_bool_decide; [|eauto]. apply for_collect_total.
    intros row [(b & g & s & Hslot & Hb & Hg & Hs) Hcells]%Hsched.
    apply (inspector_coverage_total ks iskills _ _ irc row b g s Hslot).
    - intros m Hm. destruct (Hms m b g s Hm Hb Hg Hs) as (_ & ? & ?). done.
    - intros col [Hend _]%list_elem_of_filter Hcol.
      apply Hcells; [done | by right]. }
  simpl.
  assert (∃ c4,
    (if bool_decide (irc ≠ [])
     then for_collect
            (Optimizer.no_self_inspection (x_dict ks) skills iskills
               (mechanics data) (base_schedule_df data) irc)
            (rows (base_schedule_df data))
     else Ok []) = Ok c4) as [c4 ->].
  { case_bool_decide; [|eauto]. apply for_collect_total.
    intros row [(b & g & s & Hslot & Hb & Hg & Hs) Hcells]%Hsched.
    apply (no_self_inspection_total ks skills iskills _ _ irc row b g s Hslot).
    - intros m Hm. by apply Hms.
    - intros col [Hend _]%list_elem_of_filter Hcol.
      apply Hcells; [done | by right]. }
  simpl.
  set (prs := elements (Optimizer.unique_pairs (avoidance_dict data))).
  set (yks := keys5 prs (bases data) (periods data) (shifts data)).
  match goal with
  | |- context [add_constraints ?sv c4] => set (sv4 := add_constraints sv c4)
  end.
  assert (∃ sv5 yd,
    (if bool_decide (avoidance_dict data ≠ ∅)
     then
       let '(solver, avoidance_vars) :=
         Optimizer.create_y prs (bases data) (periods data) (shifts data)
           (sv4, ∅) in
       cs ← for_collect
              (Optimizer.linearization (x_dict ks) avoidance_vars (bases data)
                 (periods data) (shifts data)) prs;
       Ok (add_constraints solver cs, avoidance_vars)
     else Ok (sv4, ∅)) = Ok (sv5, yd)) as (sv5 & yd & ->).
  { case_bool_decide; [|eauto]. rewrite create_y_spec. cbv beta iota.
    change (foldl (λ y k, <[k := Y5 k]> y) ∅
              (keys5 prs (bases data) (periods data) (shifts data)))
      with (y_dict yks).
    destruct (for_collect_total
      (Optimizer.linearization (x_dict ks) (y_dict yks) (bases data)
         (periods data) (shifts data)) prs) as [c5 ->]; [|simpl; eauto].
    intros [m1 m2] Hp. apply linearization_total. intros b g s Hb Hg Hs.
    pose proof Hp as [Hsome Hlt]%elem_of_unique_pairs.
    destruct (Hpairs m1 m2 Hsome Hlt) as [H1 H2].
    split_and!; [by apply elem_of_keys4.. | by apply elem_of_keys5]. }
  simpl.
  destruct (movement_costs_total ks (cost_dict data) (mechanics data)
              (bases data) (periods data) (shifts data) sv5) as [sv6 ->].
  { intros m b g s ? ? ? ?. by apply elem_of_keys4. }
  simpl.
  assert (∃ sv7,
    (if bool_decide (avoidance_dict data ≠ ∅) && bool_decide (yd ≠ ∅)
     then for_fold
            (Optimizer.avoidance_penalties (avoidance_dict data) yd
               (bases data) (periods data) (shifts data)) prs sv6
     else Ok sv6) = Ok sv7) as [sv7 ->].
  { destruct (_ && _); [|eauto]. apply for_fold_total.
    intros s1 [m1 m2] [Hsome _]%elem_of_unique_pairs.
    by apply avoidance_penalties_total. }
  simpl. eauto.
Qed.

Lemma sample_skills :
  mechanic_skills_df (Sample.data (Some (Ok Sample.avoidance))) = Sample.skills.
Proof. vm_compute. reflexivity. Qed.

Lemma sample_avoidance_dict :
  avoidance_dict (Sample.data (Some (Ok Sample.avoidance))) =
  store_pair ∅ (1, 2, Fnum (inject_Z 50)).
Proof. vm_compute. reflexivity. Qed.

Lemma sample_well_formed :
  well_formed (λ _, true) Sample.optimizer
    (Sample.data (Some (Ok Sample.avoidance))).
Proof.
  unfold well_formed.
  rewrite sample_skills, sample_schedule, sample_mechanics,
    sample_avoidance_dict.
  split_and!.
  - by left.
  - intros row Hrow.
    assert (Forall (λ row,
      (∃ m, subscript row "mechanic_id" ≫= py_int = Ok m) ∧
      Forall (λ name, name ∈ columns Sample.skills →
                      ∃ z, subscript row name ≫= py_int = Ok z)
        (skill_columns ++ inspector_skill_columns)) (rows Sample.skills))
      as Hall.
    { repeat apply Forall_cons_2; [..|apply Forall_nil_2];
        (split; [eexists; vm_compute; reflexivity|]);
        (repeat apply Forall_cons_2; [..|apply Forall_nil_2]);
        intros Hcol;
        first [eexists; vm_compute; reflexivity
              | exfalso; revert Hcol; by_evaluation]. }
    rewrite Forall_forall in Hall. destruct (Hall row Hrow) as [Hid Hcells].
    split; [done|]. intros name Hname. rewrite Forall_forall in Hcells.
    by apply Hcells.
  - intros m Hm.
    repeat (apply elem_of_cons in Hm as [-> | Hm]);
      [..|by apply elem_of_nil in Hm].
    + eexists. split; [left | vm_compute; reflexivity].
    + eexists. split; [right; left | vm_compute; reflexivity].
    + eexists. split; [right; right; left | vm_compute; reflexivity].
  - intros row Hrow.
    assert (Forall (λ row,
      (∃ b g s, Optimizer.row_slot row = Ok (b, g, s) ∧
         b ∈ bases (Sample.data (Some (Ok Sample.avoidance))) ∧
         g ∈ periods (Sample.data (Some (Ok Sample.avoidance))) ∧
         s ∈ shifts (Sample.data (Some (Ok Sample.avoidance)))) ∧
      Forall (λ col, ∃ f, row !! col = Some (Num f))
        (columns Sample.schedule)) (rows Sample.schedule)) as Hall.
    { repeat apply Forall_cons_2; [..|apply Forall_nil_2];
        (split;
         [eexists _, _, _; split; [vm_compute; reflexivity|];
          split_and!; by_evaluation
         |repeat apply Forall_cons_2; [..|apply Forall_nil_2];
          eexists; vm_compute; reflexivity]). }
    rewrite Forall_forall in Hall. destruct (Hall row Hrow) as [Hslot Hcells].
    split; [done|]. intros col Hcol _. rewrite Forall_forall in Hcells.
    by apply Hcells.
  - intros m1 m2 [p Hp] Hlt. unfold store_pair in Hp. simpl in Hp.
    rewrite !lookup_insert in Hp.
    repeat case_decide; simplify_eq;
      first [lia | by rewrite lookup_empty in Hp | split; by_evaluation].
Qed.

Lemma create_model_returns_witness :
  well_formed (λ _, true) Sample.optimizer
    (Sample.data (Some (Ok Sample.avoidance))) ∧
  ∃ self' model, Sample.build (Some (Ok Sample.avoidance)) = Ok (self', model).
Proof.
  split; [exact sample_well_formed|].
  exact (create_model_returns (λ _, true) Sample.optimizer
           (Sample.data (Some (Ok Sample.avoidance))) sample_well_formed).
Defined.

Lemma reported_penalty_only_together_witness :
  Sample.build (Some (Ok Sample.avoidance)) =
    Ok ((Sample.built (Some (Ok Sample.avoidance))).1,
        (Sample.built (Some (Ok Sample.avoidance))).2) ∧
  feasible (Optimizer.m_solver (Sample.built (Some (Ok Sample.avoidance))).2)
    Sample.charged_together ∧
  (1, 2, 1, 1, 1) ∈
    filter (λ k, charged (λ v, inject_Z (Sample.charged_together v))
                   (Optimizer.m_avoidance_vars
                      (Sample.built (Some (Ok Sample.avoidance))).2) k = true)
      (keys5 (elements (Optimizer.unique_pairs
                          (avoidance_dict
                             (Sample.data (Some (Ok Sample.avoidance))))))
         (bases (Sample.data (Some (Ok Sample.avoidance))))
         (periods (Sample.data (Some (Ok Sample.avoidance))))
         (shifts (Sample.data (Some (Ok Sample.avoidance))))) ∧
  Sample.charged_together (X 1 1 1 1) = 1 ∧
  Sample.charged_together (X 2 1 1 1) = 1.
Proof.
  assert (feasible
            (Optimizer.m_solver (Sample.built (Some (Ok Sample.avoidance))).2)
            Sample.charged_together) as Hfeas
    by (apply feasible_Forall; split; by_evaluation).
  assert ((1, 2, 1, 1, 1) ∈
    filter (λ k, charged (λ v, inject_Z (Sample.charged_together v))
                   (Optimizer.m_avoidance_vars
                      (Sample.built (Some (Ok Sample.avoidance))).2) k = true)
      (keys5 (elements (Optimizer.unique_pairs
                          (avoidance_dict
                             (Sample.data (Some (Ok Sample.avoidance))))))
         (bases (Sample.data (Some (Ok Sample.avoidance))))
         (periods (Sample.data (Some (Ok Sample.avoidance))))
         (shifts (Sample.data (Some (Ok Sample.avoidance)))))) as Hin
    by by_evaluation.
  split; [exact sample_built|]. split; [exact Hfeas|]. split; [exact Hin|].
  exact (proj2 (proj2 (proj2 (proj2 (reported_penalty_only_together (λ _, true)
           Sample.optimizer (Sample.data (Some (Ok Sample.avoidance))) _ _
           Sample.charged_together sample_built Hfeas) 1 2 1 1 1 Hin)))).
Defined.

(** ** The number of assignments *)

Lemma length_filter_filter {A} (P Q : A → Prop) `{∀ a, Decision (P a)}
    `{∀ a, Decision (Q a)} (l : list A) :
  (length (filter P (filter Q l)) ≤ length (filter P l))%nat.
Proof.
  induction l as [|a l IH]; [done|]. rewrite !filter_cons.
  destruct (decide (Q a)); destruct (decide (P a));
    rewrite ?filter_cons, ?decide_True, ?decide_False by done; simpl; lia.
Qed.

(** A list with at most one element per id, all ids among [ms], is no
    longer than [ms]. *)
Lemma length_at_most_ids {A} (id : A → Z) (ms : list Z) (l : list A) :
  (∀ a, a ∈ l → id a ∈ ms) →
  (∀ m, (length (filter (λ a, id a = m) l) ≤ 1)%nat) →
  (length l ≤ length ms)%nat.
Proof.
  revert l. induction ms as [|m ms IH]; intros l Hin Hone.
  - destruct l as [|a l]; [done|].
    specialize (Hin a). by apply elem_of_nil in Hin; [|left].
  - rewrite <- (filter_app_complement (λ a, id a = m) l), length_app.
    specialize (Hone m) as H1.
    assert (length (filter (λ a, ¬ id a = m) l) ≤ length ms)%nat; [|simpl; lia].
    apply IH.
    + intros a [Hne Ha]%list_elem_of_filter.
      apply Hin in Ha. apply elem_of_cons in Ha as [?|?]; done.
    + intros m'. etrans; [|apply (Hone m')]. apply length_filter_filter.
Qed.

(** In a feasible solution at most one key per mechanic has value 1. *)
Lemma chosen_once available self data self' model val m :
  NoDup (mechanics data) → NoDup (bases data) →
  NoDup (periods data) → NoDup (shifts data) →
  Optimizer.create_model available self data = Ok (self', model) →
  feasible (Optimizer.m_solver model) val →
  (length (filter (λ k, k.1.1.1 = m)
     (filter (λ k, chosen (λ v, inject_Z (val v)) (Optimizer.m_x model) k = true)
        (keys4 (mechanics data) (bases data) (periods data) (shifts data))))
   ≤ 1)%nat.
Proof.
  intros Hms Hbs Hgs Hss Hrun Hfeas.
  pose proof Hrun as Hinv.
  apply create_model_inv in Hinv
    as (c1 & c2 & c3 & c4 & c5 & sv1 & sv2 & sv3 & _ & Hx & _ & _ & _ & Hc1
        & _ & _ & _ & _ & Hcons & _).
  rewrite Hx.
  set (ks := keys4 (mechanics data) (bases data) (periods data) (shifts data))
    in *.
  destruct (decide (2 ≤ length
    (filter (λ k, k.1.1.1 = m)
       (filter (λ k, chosen (λ v, inject_Z (val v)) (x_dict ks) k = true) ks)))%nat)
    as [Hlen|]; [|lia].
  exfalso. apply NoDup_two in Hlen as (k1 & k2 & Hk1 & Hk2 & Hne).
  2: { by apply NoDup_filter, NoDup_filter, NoDup_keys4. }
  apply list_elem_of_filter in Hk1 as [Hm1 [Hch1 Hin1]%list_elem_of_filter].
  apply list_elem_of_filter in Hk2 as [Hm2 [Hch2 Hin2]%list_elem_of_filter].
  apply chosen_integer in Hch1; [|done]. apply chosen_integer in Hch2; [|done].
  destruct k1 as [[[m1 b1] g1] s1], k2 as [[[m2 b2] g2] s2]. simpl in *.
  subst m1 m2.
  pose proof Hin1 as (Hm & Hb1 & Hg1 & Hs1)%elem_of_keys4.
  pose proof Hin2 as (_ & Hb2 & Hg2 & Hs2)%elem_of_keys4.
  destruct (for_collect_each _ _ _ m Hc1 Hm) as [r Hr].
  pose proof Hr as Hr'.
  apply single_assignment_spec in Hr as (c & -> & _ & Hub & _ & _ & Hco).
  assert (c ∈ constraints (Optimizer.m_solver model)) as Hc.
  { rewrite Hcons, elem_of_app. left.
    apply (for_collect_elem _ _ _ c Hc1). exists m, [c].
    split_and!; [done..|]. left. }
  destruct (proj2 Hfeas c Hc) as [_ Hle]. rewrite Hub in Hle. simpl in Hle.
  assert (1 * val (X m b1 g1 s1) + 1 * val (X m b2 g2 s2)
          ≤ linear val (c_coeffs c)); [|lia].
  apply linear_two.
  - apply Hco. split; [done|]. by exists b1, g1, s1.
  - apply Hco. split; [done|]. by exists b2, g2, s2.
  - congruence.
  - intros v a [-> (b & g & s & Hb & Hg & Hs & ->)]%Hco.
    assert ((m, b, g, s) ∈ ks) as Hk by by apply elem_of_keys4.
    pose proof (declared_bounds _ _ _ _ _ val _ Hrun Hfeas Hk) as Hbd.
    simpl in Hbd. lia.
Qed.

(** X24. From a feasible solution of a model over duplicate-free ids,
    [extract_solution] returns at most as many records as there are
    mechanics, each for a mechanic of the pool: the number of unassigned
    mechanics shown by the application is never negative. *)
Theorem assignments_at_most_mechanics available self data self' model val :
  NoDup (mechanics data) → NoDup (bases data) →
  NoDup (periods data) → NoDup (shifts data) →
  Optimizer.create_model available self data = Ok (self', model) →
  feasible (Optimizer.m_solver model) val →
  ∃ assignments total,
    Optimizer.extract_solution (λ v, inject_Z (val v)) self'
      (mechanics data) (bases data) (periods data) (shifts data)
      (cost_dict data) = Ok (assignments, total) ∧
    (length assignments ≤ length (mechanics data))%nat ∧
    (∀ a, a ∈ assignments → Optimizer.mechanic_id a ∈ mechanics data).
Proof.
  intros Hms Hbs Hgs Hss Hrun Hfeas.
  pose proof Hrun as Hinv.
  apply create_model_inv in Hinv
    as (c1 & c2 & c3 & c4 & c5 & sv1 & sv2 & sv3 & Hx & Hmx & _).
  eexists _, _. split.
  { apply (extract_solution_result _ _ _ _ _ _ _ _ Hx).
    apply Forall_forall. intros k Hk. exists (X4 k). by apply lookup_x_dict. }
  rewrite <- Hmx.
  set (l := filter (λ k, chosen (λ v, inject_Z (val v)) (Optimizer.m_x model) k
                         = true)
              (keys4 (mechanics data) (bases data) (periods data) (shifts data))).
  assert (∀ k, k ∈ l → k.1.1.1 ∈ mechanics data) as Hids.
  { intros [[[m b] g] s] [_ Hk%elem_of_keys4]%list_elem_of_filter. tauto. }
  assert (∀ m, (length (filter (λ k, k.1.1.1 = m) l) ≤ 1)%nat) as Hone.
  { intros m. by apply (chosen_once available self data self'). }
  split.
  - rewrite length_fmap. by apply (length_at_most_ids (λ k, k.1.1.1)).
  - intros a (k & -> & Hk)%list_elem_of_fmap. rewrite mechanic_id_at.
    by apply Hids.
Qed.


Lemma assignments_at_most_mechanics_witness :
  NoDup (mechanics (Sample.data (Some (Ok Sample.avoidance)))) ∧
  NoDup (bases (Sample.data (Some (Ok Sample.avoidance)))) ∧
  NoDup (periods (Sample.data (Some (Ok Sample.avoidance)))) ∧
  NoDup (shifts (Sample.data (Some (Ok Sample.avoidance)))) ∧
  Sample.build (Some (Ok Sample.avoidance)) =
    Ok ((Sample.built (Some (Ok Sample.avoidance))).1,
        (Sample.built (Some (Ok Sample.avoidance))).2) ∧
  feasible (Optimizer.m_solver (Sample.built (Some (Ok Sample.avoidance))).2)
    Sample.together ∧
  ∃ assignments total,
    Sample.extract Sample.value (Some (Ok Sample.avoidance)) =
      Ok (assignments, total) ∧
    (length assignments ≤
     length (mechanics (Sample.data (Some (Ok Sample.avoidance)))))%nat ∧
    (∀ a, a ∈ assignments →
       Optimizer.mechanic_id a ∈
       mechanics (Sample.data (Some (Ok Sample.avoidance)))).
Proof.
  assert (NoDup (mechanics (Sample.data (Some (Ok Sample.avoidance))))) as H1
    by by_evaluation.
  assert (NoDup (bases (Sample.data (Some (Ok Sample.avoidance))))) as H2
    by by_evaluation.
  assert (NoDup (periods (Sample.data (Some (Ok Sample.avoidance))))) as H3
    by by_evaluation.
  assert (NoDup (shifts (Sample.data (Some (Ok Sample.avoidance))))) as H4
    by by_evaluation.
  split_and!; [exact H1 | exact H2 | exact H3 | exact H4 | exact sample_built
              | exact sample_feasible |].
  exact (assignments_at_most_mechanics (λ _, true) Sample.optimizer
           (Sample.data (Some (Ok Sample.avoidance))) _ _
           Sample.together H1 H2 H3 H4 sample_built sample_feasible).
Defined.

Lemma organize_loop (self : ExcelGenerator.ExcelGenerator)
    (l : list Optimizer.Assignment)
    (d : gmap (ExcelGenerator.base_key * Z) (list ExcelGenerator.AssignmentInfo))
    key :
  foldl (λ d a,
      let base_id := Optimizer.base_id a in
      let shift := Optimizer.shift a in
      let key := (ExcelGenerator.base_letter self base_id, shift) in
      let d := if bool_decide (is_Some (d !! key)) then d
               else <[key := []]> d in
      alter (λ l, l ++ [ExcelGenerator.entry a]) key d) d l !! key =
  match d !! key with
  | Some old =>
      Some (old ++ (ExcelGenerator.entry <$> filter (λ a, group_key self a = key) l))
  | None =>
      match filter (λ a, group_key self a = key) l with
      | [] => None
      | a :: rest => Some (ExcelGenerator.entry <$> a :: rest)
      end
  end.
Proof.
  revert d. induction l as [|a l IH]; intros d.
  - simpl. destruct (d !! key); [by rewrite app_nil_r | done].
  - cbn [foldl]. rewrite IH. clear IH. cbv zeta. fold (group_key self a).
    rewrite filter_cons.
    destruct (decide (group_key self a = key)) as [<-|Hne].
    + rewrite lookup_alter_eq.
      destruct (d !! group_key self a) as [old|] eqn:Hd.
      * rewrite bool_decide_true by by eexists. rewrite Hd. simpl.
        by rewrite <- app_assoc.
      * rewrite bool_decide_false by (by intros [? ?]).
        rewrite lookup_insert_eq. simpl. done.
    + rewrite lookup_alter_ne by done.
      case_bool_decide; [done|]. by rewrite lookup_insert_ne.
Qed.

(** X25. The grouping of the assignments for the sheet: the group of a
    key, a base letter (the base id when the base has no letter) and a
    shift, holds the entries of the assignments with that key, in their
    order; every assignment is in the group of its key, and a group holds
    nothing else. *)
Theorem organize_groups (self : ExcelGenerator.ExcelGenerator)
    (assignments : list Optimizer.Assignment) :
  (∀ key,
     ExcelGenerator.organize self assignments !! key =
     match filter (λ a, group_key self a = key) assignments with
     | [] => None
     | a :: rest => Some (ExcelGenerator.entry <$> a :: rest)
     end) ∧
  (∀ a, a ∈ assignments →
     ∃ l, ExcelGenerator.organize self assignments !! group_key self a = Some l ∧
          ExcelGenerator.entry a ∈ l) ∧
  (∀ key l info,
     ExcelGenerator.organize self assignments !! key = Some l → info ∈ l →
     ∃ a, a ∈ assignments ∧ group_key self a = key ∧ ExcelGenerator.entry a = info).
Proof.
  assert (∀ key,
     ExcelGenerator.organize self assignments !! key =
     match filter (λ a, group_key self a = key) assignments with
     | [] => None
     | a :: rest => Some (ExcelGenerator.entry <$> a :: rest)
     end) as Hgroups.
  { intros key. unfold ExcelGenerator.organize. by rewrite organize_loop, lookup_empty. }
  split; [done|]. split.
  - intros a Ha. rewrite Hgroups.
    assert (a ∈ filter (λ a', group_key self a' = group_key self a) assignments)
      as Hin by by apply list_elem_of_filter.
    destruct (filter _ assignments) as [|a0 rest] eqn:Hf;
      [by apply elem_of_nil in Hin|].
    eexists. split; [done|]. apply list_elem_of_fmap. by exists a.
  - intros key l info. rewrite Hgroups.
    destruct (filter _ assignments) as [|a0 rest] eqn:Hf; [done|].
    intros Heq Hin. assert (l = ExcelGenerator.entry <$> a0 :: rest) as -> by congruence.
    apply list_elem_of_fmap in Hin as (a & -> & Ha).
    rewrite <- Hf in Ha. apply list_elem_of_filter in Ha as [Hk Ha].
    by exists a.
Qed.

(** ** From the loader to the builder *)

Lemma column_cell df c l (row : gmap string cell) :
  DataLoader.column df c = Ok l → row ∈ rows df →
  ∃ v, row !! c = Some v ∧ v ∈ l.
Proof.
  intros [_ Hall]%column_Ok Hrow.
  induction Hall as [|row' v rs l Hv _ IH]; [by apply elem_of_nil in Hrow|].
  apply elem_of_cons in Hrow as [-> | Hrow].
  - exists v. split; [done | left].
  - destruct (IH Hrow) as (v' & ? & ?). exists v'. split; [done | by right].
Qed.

Lemma column_row df c l v :
  DataLoader.column df c = Ok l → v ∈ l →
  ∃ row, row ∈ rows df ∧ row !! c = Some v.
Proof.
  intros [_ Hall]%column_Ok Hv.
  induction Hall as [|row v' rs l Hv' _ IH]; [by apply elem_of_nil in Hv|].
  apply elem_of_cons in Hv as [-> | Hv].
  - exists row. split; [left | done].
  - destruct (IH Hv) as (row' & ? & ?). exists row'. split; [by right | done].
Qed.

(** An id list computed from a column holds the integers of the column. *)
Lemma ids_of_column su df c ids z :
  distinct_ints su →
  DataLoader.column df c ≫= su = Ok ids →
  z ∈ ids ↔ ∃ row, row ∈ rows df ∧ subscript row c ≫= py_int = Ok z.
Proof.
  intros Hsu (l & Hl & Hids)%bind_Ok. rewrite (Hsu l ids Hids z). split.
  - intros (v & Hv & Hz).
    destruct (column_row _ _ _ _ Hl Hv) as (row & Hrow & Hc).
    exists row. split; [done|].
    by rewrite (proj2 (subscript_Ok row c v) Hc).
  - intros (row & Hrow & (v & Hv%subscript_Ok & Hz)%bind_Ok).
    destruct (column_cell _ _ _ row Hl Hrow) as (v' & Hv' & Hin).
    exists v. split; [|done]. congruence.
Qed.

Lemma load_data_ids su self f1 f2 f3 av data log :
  DataLoader.load_data su self f1 f2 f3 av = Ok (data, log) →
  DataLoader.column (mechanic_skills_df data) "mechanic_id" ≫= su
    = Ok (mechanics data) ∧
  DataLoader.column (base_schedule_df data) "base_id" ≫= su
    = Ok (bases data) ∧
  DataLoader.column (base_schedule_df data) "period" ≫= su
    = Ok (periods data) ∧
  DataLoader.column (base_schedule_df data) "shift" ≫= su
    = Ok (shifts data).
Proof.
  unfold DataLoader.load_data.
  destruct f1 as [df1|]; simpl; [|done].
  destruct (DataLoader.column df1 "mechanic_id" ≫= su) as [ms|] eqn:Hms;
    simpl; [|done].
  destruct f2 as [df2|]; simpl; [|done].
  destruct (DataLoader.column df2 "base_id" ≫= su) as [bs|] eqn:Hbs;
    simpl; [|done].
  destruct (DataLoader.column df2 "period" ≫= su) as [gs|] eqn:Hgs;
    simpl; [|done].
  destruct (DataLoader.column df2 "shift" ≫= su) as [ss|] eqn:Hss;
    simpl; [|done].
  destruct f3 as [df3|]; simpl; [|done].
  destruct (for_fold _ (rows df3) ∅) as [cd|]; simpl; [|done].
  destruct (DataLoader.load_avoidance av) as [d lg]. by intros [= <- <-].
Qed.

(** X26. When the id lists are the distinct integers of their columns,
    the data returned by [load_data] fits the builder: the pool is exactly
    the ids of the rows of the skill table, every row of the schedule names
    a base, a period and a shift of the lists, and every base of the list
    occurs in a row. *)
Theorem loaded_data_keys su loader f1 f2 f3 av data log :
  distinct_ints su →
  DataLoader.load_data su loader f1 f2 f3 av = Ok (data, log) →
  (∀ m, m ∈ mechanics data ↔
     ∃ row, row ∈ rows (mechanic_skills_df data) ∧
            subscript row "mechanic_id" ≫= py_int = Ok m) ∧
  (∀ row b g s, row ∈ rows (base_schedule_df data) →
     Optimizer.row_slot row = Ok (b, g, s) →
     b ∈ bases data ∧ g ∈ periods data ∧ s ∈ shifts data) ∧
  (∀ b, b ∈ bases data →
     ∃ row, row ∈ rows (base_schedule_df data) ∧
            subscript row "base_id" ≫= py_int = Ok b).
Proof.
  intros Hsu Hload.
  destruct (load_data_ids _ _ _ _ _ _ _ _ Hload) as (Hms & Hbs & Hgs & Hss).
  split; [intros m; by apply (ids_of_column su)|]. split.
  - intros row b g s Hrow Hslot. unfold Optimizer.row_slot in Hslot.
    apply bind_Ok in Hslot as (b' & Hb & Hslot).
    apply bind_Ok in Hslot as (g' & Hg & Hslot).
    apply bind_Ok in Hslot as (s' & Hs & [= -> -> ->]).
    split_and!.
    + apply (ids_of_column su _ _ _ _ Hsu Hbs). by exists row.
    + apply (ids_of_column su _ _ _ _ Hsu Hgs). by exists row.
    + apply (ids_of_column su _ _ _ _ Hsu Hss). by exists row.
  - intros b. by apply (ids_of_column su).
Qed.

Lemma int_sorted_unique_distinct : distinct_ints DataLoader.int_sorted_unique.
Proof.
  intros l r (ids & Hids & [= <-])%bind_Ok z.
  rewrite merge_sort_Permutation, elem_of_remove_dups.
  rewrite (for_collect_elem _ _ _ z Hids). split.
  - intros (c & rc & Hc & (z' & Hz & [= <-])%bind_Ok & ->%list_elem_of_singleton).
    by exists c.
  - intros (c & Hc & Hz). exists c, [z]. split_and!; [done | | left].
    by rewrite Hz.
Qed.

Lemma loaded_data_keys_witness :
  distinct_ints DataLoader.int_sorted_unique ∧
  Sample.load None = Ok (Sample.data None, Sample.log None) ∧
  (3 ∈ mechanics (Sample.data None) ↔
   ∃ row, row ∈ rows (mechanic_skills_df (Sample.data None)) ∧
          subscript row "mechanic_id" ≫= py_int = Ok 3).
Proof.
  split; [exact int_sorted_unique_distinct|].
  split; [exact sample_load_none|].
  exact (proj1 (loaded_data_keys DataLoader.int_sorted_unique
                  DataLoader.__init__ (Ok Sample.skills) (Ok Sample.schedule)
                  (Ok Sample.costs) None (Sample.data None) (Sample.log None)
                  int_sorted_unique_distinct sample_load_none) 3).
Defined.
